(** * quickTor: the API booking client ([src/api-booker.ts])

    A shallow embedding of [ApiBarberBooker] and the properties of its
    session handling, login, time lookup and booking flow.

    Modelling conventions.
    - JavaScript strings are [string]s: sequences of code units below 256.
      This is exact for HTTP header values (Node decodes them as latin1) and
      covers every literal of the source.
    - Numbers that the source uses as identifiers and HTTP statuses are
      integers, modelled in [Z].  Where a number is printed (in a joined
      list of identifiers, in a template string) the model prints all its
      digits, as JavaScript does for integers below 10^21 in absolute
      value; from there on JavaScript prints an exponent, and the model
      does not follow it.
    - The vendor server, seen through the HTTP transport, is a function
      [server] from the exchanges made so far and the request being sent to
      the outcome of that request (for a request that follows redirects the
      outcome is the final response).  Every theorem quantifies over it.
    - A method of the class is a computation in the monad [M]: it threads the
      client state (the cookie store and the log of exchanges) and either
      returns a value or throws a JavaScript error.
    - [console.log] and [console.error] have no effect on the client state or
      on the results and are left out. *)

From Stdlib Require Import String Ascii List ZArith Lia Bool DecimalString.
Import ListNotations.
Open Scope string_scope.
Open Scope Z_scope.

Set Implicit Arguments.

(* ------------------------------------------------------------------ *)
(** ** JavaScript string primitives *)

Module JS.

(** Truthiness of a string: every string but the empty one. *)
Definition truthy (s : string) : bool :=
  match s with EmptyString => false | String _ _ => true end.

(** [a || b] on strings. *)
Definition or_else (a b : string) : string := if truthy a then a else b.

(** White space and line terminators of ECMAScript among the code units
    below 256: TAB, LF, VT, FF, CR, SP and NBSP. *)
Definition is_white (c : ascii) : bool :=
  let n := nat_of_ascii c in
  (Nat.leb 9 n && Nat.leb n 13) || Nat.eqb n 32 || Nat.eqb n 160.

Fixpoint trimStart (s : string) : string :=
  match s with
  | EmptyString => EmptyString
  | String c r => if is_white c then trimStart r else s
  end.

Fixpoint trimEnd (s : string) : string :=
  match s with
  | EmptyString => EmptyString
  | String c r =>
      match trimEnd r with
      | EmptyString => if is_white c then EmptyString else String c EmptyString
      | t => String c t
      end
  end.

(** [String.prototype.trim]. *)
Definition trim (s : string) : string := trimEnd (trimStart s).

(** [String.prototype.split] with a one-character separator: the result is
    never empty, and the empty string gives one empty piece. *)
Fixpoint split (sep : ascii) (s : string) : list string :=
  match s with
  | EmptyString => [EmptyString]
  | String c r =>
      if Ascii.eqb c sep then EmptyString :: split sep r
      else match split sep r with
           | h :: t => String c h :: t
           | [] => [String c EmptyString]
           end
  end.

(** [Array.prototype.join] on an array of strings. *)
Fixpoint join (sep : string) (l : list string) : string :=
  match l with
  | [] => EmptyString
  | [x] => x
  | x :: r => x ++ sep ++ join sep r
  end.

(** Decimal rendering of an integer, as [String(n)], [join] and template
    strings give it for an integer below 10^21 in absolute value (the
    identifiers and statuses the client handles are far below). *)
Definition show_num (n : Z) : string := NilZero.string_of_int (Z.to_int n).

(** Strip a literal prefix: [Some rest] when [s = p ++ rest]. *)
Fixpoint strip_prefix (p s : string) : option string :=
  match p, s with
  | EmptyString, _ => Some s
  | String a p', String b s' => if Ascii.eqb a b then strip_prefix p' s' else None
  | String _ _, EmptyString => None
  end.

(** *** [encodeURIComponent] *)

Definition hex_digit (n : nat) : ascii :=
  ascii_of_nat (if Nat.ltb n 10 then 48 + n else 55 + n)%nat.

Definition pct (n : nat) : string :=
  String "%" (String (hex_digit (Nat.div n 16)) (String (hex_digit (Nat.modulo n 16)) EmptyString)).

Definition unreserved (c : ascii) : bool :=
  let n := nat_of_ascii c in
  (Nat.leb 65 n && Nat.leb n 90) || (Nat.leb 97 n && Nat.leb n 122)
  || (Nat.leb 48 n && Nat.leb n 57)
  || existsb (Ascii.eqb c) ["-"; "_"; "."; "!"; "~"; "*"; "'"; "("; ")"]%char.

(** Code units from 128 to 255 are the code points U+0080 to U+00FF, whose
    UTF-8 form has two bytes. *)
Fixpoint encodeURIComponent (s : string) : string :=
  match s with
  | EmptyString => EmptyString
  | String c r =>
      let n := nat_of_ascii c in
      (if unreserved c then String c EmptyString
       else if Nat.ltb n 128 then pct n
       else pct (192 + Nat.div n 64) ++ pct (128 + Nat.modulo n 64))
      ++ encodeURIComponent r
  end.

End JS.

(* ------------------------------------------------------------------ *)
(** ** HTTP data *)

(** A value of a query parameter. *)
Inductive Value : Type :=
| VNum (n : Z)
| VStr (s : string)
| VUndefined.

(** The payload of a response as the client looks at it: a string (on
    which [match] can be called), or some other value, of which only the
    [message] property (a string, when present) is ever read. *)
Inductive Data : Type :=
| DStr (s : string)
| DObj (message : option string)
| DNull.

Inductive Method : Type := GET | POST.

Record Response : Type := mkResponse {
  status : Z;
  set_cookie : option (list string);   (* [headers['set-cookie']] *)
  data : Data
}.

Record Request : Type := mkRequest {
  method : Method;
  url : string;
  params : list (string * Value);
  headers : list (string * string);
  body : option string;
  maxRedirects : option Z
}.

(** What the transport gives back: a response, or a failure without one
    (connection refused, time-out, too many redirects). *)
Inductive Outcome : Type :=
| Resp (r : Response)
| NetErr (msg : string).

Definition Exchange : Type := (Request * Outcome)%type.

(** A thrown JavaScript error: [message] is empty when the error has none,
    [response] is [error.response]. *)
Record JsError : Type := mkError {
  message : string;
  response : option Response
}.

(* ------------------------------------------------------------------ *)
(** ** Client state and the monad of methods *)

Record Client : Type := mkClient {
  sessionCookies : list string;
  history : list Exchange
}.

(** [new ApiBarberBooker()]. *)
Definition new_client : Client := {| sessionCookies := []; history := [] |}.

Inductive Result (A : Type) : Type :=
| Ok (a : A)
| Throw (e : JsError).
Arguments Throw {A} e.

Definition M (A : Type) : Type := Client -> Result A * Client.

Definition ret {A} (a : A) : M A := fun w => (Ok a, w).

Definition throw {A} (e : JsError) : M A := fun w => (Throw e, w).

Definition bind {A B} (m : M A) (k : A -> M B) : M B :=
  fun w => match m w with
           | (Ok a, w') => k a w'
           | (Throw e, w') => (Throw e, w')
           end.

(** [try { body } catch (error) { handler }]. *)
Definition try_catch {A} (body : M A) (handler : JsError -> M A) : M A :=
  fun w => match body w with
           | (Ok a, w') => (Ok a, w')
           | (Throw e, w') => handler e w'
           end.

Declare Scope js_scope.
Delimit Scope js_scope with js.
Notation "x <- m ;; k" := (bind m (fun x => k))
  (at level 61, m at next level, right associativity) : js_scope.
Notation "m ;;; k" := (bind m (fun _ => k))
  (at level 61, right associativity) : js_scope.
Open Scope js_scope.

(* ------------------------------------------------------------------ *)
(** ** The response interceptor: capturing cookies (lines 45-64) *)

Module Cookies.

(** A JavaScript [Map] from strings to strings: entries in insertion
    order; [set] on a key already present replaces the value in place. *)
Definition CookieMap : Type := list (string * string).

Fixpoint map_set (k v : string) (m : CookieMap) : CookieMap :=
  match m with
  | [] => [(k, v)]
  | (k', v') :: r =>
      if String.eqb k' k then (k', v) :: r else (k', v') :: map_set k v r
  end.

(** What one [Set-Cookie] line contributes: the text before the first
    semicolon, trimmed, cut at its first equals sign. *)
Definition parse_cookie (cookieHeader : string) : option (string * string) :=
  let cookiePart := JS.trim (hd EmptyString (JS.split ";" cookieHeader)) in
  if JS.truthy cookiePart then
    match JS.split "=" cookiePart with
    | name :: valueParts =>
        if JS.truthy name && Nat.ltb 0 (length valueParts)
        then Some (JS.trim name, JS.join "=" valueParts)
        else None
    | [] => None
    end
  else None.

(** The body of the [forEach] callback. *)
Definition cookie_step (cookieMap : CookieMap) (cookieHeader : string) : CookieMap :=
  match parse_cookie cookieHeader with
  | Some (name, value) => map_set name value cookieMap
  | None => cookieMap
  end.

Definition collect (setCookieHeaders : list string) : CookieMap :=
  fold_left cookie_step setCookieHeaders [].

(** The template string [`${name}=${value}`]. *)
Definition render (entry : string * string) : string :=
  fst entry ++ "=" ++ snd entry.

(** The new value of [sessionCookies] after a response whose
    [headers['set-cookie']] is [setCookieHeaders]. *)
Definition capture (setCookieHeaders : option (list string))
           (sessionCookies : list string) : list string :=
  match setCookieHeaders with
  | Some hs => map render (collect hs)
  | None => sessionCookies
  end.

End Cookies.

(* ------------------------------------------------------------------ *)
(** ** The verification-token pattern (line 112)

    The literal [__RequestVerificationToken], then any run of characters
    other than [>], then [value=], a quote (double or single), a non-empty
    run of non-quote characters (the captured group) and a quote.  It is
    matched the way a backtracking engine does: leftmost start, the longest
    run first, giving back one character at a time. *)

Module Token.

Definition dquote : ascii := ascii_of_nat 34.
Definition squote : ascii := ascii_of_nat 39.

Definition is_quote (c : ascii) : bool := Ascii.eqb c dquote || Ascii.eqb c squote.

(** The group and the closing quote at the start of [s]: the longest run
    of non-quote characters, which must be non-empty and followed by a
    quote (a shorter run is followed by a non-quote, so giving back
    characters never helps). *)
Fixpoint capture_run (s : string) : option string :=
  match s with
  | EmptyString => None
  | String c r =>
      if is_quote c then None
      else match r with
           | EmptyString => None
           | String d _ =>
               if is_quote d then Some (String c EmptyString)
               else option_map (String c) (capture_run r)
           end
  end.

(** [value=], the opening quote, the group and the closing quote at the
    start of [s]. *)
Definition match_value (s : string) : option string :=
  match JS.strip_prefix "value=" s with
  | Some (String q r) => if is_quote q then capture_run r else None
  | _ => None
  end.

(** The run of characters other than [>] and what follows it, at the
    start of [s]: longest run first. *)
Fixpoint match_attrs (s : string) : option string :=
  match s with
  | EmptyString => match_value s
  | String c r =>
      if Ascii.eqb c ">" then match_value s
      else match match_attrs r with
           | Some t => Some t
           | None => match_value s
           end
  end.

Definition match_here (s : string) : option string :=
  match JS.strip_prefix "__RequestVerificationToken" s with
  | Some rest => match_attrs rest
  | None => None
  end.

(** [html.match(pattern)]: [Some token] is [tokenMatch[1]], [None] is a
    [null] match. *)
Fixpoint token_match (html : string) : option string :=
  match match_here html with
  | Some t => Some t
  | None =>
      match html with
      | EmptyString => None
      | String _ r => token_match r
      end
  end.

End Token.

(* ------------------------------------------------------------------ *)
(** ** The class [ApiBarberBooker] *)

(** [BookingConfig] and [BookingResult] (lines 4-19); an optional field that
    is absent is [None]. *)
Record BookingConfig : Type := mkConfig {
  mobile : string;
  serviceTypeId : option Z;
  schedulerId : option Z;
  date : option string;
  time : option string;
  branchId : option Z
}.

Record BookingResult : Type := mkResult {
  success : bool;
  result_message : option string;
  appointmentId : option string;
  result_date : option string;
  result_time : option string
}.

(** Truthiness of an optional string field: an absent field and the empty
    string are falsy. *)
Definition truthy_str (o : option string) : bool :=
  match o with Some s => JS.truthy s | None => false end.

(** [config.date && config.time] as a condition. *)
Definition wants_booking (date time : option string) : bool :=
  truthy_str date && truthy_str time.

(** [o || d] for an optional number: an absent field and zero are falsy. *)
Definition num_or (o : option Z) (d : Z) : Z :=
  match o with Some n => if n =? 0 then d else n | None => d end.

Definition baseUrl : string := "https://mentor.tormahir.co.il".

(** The headers given to [axios.create] (lines 34-41). *)
Definition default_headers : list (string * string) :=
  [ ("User-Agent", "Mozilla/5.0 (Windows NT 10.0; Win64; x64) AppleWebKit/537.36");
    ("Accept", "text/html,application/xhtml+xml,application/xml;q=0.9,*/*;q=0.8");
    ("Accept-Language", "en-US,en;q=0.9,he;q=0.8");
    ("Accept-Encoding", "gzip, deflate, br");
    ("Connection", "keep-alive");
    ("Upgrade-Insecure-Requests", "1") ].

(** The per-request configuration object of axios. *)
Record Config : Type := mkCfg {
  cfg_params : list (string * Value);
  cfg_headers : list (string * string);
  cfg_maxRedirects : option Z;
  cfg_validateStatus : option (Z -> bool)
}.

Definition no_config : Config :=
  {| cfg_params := []; cfg_headers := []; cfg_maxRedirects := None;
     cfg_validateStatus := None |}.

(** The default [validateStatus] of axios, and the one the source passes:
    [(status) => status >= 200 && status < 400]. *)
Definition default_validate (s : Z) : bool := (200 <=? s) && (s <? 300).
Definition lenient_validate (s : Z) : bool := (200 <=? s) && (s <? 400).

(** The request interceptor (lines 67-72). *)
Definition add_cookies (cookies : list string) (req : Request) : Request :=
  if Nat.ltb 0 (length cookies)
  then {| method := method req; url := url req; params := params req;
          headers := (headers req ++ [("Cookie", JS.join "; " cookies)])%list;
          body := body req; maxRedirects := maxRedirects req |}
  else req.

Definition ajax_headers : list (string * string) :=
  [ ("Content-Type", "application/x-www-form-urlencoded");
    ("X-Requested-With", "XMLHttpRequest") ].

(** The [message] property of the payload of a response; empty when there
    is none. *)
Definition server_message (r : Response) : string :=
  match data r with
  | DObj (Some m) => m
  | _ => EmptyString
  end.

Section Booker.

(** The vendor server behind the transport. *)
Variable server : list Exchange -> Request -> Outcome.

(** The request that leaves the client: the defaults of the instance, the
    configuration of the call, and the stored cookies. *)
Definition build_request (cookies : list string) (m : Method) (u : string)
           (b : option string) (cfg : Config) : Request :=
  add_cookies cookies
    {| method := m; url := u; params := cfg_params cfg;
       headers := (default_headers ++ cfg_headers cfg)%list;
       body := b; maxRedirects := cfg_maxRedirects cfg |}.

Definition validate_of (cfg : Config) : Z -> bool :=
  match cfg_validateStatus cfg with
  | Some f => f
  | None => default_validate
  end.

(** How axios settles the promise of a call: a response whose status
    [validateStatus] accepts is returned; any other response is thrown
    with the response attached; a failure of the transport is thrown
    without one. *)
Definition settle (validate : Z -> bool) (out : Outcome) : Result Response :=
  match out with
  | NetErr msg => Throw {| message := msg; response := None |}
  | Resp r =>
      if validate (status r) then Ok r
      else Throw {| message := "Request failed with status code "
                                 ++ JS.show_num (status r);
                    response := Some r |}
  end.

(** The response interceptor is registered with a handler for returned
    responses only: a thrown response does not reach it. *)
Definition intercept_response (res : Result Response) (cookies : list string)
  : list string :=
  match res with
  | Ok r => Cookies.capture (set_cookie r) cookies
  | Throw _ => cookies
  end.

(** One call of the axios instance. *)
Definition send (m : Method) (u : string) (b : option string) (cfg : Config)
  : M Response :=
  fun w =>
    let req := build_request (sessionCookies w) m u b cfg in
    let out := server (history w) req in
    let res := settle (validate_of cfg) out in
    (res,
     {| sessionCookies := intercept_response res (sessionCookies w);
        history := (history w ++ [(req, out)])%list |}).

Definition get (u : string) (cfg : Config) : M Response := send GET u None cfg.
Definition post (u : string) (b : option string) (cfg : Config) : M Response :=
  send POST u b cfg.

(** [error.response?.status === s]. *)
Definition response_status_is (error : JsError) (s : Z) : bool :=
  match response error with
  | Some r => status r =? s
  | None => false
  end.

(** Step 1 (lines 78-92). *)
Definition validateMobile (mobile : string) : M bool :=
  try_catch
    (response <- post "/Validate/Mobile" None
                   {| cfg_params := [("Mobile", VStr mobile)];
                      cfg_headers := ajax_headers;
                      cfg_maxRedirects := None;
                      cfg_validateStatus := None |} ;;
     ret (status response =? 200))
    (fun _ => ret false).

(** [loginPage.data.match(pattern)]: a [TypeError] when the payload is not
    a string (the text of the error is only logged). *)
Definition data_match (d : Data) : M (option string) :=
  match d with
  | DStr html => ret (Token.token_match html)
  | _ => throw {| message := "loginPage.data.match is not a function";
                  response := None |}
  end.

Definition login_submit (mobile verificationToken : string) : M Response :=
  post "/Account/LoginMobileClient"
    (Some ("Mobile=" ++ JS.encodeURIComponent mobile
           ++ "&__RequestVerificationToken="
           ++ JS.encodeURIComponent verificationToken))
    {| cfg_params := [];
       cfg_headers := [ ("Content-Type", "application/x-www-form-urlencoded");
                        ("Referer", baseUrl ++ "/Account/LoginClients") ];
       cfg_maxRedirects := Some 0;
       cfg_validateStatus := Some lenient_validate |}.

(** Step 2 (lines 97-141). *)
Definition login (mobile : string) : M bool :=
  try_catch
    (isValid <- validateMobile mobile ;;
     if negb isValid then ret false
     else
       loginPage <- get "/Account/LoginClients"
                      {| cfg_params := [ ("CustomerID", VNum 0);
                                         ("ReturnUrl", VStr "/Clients/MakeAppoitment") ];
                         cfg_headers := [];
                         cfg_maxRedirects := None;
                         cfg_validateStatus := None |} ;;
       tokenMatch <- data_match (data loginPage) ;;
       match tokenMatch with
       | None => ret false
       | Some verificationToken =>
           response <- login_submit mobile verificationToken ;;
           ret ((status response =? 200) || (status response =? 302))
       end)
    (fun error =>
       if response_status_is error 302 || response_status_is error 200
       then ret true
       else ret false).

(** [appointmentTypeIds[0]]: [undefined] on an empty array. *)
Definition first_id (appointmentTypeIds : list Z) : Value :=
  match appointmentTypeIds with
  | x :: _ => VNum x
  | [] => VUndefined
  end.

(** [appointmentTypeIds.join(',')]. *)
Definition join_ids (appointmentTypeIds : list Z) : string :=
  JS.join "," (map JS.show_num appointmentTypeIds).

(** A value inside a template string. *)
Definition show_value (v : Value) : string :=
  match v with
  | VNum n => JS.show_num n
  | VStr s => s
  | VUndefined => "undefined"
  end.

Definition default (o : option Z) (d : Z) : Z :=
  match o with Some n => n | None => d end.

(** The four requests of [getAvailableTimes]. *)
Definition visit_type_select : M Response :=
  get "/Clients/TypeSelect/0"
    {| cfg_params := []; cfg_headers := [];
       cfg_maxRedirects := Some 5;
       cfg_validateStatus := Some lenient_validate |}.

Definition visit_scheduler_select (idsParam : Value) (branchId : Z) : M Response :=
  get "/Clients/SchedulerSelect"
    {| cfg_params := [ ("ids", idsParam); ("id", VNum 0); ("Customers", VStr "");
                       ("BranchID", VNum branchId) ];
       cfg_headers := [];
       cfg_maxRedirects := Some 5;
       cfg_validateStatus := Some lenient_validate |}.

Definition visit_time_select (idsParam : Value) (schedulerId branchId : Z) : M Response :=
  get "/Clients/TimeSelect"
    {| cfg_params := [ ("ids", idsParam); ("id", VNum 0); ("Customers", VStr "");
                       ("SchedulerID", VNum schedulerId); ("BranchID", VNum branchId) ];
       cfg_headers := [];
       cfg_maxRedirects := Some 5;
       cfg_validateStatus := Some lenient_validate |}.

Definition fetch_times (idsParam : Value) (schedulerId branchId : Z) : M Response :=
  post "/Clients/TimeSelectScheduler" None
    {| cfg_params := [ ("ids", idsParam); ("id", VNum 0); ("Customers", VStr "");
                       ("SchedulerID", VNum schedulerId); ("BranchID", VNum branchId) ];
       cfg_headers :=
         List.app ajax_headers
          [ ("Referer",
             baseUrl ++ "/Clients/TimeSelect?ids=" ++ show_value idsParam
             ++ "&id=0&Customers=&SchedulerID=" ++ JS.show_num schedulerId
             ++ "&BranchID=" ++ JS.show_num branchId) ];
       cfg_maxRedirects := Some 0;
       cfg_validateStatus := Some lenient_validate |}.

(** Step 5 (lines 188-260); [null] is [DNull]. *)
Definition getAvailableTimes (appointmentTypeIds : list Z) (schedulerId : Z)
           (branchId : option Z) : M Data :=
  let branchId := default branchId 0 in
  try_catch
    (let idsParam := first_id appointmentTypeIds in
     visit_type_select ;;;
     visit_scheduler_select idsParam branchId ;;;
     visit_time_select idsParam schedulerId branchId ;;;
     response <- fetch_times idsParam schedulerId branchId ;;
     ret (data response))
    (fun error =>
       if response_status_is error 302
       then ret (match response error with Some r => data r | None => DNull end)
       else ret DNull).

(** Step 6 (lines 265-290). *)
Definition getNextWeekTimes (appointmentTypeIds : list Z) (schedulerId : Z)
           (branchId : option Z) : M Data :=
  let branchId := default branchId 0 in
  try_catch
    (let idsParam := join_ids appointmentTypeIds in
     response <- post "/Clients/TimeSelectScheduler2" None
                   {| cfg_params := [ ("ids", VStr idsParam); ("id", VNum 0);
                                      ("Customers", VStr "");
                                      ("SchedulerID", VNum schedulerId);
                                      ("BranchID", VNum branchId) ];
                      cfg_headers := ajax_headers;
                      cfg_maxRedirects := None;
                      cfg_validateStatus := None |} ;;
     ret (data response))
    (fun _ => ret DNull).

(** [error.response?.data?.message]; empty when there is none. *)
Definition embedded_message (error : JsError) : string :=
  match response error with
  | Some r => server_message r
  | None => EmptyString
  end.

Definition booked (date time : string) : BookingResult :=
  {| success := true;
     result_message := Some "Appointment booked successfully";
     appointmentId := None;
     result_date := Some date;
     result_time := Some time |}.

Definition failed (msg : string) : BookingResult :=
  {| success := false; result_message := Some msg; appointmentId := None;
     result_date := None; result_time := None |}.

(** The two requests of [bookAppointment]. *)
Definition revisit_time_select (idsParam : string) (schedulerId : Z) : M Response :=
  get "/Clients/TimeSelect"
    {| cfg_params := [ ("ids", VStr idsParam); ("id", VNum 0); ("Customers", VStr "");
                       ("SchedulerID", VNum schedulerId); ("BranchID", VNum 0) ];
       cfg_headers := [];
       cfg_maxRedirects := None;
       cfg_validateStatus := None |}.

Definition ask_appointment (length : Z) : M Response :=
  post "/Clients/AskAppointment" None
    {| cfg_params := [ ("Length", VNum length) ];
       cfg_headers := ajax_headers;
       cfg_maxRedirects := None;
       cfg_validateStatus := None |}.

(** Step 7 (lines 295-347). *)
Definition bookAppointment (appointmentTypeIds : list Z) (schedulerId : Z)
           (date time : string) (length : option Z) : M BookingResult :=
  let length := default length 7 in
  try_catch
    (let idsParam := join_ids appointmentTypeIds in
     revisit_time_select idsParam schedulerId ;;;
     response <- ask_appointment length ;;
     if status response =? 200
     then ret (booked date time)
     else ret (failed "Booking failed - unexpected response"))
    (fun error =>
       ret (failed (JS.or_else (embedded_message error)
                      (JS.or_else (message error) "Unknown error")))).

Definition logged_in_only : BookingResult :=
  {| success := true;
     result_message :=
       Some "Logged in successfully. Use getAvailableTimes() to see available slots";
     appointmentId := None; result_date := None; result_time := None |}.

(** The [catch] clause of [completeBooking] (lines 385-390). *)
Definition booking_handler (error : JsError) : M BookingResult :=
  ret (failed (JS.or_else (message error) "Booking failed")).

(** [config.schedulerId || 6132] and
    [config.serviceTypeId ? [config.serviceTypeId] : [37331]]. *)
Definition schedulerId_of (config : BookingConfig) : Z :=
  num_or (schedulerId config) 6132.

Definition appointmentTypeIds_of (config : BookingConfig) : list Z :=
  match serviceTypeId config with
  | Some n => if n =? 0 then [37331] else [n]
  | None => [37331]
  end.

(** The orchestration inside the [try] block (lines 354-384). *)
Definition booking_chain (config : BookingConfig) : M BookingResult :=
  loggedIn <- login (mobile config) ;;
  if negb loggedIn then ret (failed "Login failed")
  else
    let schedulerId := schedulerId_of config in
    let appointmentTypeIds := appointmentTypeIds_of config in
    times <- getAvailableTimes appointmentTypeIds schedulerId None ;;
    match date config, time config with
    | Some d, Some t =>
        if JS.truthy d && JS.truthy t
        then bookAppointment appointmentTypeIds schedulerId d t None
        else ret logged_in_only
    | _, _ => ret logged_in_only
    end.

(** The complete flow (lines 352-391). *)
Definition completeBooking (config : BookingConfig) : M BookingResult :=
  try_catch (booking_chain config) booking_handler.

End Booker.

(* ------------------------------------------------------------------ *)
(** ** Vocabulary of the statements *)

Module CookieSpec.
Import Cookies.

(** [name] is a name that the interceptor reads off one of the header
    lines.  [named] and [last_value] go through the parser of the
    interceptor; what a line sets is said without it in [SetCookie] below,
    and [LineFacts.parse_cookie_sets] shows that the two agree. *)
Definition named (setCookieHeaders : list string) (name : string) : Prop :=
  exists h v, In h setCookieHeaders /\ parse_cookie h = Some (name, v).

(** The value that the interceptor reads off the last header line that
    sets [name]. *)
Fixpoint last_value (setCookieHeaders : list string) (name : string) : option string :=
  match setCookieHeaders with
  | [] => None
  | h :: rest =>
      match last_value rest name with
      | Some v => Some v
      | None =>
          match parse_cookie h with
          | Some (n, v) => if String.eqb n name then Some v else None
          | None => None
          end
      end
  end.

(** The cookie name of an entry of the store: the text before its first
    equals sign. *)
Definition entry_name (entry : string) : string :=
  hd EmptyString (JS.split "=" entry).

Fixpoint contains (c : ascii) (s : string) : bool :=
  match s with
  | EmptyString => false
  | String d r => Ascii.eqb d c || contains c r
  end.

Fixpoint lookup (m : CookieMap) (name : string) : option string :=
  match m with
  | [] => None
  | (k, v) :: r => if String.eqb k name then Some v else lookup r name
  end.

End CookieSpec.

(** The calls a method makes, read off the log of exchanges. *)
Module Trace.

Definition Endpoint : Type := (Method * string)%type.

Definition endpoint (ex : Exchange) : Endpoint := (method (fst ex), url (fst ex)).

Definition endpoints (exs : list Exchange) : list Endpoint := map endpoint exs.

(** The exchanges that running [m] from the state [w] adds to the log. *)
Definition exchanges_of {A} (m : M A) (w : Client) : list Exchange :=
  skipn (length (history w)) (history (snd (m w))).

(** The exchange was answered by a response that [validate] accepts. *)
Definition accepted (validate : Z -> bool) (ex : Exchange) : Prop :=
  exists r, snd ex = Resp r /\ validate (status r) = true.

Definition validate_mobile : Endpoint := (POST, "/Validate/Mobile").
Definition login_page : Endpoint := (GET, "/Account/LoginClients").
Definition login_submit_call : Endpoint := (POST, "/Account/LoginMobileClient").
Definition type_select : Endpoint := (GET, "/Clients/TypeSelect/0").
Definition scheduler_select : Endpoint := (GET, "/Clients/SchedulerSelect").
Definition time_select : Endpoint := (GET, "/Clients/TimeSelect").
Definition time_fetch : Endpoint := (POST, "/Clients/TimeSelectScheduler").
Definition next_week_fetch : Endpoint := (POST, "/Clients/TimeSelectScheduler2").
Definition ask : Endpoint := (POST, "/Clients/AskAppointment").

(** The order of the calls of [getAvailableTimes]. *)
Definition wizard_sequence : list Endpoint :=
  [type_select; scheduler_select; time_select; time_fetch].

(** The [ids] parameter of a request, when it has one. *)
Fixpoint param (name : string) (ps : list (string * Value)) : option Value :=
  match ps with
  | [] => None
  | (k, v) :: r => if String.eqb k name then Some v else param name r
  end.

Definition ids_of (ex : Exchange) : option Value := param "ids" (params (fst ex)).

End Trace.

(** What the methods do, as relations between the starting state, the result
    and the exchanges added to the log. *)
Module Runs.
Import Trace.

(** [error.response?.status === 302 || error.response?.status === 200]
    read off the exchange that threw. *)
Definition answered_with (statuses : list Z) (ex : Exchange) : bool :=
  match snd ex with
  | Resp r => existsb (Z.eqb (status r)) statuses
  | NetErr _ => false
  end.

(** The payload of the login page holds a token. *)
Definition token_of (d : Data) : option string :=
  match d with
  | DStr html => Token.token_match html
  | _ => None
  end.

(** The runs of [login]: the result and the exchanges it makes. *)
Inductive LoginRun : bool -> list Exchange -> Prop :=
| login_not_valid e1 :
    endpoint e1 = validate_mobile ->
    answered_with [200] e1 = false ->
    LoginRun false [e1]
| login_page_thrown e1 e2 :
    endpoint e1 = validate_mobile -> answered_with [200] e1 = true ->
    endpoint e2 = login_page ->
    ~ accepted default_validate e2 ->
    LoginRun (answered_with [302; 200] e2) [e1; e2]
| login_no_token e1 e2 r2 :
    endpoint e1 = validate_mobile -> answered_with [200] e1 = true ->
    endpoint e2 = login_page ->
    snd e2 = Resp r2 -> default_validate (status r2) = true ->
    token_of (data r2) = None ->
    LoginRun false [e1; e2]
| login_submitted e1 e2 r2 token e3 :
    endpoint e1 = validate_mobile -> answered_with [200] e1 = true ->
    endpoint e2 = login_page ->
    snd e2 = Resp r2 -> default_validate (status r2) = true ->
    token_of (data r2) = Some token ->
    endpoint e3 = login_submit_call ->
    LoginRun (answered_with [200; 302] e3) [e1; e2; e3].

(** The runs of [getAvailableTimes] with [idsParam] as the [ids] value:
    each call is made only when the calls before it returned. *)
Inductive TimesRun (idsParam : Value) : list Exchange -> Prop :=
| times_type_thrown e1 :
    endpoint e1 = type_select -> ids_of e1 = None ->
    ~ accepted lenient_validate e1 ->
    TimesRun idsParam [e1]
| times_scheduler_thrown e1 e2 :
    endpoint e1 = type_select -> ids_of e1 = None ->
    accepted lenient_validate e1 ->
    endpoint e2 = scheduler_select -> ids_of e2 = Some idsParam ->
    ~ accepted lenient_validate e2 ->
    TimesRun idsParam [e1; e2]
| times_page_thrown e1 e2 e3 :
    endpoint e1 = type_select -> ids_of e1 = None ->
    accepted lenient_validate e1 ->
    endpoint e2 = scheduler_select -> ids_of e2 = Some idsParam ->
    accepted lenient_validate e2 ->
    endpoint e3 = time_select -> ids_of e3 = Some idsParam ->
    ~ accepted lenient_validate e3 ->
    TimesRun idsParam [e1; e2; e3]
| times_fetched e1 e2 e3 e4 :
    endpoint e1 = type_select -> ids_of e1 = None ->
    accepted lenient_validate e1 ->
    endpoint e2 = scheduler_select -> ids_of e2 = Some idsParam ->
    accepted lenient_validate e2 ->
    endpoint e3 = time_select -> ids_of e3 = Some idsParam ->
    accepted lenient_validate e3 ->
    endpoint e4 = time_fetch -> ids_of e4 = Some idsParam ->
    TimesRun idsParam [e1; e2; e3; e4].

(** The message that the [catch] clause of [bookAppointment] reports for
    an exchange that threw. *)
Definition thrown_message (ex : Exchange) : string :=
  match snd ex with
  | Resp r =>
      JS.or_else (server_message r)
        (JS.or_else ("Request failed with status code " ++ JS.show_num (status r))
           "Unknown error")
  | NetErr msg => JS.or_else msg "Unknown error"
  end.

(** The result of [bookAppointment] once the booking call was made. *)
Definition booking_result (date time : string) (ex : Exchange) : BookingResult :=
  match snd ex with
  | Resp r =>
      if default_validate (status r)
      then if status r =? 200 then booked date time
           else failed "Booking failed - unexpected response"
      else failed (thrown_message ex)
  | NetErr _ => failed (thrown_message ex)
  end.

(** The runs of [bookAppointment] with [idsParam] as the [ids] value. *)
Inductive BookRun (idsParam : string) (date time : string)
  : BookingResult -> list Exchange -> Prop :=
| book_page_thrown e1 :
    endpoint e1 = time_select -> ids_of e1 = Some (VStr idsParam) ->
    ~ accepted default_validate e1 ->
    BookRun idsParam date time (failed (thrown_message e1)) [e1]
| book_asked e1 e2 :
    endpoint e1 = time_select -> ids_of e1 = Some (VStr idsParam) ->
    accepted default_validate e1 ->
    endpoint e2 = ask -> ids_of e2 = None ->
    BookRun idsParam date time (booking_result date time e2) [e1; e2].

End Runs.

(** The readings of the status classes of HTTP: 2xx is success, 3xx is
    redirection. *)
Definition is_success_status (s : Z) : bool := (200 <=? s) && (s <? 300).
Definition is_redirect_status (s : Z) : bool := (300 <=? s) && (s <? 400).

(** Concrete servers and configurations on which the statements are run. *)
Module Examples.
Import Trace.

Definition ok_response : Response :=
  {| status := 200; set_cookie := None; data := DNull |}.

(** A server that answers by the path of the request alone. *)
Fixpoint answer_by_url (table : list (string * Outcome)) (fallback : Outcome)
         (h : list Exchange) (req : Request) : Outcome :=
  match table with
  | [] => fallback
  | (u, out) :: rest =>
      if String.eqb u (url req) then out else answer_by_url rest fallback h req
  end.

Definition token_page : Outcome :=
  Resp {| status := 200;
          set_cookie := Some ["ASP.NET_SessionId=abc; path=/; HttpOnly"];
          data := DStr "<form><input name='__RequestVerificationToken' type='hidden' value='tok-1' /></form>" |}.

Definition found : Outcome :=
  Resp {| status := 302;
          set_cookie := Some [".ASPXAUTH=xyz; path=/"; "ASP.NET_SessionId=def; path=/"];
          data := DStr "Object moved" |}.

(** Accepts the login (with a redirect) and answers 200 everywhere else. *)
Definition happy_server : list Exchange -> Request -> Outcome :=
  answer_by_url [ ("/Account/LoginClients", token_page);
                  ("/Account/LoginMobileClient", found) ]
                (Resp ok_response).

(** The login page comes without the hidden field. *)
Definition maintenance_server : list Exchange -> Request -> Outcome :=
  answer_by_url [ ("/Account/LoginClients",
                   Resp {| status := 200; set_cookie := None;
                           data := DStr "<html>Down for maintenance</html>" |}) ]
                (Resp ok_response).

(** The login submission is answered with 301 Moved Permanently. *)
Definition moved_server : list Exchange -> Request -> Outcome :=
  answer_by_url [ ("/Account/LoginClients", token_page);
                  ("/Account/LoginMobileClient",
                   Resp {| status := 301; set_cookie := None; data := DNull |}) ]
                (Resp ok_response).

(** The mobile number is refused. *)
Definition refusing_server : list Exchange -> Request -> Outcome :=
  answer_by_url [ ("/Validate/Mobile",
                   Resp {| status := 400; set_cookie := None; data := DNull |}) ]
                (Resp ok_response).

(** The login submission is answered with 201 Created. *)
Definition created_server : list Exchange -> Request -> Outcome :=
  answer_by_url [ ("/Account/LoginClients", token_page);
                  ("/Account/LoginMobileClient",
                   Resp {| status := 201; set_cookie := None; data := DNull |}) ]
                (Resp ok_response).

(** The request for the login page is answered with a 302 that has no
    [Location] header: the transport has nowhere to go and hands the
    response over as it is. *)
Definition bare_redirect_server : list Exchange -> Request -> Outcome :=
  answer_by_url [ ("/Account/LoginClients",
                   Resp {| status := 302; set_cookie := None;
                           data := DStr "Object moved" |}) ]
                (Resp ok_response).

(** The booking call is answered with 500 and a message of the server. *)
Definition busy_server : list Exchange -> Request -> Outcome :=
  answer_by_url [ ("/Account/LoginClients", token_page);
                  ("/Account/LoginMobileClient", found);
                  ("/Clients/AskAppointment",
                   Resp {| status := 500; set_cookie := None;
                           data := DObj (Some "Slot already taken") |}) ]
                (Resp ok_response).

(** The booking call is answered with 204 No Content. *)
Definition no_content_server : list Exchange -> Request -> Outcome :=
  answer_by_url [ ("/Account/LoginClients", token_page);
                  ("/Account/LoginMobileClient", found);
                  ("/Clients/AskAppointment",
                   Resp {| status := 204; set_cookie := None; data := DNull |}) ]
                (Resp ok_response).

(** The type-selection page cannot be reached. *)
Definition flaky_server : list Exchange -> Request -> Outcome :=
  answer_by_url [ ("/Account/LoginClients", token_page);
                  ("/Account/LoginMobileClient", found);
                  ("/Clients/TypeSelect/0", NetErr "socket hang up") ]
                (Resp ok_response).

Definition sample_config : BookingConfig :=
  {| mobile := "0544458876"; serviceTypeId := Some 37331; schedulerId := Some 6132;
     date := Some "2025-11-16"; time := Some "10:00"; branchId := Some 0 |}.

Definition login_only_config : BookingConfig :=
  {| mobile := "0544458876"; serviceTypeId := Some 37331; schedulerId := Some 6132;
     date := None; time := None; branchId := Some 0 |}.

Definition dummy_exchange : Exchange :=
  ({| method := GET; url := EmptyString; params := []; headers := [];
      body := None; maxRedirects := None |}, NetErr EmptyString).

Definition sample_headers : list string :=
  [ "sid=1; Path=/"; "lang=he"; "sid=2; HttpOnly"; "broken"; "theme = dark ; Secure" ].

Definition cookie_response : Response :=
  {| status := 200; set_cookie := Some sample_headers; data := DNull |}.

Definition cookie_server : list Exchange -> Request -> Outcome :=
  answer_by_url [] (Resp cookie_response).

(** A client that holds a cookie of an earlier response. *)
Definition stale_client : Client :=
  {| sessionCookies := ["old=0"]; history := [] |}.

End Examples.

(** The claims in the wording that the code does not bear out. *)
Module Stated.
Import Trace.

Section Stated.
Variable server : list Exchange -> Request -> Outcome.

(** [login] is true exactly when the answer to the login submission has
    a status of the success class or of the redirect class. *)
Definition login_iff_success_or_redirect (mobile : string) (w : Client) : Prop :=
  forall ex r,
    In ex (exchanges_of (login server mobile) w) ->
    endpoint ex = login_submit_call ->
    snd ex = Resp r ->
    (fst (login server mobile w) = Ok true
     <-> is_success_status (status r) = true \/ is_redirect_status (status r) = true).

(** [bookAppointment] succeeds on a success status of the booking call
    and reports the generic failure on any other status. *)
Definition booking_by_status (appointmentTypeIds : list Z) (schedulerId : Z)
           (date time : string) (length : option Z) (w : Client) : Prop :=
  let run := bookAppointment server appointmentTypeIds schedulerId date time length in
  forall ex r,
    In ex (exchanges_of run w) ->
    endpoint ex = ask ->
    snd ex = Resp r ->
    (is_success_status (status r) = true ->
     exists res, fst (run w) = Ok res /\ success res = true
                 /\ result_date res = Some date /\ result_time res = Some time)
    /\ (is_success_status (status r) = false ->
        fst (run w) = Ok (failed "Booking failed - unexpected response")).

(** Every request of [getAvailableTimes] carries the first identifier as
    its [ids] parameter. *)
Definition first_id_on_every_request (appointmentTypeIds : list Z)
           (schedulerId : Z) (branchId : option Z) (w : Client) : Prop :=
  forall ex,
    In ex (exchanges_of (getAvailableTimes server appointmentTypeIds schedulerId branchId) w) ->
    ids_of ex = Some (first_id appointmentTypeIds).

End Stated.

End Stated.

(* ------------------------------------------------------------------ *)
(** ** The rest of the client and the script that drives it *)

Section Providers.

Variable server : list Exchange -> Request -> Outcome.

(** Step 4 (lines 164-182): the page is requested and its payload is not
    looked at; the array of providers is empty on every path. *)
Definition getServiceProviders (serviceTypeIds : list Z) : M (list Data) :=
  try_catch
    (let idsParam := join_ids serviceTypeIds in
     response <- get server "/Clients/SchedulerSelect"
                   {| cfg_params := [ ("ids", VStr idsParam); ("id", VNum 0);
                                      ("Customers", VStr ""); ("BranchID", VNum 0) ];
                      cfg_headers := [];
                      cfg_maxRedirects := None;
                      cfg_validateStatus := None |} ;;
     ret [])
    (fun _ => ret []).

End Providers.

(** The script [book-api.ts]: the configuration is read from the
    environment, the flow is run on a new client, and the process exits
    with code 1 when the flow fails (with 0 otherwise). *)
Module Script.

(** The variables of the environment that the script reads; a variable that
    is not set is [None]. *)
Record Env : Type := mkEnv {
  MOBILE : option string;
  DATE : option string;
  TIME : option string
}.

(** The object literal [config] of [main]. *)
Definition config_of (env : Env) : BookingConfig :=
  {| mobile := match MOBILE env with
               | Some m => JS.or_else m "0544458876"
               | None => "0544458876"
               end;
     serviceTypeId := Some 37331;
     schedulerId := Some 6132;
     date := DATE env;
     time := TIME env;
     branchId := Some 0 |}.

Section Main.

Variable server : list Exchange -> Request -> Outcome.

(** [main]: the exit code of the process. *)
Definition main (env : Env) : M Z :=
  try_catch
    (result <- completeBooking server (config_of env) ;;
     if success result then ret 0 else ret 1)
    (fun _ => ret 1).

(** The script run from the start: [new ApiBarberBooker()] and [main]. *)
Definition run (env : Env) : Result Z * Client := main env new_client.

End Main.

End Script.

(* ------------------------------------------------------------------ *)
(** ** The exploration tool ([BarberAppointmentBooker])

    The filter that decides which network traffic is logged, and the two
    handlers that log it.  The browser is not modelled: the handlers are
    run on the events that it reports. *)

Module Explorer.

(** [String.prototype.toLowerCase] on code units below 256: the letters A
    to Z and the capital letters from U+00C0 to U+00DE (U+00D7, the
    multiplication sign, is no letter) move up by 32. *)
Definition lower_char (c : ascii) : ascii :=
  let n := nat_of_ascii c in
  if (Nat.leb 65 n && Nat.leb n 90)
     || (Nat.leb 192 n && Nat.leb n 222 && negb (Nat.eqb n 215))
  then ascii_of_nat (n + 32) else c.

Fixpoint toLowerCase (s : string) : string :=
  match s with
  | EmptyString => EmptyString
  | String c r => String (lower_char c) (toLowerCase r)
  end.

(** The canonical form under which a pattern with the flag [i] compares
    characters: the upper-case form.  A character from 128 on never
    becomes one below 128, so it never equals a character of the patterns
    below, which are all below 128. *)
Definition canon (c : ascii) : ascii :=
  let n := nat_of_ascii c in
  if (Nat.leb 97 n && Nat.leb n 122)
     || (Nat.leb 224 n && Nat.leb n 254 && negb (Nat.eqb n 247))
  then ascii_of_nat (n - 32) else c.

Definition eqb_ci (a b : ascii) : bool := Ascii.eqb (canon a) (canon b).

(** [s.startsWith(p)] and [s.includes(p)]. *)
Fixpoint starts_with (p s : string) : bool :=
  match p, s with
  | EmptyString, _ => true
  | String a p', String b s' => Ascii.eqb a b && starts_with p' s'
  | String _ _, EmptyString => false
  end.

Fixpoint includes (p s : string) : bool :=
  starts_with p s
  || match s with
     | EmptyString => false
     | String _ r => includes p r
     end.

(** A literal pattern with the flag [i]: at the start of [s], anywhere in
    [s] ([test]), and on all of [s]. *)
Fixpoint starts_ci (p s : string) : bool :=
  match p, s with
  | EmptyString, _ => true
  | String a p', String b s' => eqb_ci a b && starts_ci p' s'
  | String _ _, EmptyString => false
  end.

Fixpoint test_ci (p s : string) : bool :=
  starts_ci p s
  || match s with
     | EmptyString => false
     | String _ r => test_ci p r
     end.

Fixpoint equal_ci (p s : string) : bool :=
  match p, s with
  | EmptyString, EmptyString => true
  | String a p', String b s' => eqb_ci a b && equal_ci p' s'
  | _, _ => false
  end.

(** A literal pattern followed by the end of the input, with the flag
    [i]. *)
Fixpoint ends_ci (p s : string) : bool :=
  equal_ci p s
  || match s with
     | EmptyString => false
     | String _ r => ends_ci p r
     end.

Definition is_digit (c : ascii) : bool :=
  let n := nat_of_ascii c in Nat.leb 48 n && Nat.leb n 57.

Fixpoint skip_digits (s : string) : string :=
  match s with
  | EmptyString => EmptyString
  | String c r => if is_digit c then skip_digits r else s
  end.

(** The pattern for a version segment (a slash, the letter v, one or more
    digits, a slash; flag [i]) at the start of [s].  The digits are taken
    as far as they go: what follows a shorter run is a digit, not a slash. *)
Definition version_here (s : string) : bool :=
  match s with
  | String a (String b (String d r)) =>
      Ascii.eqb a "/" && eqb_ci b "v" && is_digit d
      && match skip_digits r with
         | String e _ => Ascii.eqb e "/"
         | EmptyString => false
         end
  | _ => false
  end.

Fixpoint test_version (s : string) : bool :=
  version_here s
  || match s with
     | EmptyString => false
     | String _ r => test_version r
     end.

Definition staticExtensions : list string :=
  [".js"; ".css"; ".png"; ".jpg"; ".jpeg"; ".gif"; ".svg"; ".ico"; ".woff";
   ".woff2"; ".ttf"].

Definition hasStaticExtension (url : string) : bool :=
  existsb (fun ext => includes ext (toLowerCase url)) staticExtensions.

Definition isApiPattern (url : string) : bool :=
  test_ci "/api/" url || test_ci "/graphql" url || test_ci "/rest/" url
  || test_version url || includes "ajax" url || includes "xhr" url.

(** [url.match(pattern) !== null] for the pattern of the suffixes [.json]
    and [.xml]. *)
Definition hasDataSuffix (url : string) : bool :=
  ends_ci ".json" url || ends_ci ".xml" url.

(** [isApiRequest]. *)
Definition isApiRequest (url : string) : bool :=
  negb (hasStaticExtension url) && (isApiPattern url || hasDataSuffix url).

(** [s.substring(0, n)]. *)
Fixpoint substring0 (n : nat) (s : string) : string :=
  match n, s with
  | O, _ => EmptyString
  | S n', String c r => String c (substring0 n' r)
  | S _, EmptyString => EmptyString
  end.

Record NetworkRequest : Type := mkNetReq {
  req_url : string;
  req_method : string;
  req_headers : list (string * string);
  req_postData : option string;
  req_timestamp : Z
}.

Record NetworkResponse : Type := mkNetRes {
  res_url : string;
  res_status : Z;
  res_headers : list (string * string);
  res_body : option string;
  res_timestamp : Z
}.

(** The two arrays of the tool. *)
Record Monitor : Type := mkMonitor {
  networkRequests : list NetworkRequest;
  networkResponses : list NetworkResponse
}.

Definition new_monitor : Monitor :=
  {| networkRequests := []; networkResponses := [] |}.

(** What the browser reports: a request with its post data ([None] for
    [null]), or a response with the outcome of reading its text ([None]
    when reading throws); [now] is the value of [Date.now()]. *)
Inductive Event : Type :=
| OnRequest (url method : string) (headers : list (string * string))
            (postData : option string) (now : Z)
| OnResponse (url : string) (status : Z) (headers : list (string * string))
             (text : option string) (now : Z).

(** A property of a record of headers; [undefined] is [None]. *)
Fixpoint header (name : string) (headers : list (string * string)) : option string :=
  match headers with
  | [] => None
  | (k, v) :: r => if String.eqb k name then Some v else header name r
  end.

(** [x || undefined] and [x ? f(x) : undefined] on an optional string. *)
Definition keep_truthy (o : option string) : option string :=
  match o with
  | Some s => if JS.truthy s then Some s else None
  | None => None
  end.

(** The handler of requests (in [setupNetworkMonitoring]). *)
Definition on_request (m : Monitor) (url method : string)
           (headers : list (string * string)) (postData : option string) (now : Z)
  : Monitor :=
  if isApiRequest url
  then {| networkRequests :=
            (networkRequests m ++
             [ {| req_url := url; req_method := method; req_headers := headers;
                  req_postData := keep_truthy postData; req_timestamp := now |} ])%list;
          networkResponses := networkResponses m |}
  else m.

(** The handler of responses: the text is read only for a JSON or text
    content type, and at most its first 500 code units are kept. *)
Definition on_response (m : Monitor) (url : string) (status : Z)
           (headers : list (string * string)) (text : option string) (now : Z)
  : Monitor :=
  if isApiRequest url
  then
    let contentType := match header "content-type" headers with
                       | Some v => JS.or_else v EmptyString
                       | None => EmptyString
                       end in
    let body := if includes "application/json" contentType
                   || includes "text/" contentType
                then text else None in
    {| networkRequests := networkRequests m;
       networkResponses :=
         (networkResponses m ++
          [ {| res_url := url; res_status := status; res_headers := headers;
               res_body := option_map (substring0 500) (keep_truthy body);
               res_timestamp := now |} ])%list |}
  else m.

Definition handle (m : Monitor) (e : Event) : Monitor :=
  match e with
  | OnRequest url method headers postData now =>
      on_request m url method headers postData now
  | OnResponse url status headers text now =>
      on_response m url status headers text now
  end.

(** The arrays after the events [events], starting from a new tool.  The
    handler of responses awaits the text before it pushes its entry, so two
    responses may be pushed in another order than they arrived; what is
    proved of the arrays below holds entry by entry and does not depend on
    that order. *)
Definition observe (events : list Event) : Monitor :=
  fold_left handle events new_monitor.

End Explorer.

(** Vocabulary for the statements about requests. *)
Module Wire.

(** The header that the request interceptor adds for a store. *)
Definition cookie_header (store : list string) : list (string * string) :=
  match store with
  | [] => []
  | _ :: _ => [("Cookie", JS.join "; " store)]
  end.

(** The form body of the login submission (line 121). *)
Definition submit_body (mobile token : string) : string :=
  "Mobile=" ++ JS.encodeURIComponent mobile
  ++ "&__RequestVerificationToken=" ++ JS.encodeURIComponent token.

(** What [encodeURIComponent] writes for one code unit. *)
Definition encode_char (c : ascii) : string :=
  let n := nat_of_ascii c in
  if JS.unreserved c then String c EmptyString
  else if Nat.ltb n 128 then JS.pct n
  else JS.pct (192 + Nat.div n 64) ++ JS.pct (128 + Nat.modulo n 64).

(** What [getAvailableTimes] returns, read off the exchanges of its run:
    the payload of the time fetch when the run reached it and it was
    accepted, [null] in every other case. *)
Definition times_payload (tr : list Exchange) : Data :=
  match tr with
  | [_; _; _; e4] =>
      match snd e4 with
      | Resp r => if lenient_validate (status r) then data r else DNull
      | NetErr _ => DNull
      end
  | _ => DNull
  end.

(** The value of a query parameter of a request is absent or [v]. *)
Definition absent_or (name : string) (v : Value) (ex : Exchange) : Prop :=
  Trace.param name (params (fst ex)) = None
  \/ Trace.param name (params (fst ex)) = Some v.

(** Endpoints can be told apart. *)
Definition Endpoint_eq_dec (a b : Trace.Endpoint) : {a = b} + {a <> b}.
Proof. decide equality; [apply string_dec|decide equality]. Defined.

(** How often the endpoint [ep] is called among [exs]. *)
Definition calls_to (ep : Trace.Endpoint) (exs : list Exchange) : nat :=
  count_occ Endpoint_eq_dec (Trace.endpoints exs) ep.

(** A string that starts with a character that is no white space. *)
Definition starts_black (s : string) : Prop :=
  exists c r, s = String c r /\ JS.is_white c = false.

(** What a line that sets a cookie gives: a name and a value that, written
    as [name=value], are read back as themselves. *)
Record tidy (n v : string) : Prop := mkTidy {
  tidy_black : starts_black n;
  tidy_end : JS.trimEnd n = n;
  tidy_no_eq : CookieSpec.contains "=" n = false;
  tidy_no_semi : CookieSpec.contains ";" (n ++ String "=" v) = false;
  tidy_whole : JS.trimEnd (n ++ String "=" v) = n ++ String "=" v
}.

(** No character of [s] is a quote. *)
Fixpoint quote_free (s : string) : bool :=
  match s with
  | EmptyString => true
  | String c r => negb (Token.is_quote c) && quote_free r
  end.

(** The text of a hidden field whose value is [token]: the name of the
    field, other attributes [attrs], and the value between the quotes [q1]
    and [q2]. *)
Definition hidden_field (attrs : string) (q1 : ascii) (token : string) (q2 : ascii)
  : string :=
  "__RequestVerificationToken" ++ attrs ++ "value=" ++ String q1 (token ++ String q2 EmptyString).

(** What holds of every entry of the two arrays of the exploration tool. *)
Definition logged_request_ok (r : Explorer.NetworkRequest) : Prop :=
  Explorer.isApiRequest (Explorer.req_url r) = true
  /\ Explorer.req_postData r <> Some EmptyString.

Definition logged_response_ok (r : Explorer.NetworkResponse) : Prop :=
  Explorer.isApiRequest (Explorer.res_url r) = true
  /\ forall b, Explorer.res_body r = Some b ->
                b <> EmptyString /\ (String.length b <= 500)%nat.

(** The order of the calls of [login]. *)
Definition login_sequence : list Trace.Endpoint :=
  [Trace.validate_mobile; Trace.login_page; Trace.login_submit_call].

End Wire.

(** More servers and inputs on which the statements are run. *)
Module Cases.
Import Examples.

(** Every request is answered with 500 and a cookie. *)
Definition failing_response : Response :=
  {| status := 500; set_cookie := Some ["sid=stolen; Path=/"]; data := DNull |}.

Definition failing_server : list Exchange -> Request -> Outcome :=
  answer_by_url [] (Resp failing_response).

(** Every request is answered with 200 and [Set-Cookie] lines that set
    nothing. *)
Definition junk_response : Response :=
  {| status := 200; set_cookie := Some ["broken"; "=orphan"; " ; Path=/"];
     data := DNull |}.

Definition junk_server : list Exchange -> Request -> Outcome :=
  answer_by_url [] (Resp junk_response).

(** The time fetch is answered with a redirect that carries a payload. *)
Definition redirecting_times : Response :=
  {| status := 302; set_cookie := None; data := DStr "<html>moved</html>" |}.

Definition redirecting_server : list Exchange -> Request -> Outcome :=
  answer_by_url [ ("/Account/LoginClients", token_page);
                  ("/Account/LoginMobileClient", found);
                  ("/Clients/TimeSelectScheduler", Resp redirecting_times) ]
                (Resp ok_response).

(** The time fetch is answered with 404. *)
Definition missing_times_server : list Exchange -> Request -> Outcome :=
  answer_by_url [ ("/Account/LoginClients", token_page);
                  ("/Account/LoginMobileClient", found);
                  ("/Clients/TimeSelectScheduler",
                   Resp {| status := 404; set_cookie := None;
                           data := DStr "not found" |}) ]
                (Resp ok_response).

Definition empty_date_config : BookingConfig :=
  {| mobile := "0544458876"; serviceTypeId := Some 37331; schedulerId := Some 6132;
     date := Some EmptyString; time := Some "10:00"; branchId := Some 0 |}.

Definition other_branch_config : BookingConfig :=
  {| mobile := "0544458876"; serviceTypeId := None; schedulerId := Some 0;
     date := Some "2025-11-16"; time := Some "10:00"; branchId := Some 7 |}.

End Cases.

(* ------------------------------------------------------------------ *)
(** ** What a [Set-Cookie] line sets

    The statements about the cookie store are made against this reading
    of the header lines.  It is written from the form of a line (a name,
    an equals sign and a value, then attributes after a semicolon) and
    shares no function with the interceptor: the interceptor is compared
    with it. *)

Module SetCookie.

(** White space: TAB, LF, VT, FF, CR, SP and NBSP. *)
Definition blank (c : ascii) : Prop :=
  In c ["009"; "010"; "011"; "012"; "013"; " "; "160"]%char.

(** [s] is made of white space only. *)
Fixpoint blanks (s : string) : Prop :=
  match s with
  | EmptyString => True
  | String c r => blank c /\ blanks r
  end.

(** The character [c] does not occur in [s]. *)
Fixpoint free_of (c : ascii) (s : string) : Prop :=
  match s with
  | EmptyString => True
  | String d r => d <> c /\ free_of c r
  end.

Definition first_char (s : string) : option ascii :=
  match s with
  | EmptyString => None
  | String c _ => Some c
  end.

Fixpoint last_char (s : string) : option ascii :=
  match s with
  | EmptyString => None
  | String c r =>
      match last_char r with
      | Some d => Some d
      | None => Some c
      end
  end.

(** [s] does not start, and does not end, with white space. *)
Definition black_start (s : string) : Prop :=
  forall c, first_char s = Some c -> ~ blank c.

Definition black_end (s : string) : Prop :=
  forall c, last_char s = Some c -> ~ blank c.

(** The line [line] sets the cookie [name] to [value]: up to its first
    semicolon (or to its end) the line is the name, an equals sign and the
    value, with white space allowed before the name, between the name and
    the equals sign, and after the value.  The name is not empty and holds
    no equals sign; the value is all that stands between the equals sign
    and the white space that ends the pair. *)
Definition sets (line name value : string) : Prop :=
  exists lead gap trail rest,
    line = lead ++ name ++ gap ++ String "=" (value ++ trail ++ rest)
    /\ blanks lead /\ blanks gap /\ blanks trail
    /\ (rest = EmptyString \/ exists attributes, rest = String ";" attributes)
    /\ name <> EmptyString
    /\ black_start name /\ black_end name
    /\ free_of "=" name /\ free_of ";" name
    /\ free_of ";" value /\ black_end value.

(** Some line of the header sets a cookie of the name [name]. *)
Definition names (lines : list string) (name : string) : Prop :=
  exists line value, In line lines /\ sets line name value.

(** The last line of the header that sets [name] sets it to [value]. *)
Definition last_sets (lines : list string) (name value : string) : Prop :=
  exists before line after,
    lines = (before ++ line :: after)%list
    /\ sets line name value
    /\ forall l v, In l after -> ~ sets l name v.

(** The entry of the store for a cookie, and the store that holds the
    cookies [cookies] in their order. *)
Definition entry (name value : string) : string := name ++ "=" ++ value.

Definition entries (cookies : list (string * string)) : list string :=
  map (fun c => entry (fst c) (snd c)) cookies.

End SetCookie.

(** What the server answers to the call [m u b cfg] made by a client in
    the state [w]. *)
Definition answer_to (server : list Exchange -> Request -> Outcome) (m : Method)
           (u : string) (b : option string) (cfg : Config) (w : Client) : Outcome :=
  server (history w) (build_request (sessionCookies w) m u b cfg).

(** Three claims in the wording that the code does not bear out. *)
Module Literal.
Import Trace.

Section Literal.
Variable server : list Exchange -> Request -> Outcome.

(** After every response with [Set-Cookie] lines the store holds, for
    every name that they set, the entry with its last value. *)
Definition last_write_wins_after_every_response (m : Method) (u : string)
           (b : option string) (cfg : Config) (w : Client) : Prop :=
  forall r lines name value,
    answer_to server m u b cfg w = Resp r ->
    set_cookie r = Some lines ->
    SetCookie.last_sets lines name value ->
    In (SetCookie.entry name value) (sessionCookies (snd (send server m u b cfg w))).

(** After every response with [Set-Cookie] lines a cookie of the store
    whose name they do not set is gone. *)
Definition replaced_after_every_response (m : Method) (u : string)
           (b : option string) (cfg : Config) (w : Client) : Prop :=
  forall r lines name value,
    answer_to server m u b cfg w = Resp r ->
    set_cookie r = Some lines ->
    In (SetCookie.entry name value) (sessionCookies w) ->
    ~ SetCookie.names lines name ->
    ~ In (SetCookie.entry name value) (sessionCookies (snd (send server m u b cfg w))).

(** Every exception raised by a request of the flow (here: a failure of
    the transport, with the message [msg]) ends in a failure result that
    carries the message of the exception. *)
Definition exceptions_reported (config : BookingConfig) (w : Client) : Prop :=
  forall ex msg,
    In ex (exchanges_of (completeBooking server config) w) ->
    snd ex = NetErr msg ->
    exists res,
      fst (completeBooking server config w) = Ok res
      /\ success res = false
      /\ result_message res = Some msg.

End Literal.

End Literal.

(** Servers that answer with errors. *)
Module Failures.
Import Examples.

(** Every request is answered with 500 and three [Set-Cookie] lines. *)
Definition rejected_response : Response :=
  {| status := 500;
     set_cookie := Some ["sid=1; Path=/"; "lang=he"; "sid=2; HttpOnly"];
     data := DNull |}.

Definition rejecting_server : list Exchange -> Request -> Outcome :=
  answer_by_url [] (Resp rejected_response).

(** The vendor cannot be reached at all. *)
Definition unreachable_server : list Exchange -> Request -> Outcome :=
  answer_by_url [] (NetErr "connect ECONNREFUSED").

End Failures.

Unset Implicit Arguments.

(* ------------------------------------------------------------------ *)
(** ** Facts about the string primitives *)

Module StringFacts.
Import CookieSpec.

Lemma split_head (sep : ascii) (s : string) :
  exists h t, JS.split sep s = h :: t /\ contains sep h = false.
Proof.
  induction s as [|c r IH]; simpl.
  - exists EmptyString, []. split; reflexivity.
  - destruct (Ascii.eqb c sep) eqn:E.
    + exists EmptyString, (JS.split sep r). split; reflexivity.
    + destruct IH as (h & t & Hs & Hc). rewrite Hs.
      exists (String c h), t. split; [reflexivity|].
      simpl. rewrite E, Hc. reflexivity.
Qed.

Lemma contains_trimStart (c : ascii) (s : string) :
  contains c s = false -> contains c (JS.trimStart s) = false.
Proof.
  induction s as [|d r IH]; simpl; intros H; [reflexivity|].
  apply orb_false_iff in H. destruct H as [Hd Hr].
  destruct (JS.is_white d); [auto|].
  simpl. rewrite Hd, Hr. reflexivity.
Qed.

Lemma contains_trimEnd (c : ascii) (s : string) :
  contains c s = false -> contains c (JS.trimEnd s) = false.
Proof.
  induction s as [|d r IH]; simpl; intros H; [reflexivity|].
  apply orb_false_iff in H. destruct H as [Hd Hr].
  specialize (IH Hr).
  destruct (JS.trimEnd r) as [|e t].
  - destruct (JS.is_white d); simpl; [reflexivity|].
    rewrite Hd. reflexivity.
  - simpl in *. rewrite Hd. exact IH.
Qed.

Lemma contains_trim (c : ascii) (s : string) :
  contains c s = false -> contains c (JS.trim s) = false.
Proof.
  intros H. unfold JS.trim. now apply contains_trimEnd, contains_trimStart.
Qed.

(** The text before the first separator of [n ++ sep ++ v] is [n] when
    [n] holds no separator. *)
Lemma split_append_head (sep : ascii) (n v : string) :
  contains sep n = false ->
  hd EmptyString (JS.split sep (n ++ String sep v)) = n.
Proof.
  induction n as [|c r IH]; simpl; intros H.
  - rewrite Ascii.eqb_refl. reflexivity.
  - apply orb_false_iff in H. destruct H as [Hc Hr].
    rewrite Hc. specialize (IH Hr).
    destruct (split_head sep (r ++ String sep v)) as (h & t & Hs & _).
    rewrite Hs in *. simpl in *. now subst.
Qed.

End StringFacts.

(* ------------------------------------------------------------------ *)
(** ** The primitives on concrete inputs *)

(** The hidden field of a login form. *)
Example token_in_form :
  Token.token_match
    "<form><input name='__RequestVerificationToken' type='hidden' value='CfDJ8-x_1' /></form>"
  = Some "CfDJ8-x_1".
Proof. reflexivity. Qed.

(** The run before [value=] is as long as it can be: of two [value]
    attributes inside one tag the second is taken. *)
Example token_longest_run :
  Token.token_match "<input name='__RequestVerificationToken' value='a' value='b'>"
  = Some "b".
Proof. reflexivity. Qed.

(** The run does not go past the end of the tag, and an empty value does
    not match. *)
Example token_not_past_tag :
  Token.token_match "<input name='__RequestVerificationToken'> value='a'" = None
  /\ Token.token_match "<input name='__RequestVerificationToken' value=''>" = None.
Proof. split; reflexivity. Qed.

(** One [Set-Cookie] line: attributes are dropped, the value keeps its
    equals signs, the name is trimmed. *)
Example parse_cookie_lines :
  Cookies.parse_cookie "sid=abc; Path=/; HttpOnly" = Some ("sid", "abc")
  /\ Cookies.parse_cookie "tok=a=b=; Secure" = Some ("tok", "a=b=")
  /\ Cookies.parse_cookie " theme = dark ; Secure" = Some ("theme", " dark")
  /\ Cookies.parse_cookie "broken" = None
  /\ Cookies.parse_cookie "=orphan" = None
  /\ Cookies.parse_cookie "  ; Path=/" = None.
Proof. repeat split; reflexivity. Qed.

(** A name set twice keeps its place and takes the later value. *)
Example capture_sample :
  Cookies.capture (Some Examples.sample_headers) ["old=0"]
  = ["sid=2"; "lang=he"; "theme= dark"].
Proof. reflexivity. Qed.

Example encode_mobile :
  JS.encodeURIComponent "0544458876" = "0544458876"
  /\ JS.encodeURIComponent "a b/c+d" = "a%20b%2Fc%2Bd".
Proof. split; reflexivity. Qed.

(* ------------------------------------------------------------------ *)
(** ** Facts about the cookie map *)

Module CookieFacts.
Import Cookies CookieSpec StringFacts.

Lemma lookup_map_set_same (k v : string) (m : CookieMap) :
  lookup (map_set k v m) k = Some v.
Proof.
  induction m as [|[k' v'] r IH]; simpl.
  - now rewrite String.eqb_refl.
  - destruct (String.eqb k' k) eqn:E; simpl; rewrite E; auto.
Qed.

Lemma lookup_map_set_other (k v n : string) (m : CookieMap) :
  k <> n -> lookup (map_set k v m) n = lookup m n.
Proof.
  intros Hn. induction m as [|[k' v'] r IH]; simpl.
  - apply String.eqb_neq in Hn. now rewrite Hn.
  - destruct (String.eqb k' k) eqn:E; simpl.
    + apply String.eqb_eq in E. subst k'.
      apply String.eqb_neq in Hn. now rewrite Hn.
    + now rewrite IH.
Qed.

Lemma keys_map_set (k v n : string) (m : CookieMap) :
  In n (map fst (map_set k v m)) <-> n = k \/ In n (map fst m).
Proof.
  induction m as [|[k' v'] r IH]; simpl.
  - intuition.
  - destruct (String.eqb k' k) eqn:E; simpl.
    + apply String.eqb_eq in E. subst k'. intuition.
    + rewrite IH. intuition.
Qed.

Lemma nodup_map_set (k v : string) (m : CookieMap) :
  NoDup (map fst m) -> NoDup (map fst (map_set k v m)).
Proof.
  induction m as [|[k' v'] r IH]; simpl; intros H.
  - constructor; [intros []|constructor].
  - inversion H as [|? ? Hnot Hr]; subst.
    destruct (String.eqb k' k) eqn:E; simpl.
    + constructor; assumption.
    + constructor; [|auto].
      rewrite keys_map_set. intros [->|Hin]; [|contradiction].
      now rewrite String.eqb_refl in E.
Qed.

Lemma lookup_in (m : CookieMap) (n v : string) :
  lookup m n = Some v -> In (n, v) m.
Proof.
  induction m as [|[k' v'] r IH]; simpl; [discriminate|].
  destruct (String.eqb k' n) eqn:E.
  - apply String.eqb_eq in E. intros [= <-]. subst. now left.
  - intros H. right. auto.
Qed.

Lemma in_lookup (m : CookieMap) (n v : string) :
  NoDup (map fst m) -> In (n, v) m -> lookup m n = Some v.
Proof.
  induction m as [|[k' v'] r IH]; simpl; intros Hnd Hin; [contradiction|].
  inversion Hnd as [|? ? Hnot Hr]; subst.
  destruct Hin as [[= -> ->]|Hin].
  - now rewrite String.eqb_refl.
  - destruct (String.eqb k' n) eqn:E; [|auto].
    apply String.eqb_eq in E. subst k'.
    exfalso. apply Hnot. apply (in_map fst) in Hin. exact Hin.
Qed.

Lemma lookup_keys (m : CookieMap) (n : string) :
  In n (map fst m) <-> exists v, lookup m n = Some v.
Proof.
  induction m as [|[k' v'] r IH]; simpl.
  - split; [intros []|intros [? [=]]].
  - destruct (String.eqb k' n) eqn:E.
    + apply String.eqb_eq in E. split; eauto.
    + apply String.eqb_neq in E. rewrite <- IH. intuition.
Qed.

(** The map after the loop, started from [m0], read at [n]: the last line
    that sets [n] decides, and [m0] does when no line sets it. *)
Lemma lookup_fold (hs : list string) (m0 : CookieMap) (n : string) :
  lookup (fold_left cookie_step hs m0) n =
  match last_value hs n with
  | Some v => Some v
  | None => lookup m0 n
  end.
Proof.
  revert m0. induction hs as [|h r IH]; intros m0; simpl; [reflexivity|].
  rewrite IH. destruct (last_value r n); [reflexivity|].
  unfold cookie_step. destruct (parse_cookie h) as [[k v]|]; [|reflexivity].
  destruct (String.eqb k n) eqn:E.
  - apply String.eqb_eq in E. subst k. apply lookup_map_set_same.
  - apply String.eqb_neq in E. now apply lookup_map_set_other.
Qed.

Lemma nodup_fold (hs : list string) (m0 : CookieMap) :
  NoDup (map fst m0) -> NoDup (map fst (fold_left cookie_step hs m0)).
Proof.
  revert m0. induction hs as [|h r IH]; intros m0 H; simpl; [exact H|].
  apply IH. unfold cookie_step.
  destruct (parse_cookie h) as [[k v]|]; [now apply nodup_map_set|exact H].
Qed.

Lemma nodup_collect (hs : list string) : NoDup (map fst (collect hs)).
Proof. apply nodup_fold. constructor. Qed.

Lemma lookup_collect (hs : list string) (n : string) :
  lookup (collect hs) n = last_value hs n.
Proof.
  unfold collect. rewrite lookup_fold. now destruct (last_value hs n).
Qed.

Lemma last_value_named (hs : list string) (n : string) :
  named hs n <-> exists v, last_value hs n = Some v.
Proof.
  induction hs as [|h r IH]; simpl.
  - split; [intros (? & ? & [] & _)|intros [? [=]]].
  - split.
    + intros (h' & v & [->|Hin] & Hp).
      * destruct (last_value r n); [eexists; reflexivity|].
        rewrite Hp, String.eqb_refl. eexists; reflexivity.
      * destruct (proj1 IH) as [v' Hv']; [exists h', v; split; assumption|].
        rewrite Hv'. eexists; reflexivity.
    + intros [v Hv]. destruct (last_value r n) eqn:E.
      * destruct (proj2 IH) as (h' & v' & Hin & Hp); [eexists; reflexivity|].
        exists h', v'. split; [now right|exact Hp].
      * destruct (parse_cookie h) as [[k v']|] eqn:Hp; [|discriminate].
        destruct (String.eqb k n) eqn:Ek; [|discriminate].
        apply String.eqb_eq in Ek. subst k.
        exists h, v'. split; [now left|exact Hp].
Qed.

(** A cookie name never holds an equals sign. *)
Lemma parse_cookie_name (h n v : string) :
  parse_cookie h = Some (n, v) -> contains "=" n = false.
Proof.
  unfold parse_cookie.
  set (part := JS.trim (hd EmptyString (JS.split ";" h))).
  destruct (JS.truthy part); [|discriminate].
  destruct (split_head "=" part) as (hd' & tl' & Hs & Hc). rewrite Hs.
  destruct (JS.truthy hd' && Nat.ltb 0 (length tl')); [|discriminate].
  intros [= <- _]. now apply contains_trim.
Qed.

Lemma named_no_equals (hs : list string) (n : string) :
  named hs n -> contains "=" n = false.
Proof. intros (h & v & _ & Hp). eapply parse_cookie_name; eauto. Qed.

Lemma entry_name_render (n v : string) :
  contains "=" n = false -> entry_name (render (n, v)) = n.
Proof. intros H. unfold entry_name, render. simpl. now apply split_append_head. Qed.

Lemma keys_collect (hs : list string) (n : string) :
  In n (map fst (collect hs)) <-> named hs n.
Proof.
  rewrite lookup_keys, last_value_named.
  split; intros [v H]; exists v; [rewrite <- lookup_collect|rewrite lookup_collect]; exact H.
Qed.

(** The names of the entries of the rebuilt store are the keys of the map. *)
Lemma entry_names_collect (hs : list string) :
  map entry_name (map render (collect hs)) = map fst (collect hs).
Proof.
  rewrite map_map. apply map_ext_in. intros [n v] Hin. simpl.
  apply entry_name_render. apply (named_no_equals hs).
  apply keys_collect. apply (in_map fst) in Hin. exact Hin.
Qed.

End CookieFacts.

(* ------------------------------------------------------------------ *)
(** ** Facts about single calls *)

Module CallFacts.
Import Trace Runs.

Lemma exchanges_of_app {A} (m : M A) (w : Client) (tr : list Exchange) :
  history (snd (m w)) = (history w ++ tr)%list -> exchanges_of m w = tr.
Proof.
  intros H. unfold exchanges_of. rewrite H, skipn_app, skipn_all, Nat.sub_diag.
  reflexivity.
Qed.

Lemma endpoint_build (cookies : list string) (m : Method) (u : string)
      (b : option string) (cfg : Config) (out : Outcome) :
  endpoint (build_request cookies m u b cfg, out) = (m, u).
Proof.
  unfold endpoint, build_request, add_cookies.
  destruct (Nat.ltb 0 (length cookies)); reflexivity.
Qed.

Lemma params_build (cookies : list string) (m : Method) (u : string)
      (b : option string) (cfg : Config) :
  params (build_request cookies m u b cfg) = cfg_params cfg.
Proof.
  unfold build_request, add_cookies.
  destruct (Nat.ltb 0 (length cookies)); reflexivity.
Qed.

Lemma settle_ok (validate : Z -> bool) (out : Outcome) (r : Response) :
  settle validate out = Ok r <-> out = Resp r /\ validate (status r) = true.
Proof.
  destruct out as [r'|msg]; simpl.
  - destruct (validate (status r')) eqn:E; split.
    + intros [= ->]. auto.
    + intros [[= ->] _]. reflexivity.
    + discriminate.
    + intros [[= ->] H]. congruence.
  - split; [discriminate|intros [[=] _]].
Qed.

Lemma settle_throw (validate : Z -> bool) (out : Outcome) (e : JsError) :
  settle validate out = Throw e ->
  response e = match out with Resp r => Some r | NetErr _ => None end
  /\ (forall r, out = Resp r -> validate (status r) = false).
Proof.
  destruct out as [r'|msg]; simpl.
  - destruct (validate (status r')) eqn:E; [discriminate|].
    intros [= <-]. split; [reflexivity|]. now intros r [= <-].
  - intros [= <-]. split; [reflexivity|discriminate].
Qed.

Section Calls.
Variable server : list Exchange -> Request -> Outcome.

(** What one call does to the state and what it returns. *)
Lemma send_inv (m : Method) (u : string) (b : option string) (cfg : Config)
      (w w1 : Client) (res : Result Response) :
  send server m u b cfg w = (res, w1) ->
  exists ex,
    endpoint ex = (m, u)
    /\ params (fst ex) = cfg_params cfg
    /\ snd ex = server (history w) (fst ex)
    /\ res = settle (validate_of cfg) (snd ex)
    /\ history w1 = (history w ++ [ex])%list
    /\ sessionCookies w1 = intercept_response res (sessionCookies w).
Proof.
  unfold send. intros [= <- <-].
  eexists (_, _). cbn [fst snd history sessionCookies].
  repeat split; [apply endpoint_build|apply params_build].
Qed.

End Calls.

End CallFacts.

(* ------------------------------------------------------------------ *)
(** ** The runs of [login] *)

Module LoginFacts.
Import Trace Runs CallFacts.

Lemma answered_200 (validate : Z -> bool) (ex : Exchange) (e : JsError) :
  (forall s, s = 200 -> validate s = true) ->
  settle validate (snd ex) = Throw e ->
  answered_with [200] ex = false.
Proof.
  intros Hv Hs. apply settle_throw in Hs. destruct Hs as [_ Hs].
  unfold answered_with. destruct (snd ex) as [r|msg]; [|reflexivity].
  simpl. specialize (Hs r eq_refl).
  destruct (status r =? 200) eqn:E; [|reflexivity].
  apply Z.eqb_eq in E. rewrite (Hv _ E) in Hs. discriminate.
Qed.

Lemma answered_ok (validate : Z -> bool) (ex : Exchange) (r : Response)
      (statuses : list Z) :
  settle validate (snd ex) = Ok r ->
  answered_with statuses ex = existsb (Z.eqb (status r)) statuses.
Proof.
  intros Hs. apply settle_ok in Hs. destruct Hs as [Hs _].
  unfold answered_with. now rewrite Hs.
Qed.

Lemma response_status_is_thrown (validate : Z -> bool) (ex : Exchange)
      (e : JsError) (statuses : list Z) :
  settle validate (snd ex) = Throw e ->
  existsb (response_status_is e) statuses = answered_with statuses ex.
Proof.
  intros Hs. apply settle_throw in Hs. destruct Hs as [Hr _].
  unfold answered_with, response_status_is. rewrite Hr.
  destruct (snd ex) as [r|msg]; [reflexivity|].
  induction statuses; simpl; auto.
Qed.

Section Login.
Variable server : list Exchange -> Request -> Outcome.

Lemma validateMobile_run (mobile : string) (w : Client) :
  exists w1 e1,
    validateMobile server mobile w = (Ok (answered_with [200] e1), w1)
    /\ history w1 = (history w ++ [e1])%list
    /\ endpoint e1 = validate_mobile.
Proof.
  unfold validateMobile, try_catch, bind, post.
  destruct (send _ _ _ _ _ _) as [res w1] eqn:Es.
  apply send_inv in Es.
  destruct Es as (e1 & Hep & _ & _ & Hres & Hh & _).
  exists w1, e1. split; [|split; assumption].
  symmetry in Hres. destruct res as [r|e]; unfold ret.
  - rewrite (answered_ok _ _ _ [200] Hres). simpl. now rewrite orb_false_r.
  - rewrite (answered_200 default_validate e1 e); auto.
    intros s ->. reflexivity.
Qed.

(** Every run of [login] returns a truth value, and is one of the four
    runs of [LoginRun]. *)
Lemma login_run (mobile : string) (w : Client) :
  exists b w' tr,
    login server mobile w = (Ok b, w')
    /\ history w' = (history w ++ tr)%list
    /\ LoginRun b tr.
Proof.
  destruct (validateMobile_run mobile w) as (w1 & e1 & Hv & Hh1 & Hep1).
  unfold login, try_catch at 1, bind at 1. rewrite Hv.
  destruct (answered_with [200] e1) eqn:Ha1; cbn [negb].
  - unfold bind at 1, get.
    destruct (send _ _ _ _ _ _) as [res w2] eqn:Es.
    apply send_inv in Es.
    destruct Es as (e2 & Hep2 & _ & _ & Hres & Hh2 & _).
    symmetry in Hres. destruct res as [r2|e].
    + pose proof Hres as Hok. apply settle_ok in Hok. destruct Hok as [Ho2 Hv2].
      unfold bind at 1, data_match.
      destruct (data r2) as [html| |] eqn:Hd; unfold ret, throw.
      * destruct (Token.token_match html) as [token|] eqn:Ht.
        -- unfold bind, login_submit, post.
           destruct (send _ _ _ _ _ _) as [res3 w3] eqn:Es3.
           apply send_inv in Es3.
           destruct Es3 as (e3 & Hep3 & _ & _ & Hres3 & Hh3 & _).
           symmetry in Hres3.
           assert (Hrun : LoginRun (answered_with [200; 302] e3) [e1; e2; e3]).
           { eapply login_submitted; eauto. rewrite Hd. exact Ht. }
           assert (Hh : history w3 = (history w ++ [e1; e2; e3])%list).
           { rewrite Hh3, Hh2, Hh1, <- !app_assoc. reflexivity. }
           destruct res3 as [r3|e].
           ++ exists (answered_with [200; 302] e3), w3, [e1; e2; e3].
              split; [|split; assumption].
              rewrite (answered_ok _ _ _ [200; 302] Hres3). simpl.
              now rewrite orb_false_r.
           ++ exists (answered_with [200; 302] e3), w3, [e1; e2; e3].
              split; [|split; assumption].
              pose proof (response_status_is_thrown _ e3 _ [302; 200] Hres3) as Hx.
              simpl in Hx. rewrite orb_false_r in Hx. rewrite Hx.
              assert (Hsw : answered_with [302; 200] e3 = answered_with [200; 302] e3).
              { unfold answered_with. destruct (snd e3); [|reflexivity].
                simpl. rewrite !orb_false_r. apply orb_comm. }
              rewrite Hsw. now destruct (answered_with [200; 302] e3).
        -- exists false, w2, [e1; e2]. split; [reflexivity|]. split.
           ++ rewrite Hh2, Hh1, <- app_assoc. reflexivity.
           ++ eapply login_no_token; eauto. rewrite Hd. exact Ht.
      * exists false, w2, [e1; e2]. split; [reflexivity|]. split.
        -- rewrite Hh2, Hh1, <- app_assoc. reflexivity.
        -- eapply login_no_token; eauto. now rewrite Hd.
      * exists false, w2, [e1; e2]. split; [reflexivity|]. split.
        -- rewrite Hh2, Hh1, <- app_assoc. reflexivity.
        -- eapply login_no_token; eauto. now rewrite Hd.
    + exists (answered_with [302; 200] e2), w2, [e1; e2]. split; [|split].
      * pose proof (response_status_is_thrown _ e2 _ [302; 200] Hres) as Hx.
        simpl in Hx. rewrite orb_false_r in Hx. rewrite Hx.
        now destruct (answered_with [302; 200] e2).
      * rewrite Hh2, Hh1, <- app_assoc. reflexivity.
      * apply login_page_thrown; auto.
        intros (r & Hr & Hacc). apply settle_throw in Hres.
        destruct Hres as [_ Hrej]. specialize (Hrej r Hr).
        change (default_validate (status r) = false) in Hrej. congruence.
  - exists false, w1, [e1]. split; [reflexivity|]. split; [exact Hh1|].
    now apply login_not_valid.
Qed.

End Login.

End LoginFacts.

(* ------------------------------------------------------------------ *)
(** ** The runs of [getAvailableTimes] and [bookAppointment] *)

Module FlowFacts.
Import Trace Runs CallFacts.

Lemma settle_accepted (validate : Z -> bool) (ex : Exchange) (r : Response) :
  settle validate (snd ex) = Ok r -> accepted validate ex.
Proof. intros H. apply settle_ok in H. now exists r. Qed.

Lemma settle_not_accepted (validate : Z -> bool) (ex : Exchange) (e : JsError) :
  settle validate (snd ex) = Throw e -> ~ accepted validate ex.
Proof.
  intros H (r & Hr & Hv). apply settle_throw in H. destruct H as [_ H].
  rewrite (H r Hr) in Hv. discriminate.
Qed.

Lemma ids_of_params (ex : Exchange) (ps : list (string * Value)) :
  params (fst ex) = ps -> ids_of ex = param "ids" ps.
Proof. intros H. unfold ids_of. now rewrite H. Qed.

Section Flow.
Variable server : list Exchange -> Request -> Outcome.

Ltac call e Hep Hids Hres Hh :=
  let res := fresh "res" in
  let w' := fresh "w" in
  let Es := fresh "Es" in
  let Hp := fresh "Hp" in
  destruct (send _ _ _ _ _ _) as [res w'] eqn:Es;
  apply send_inv in Es;
  destruct Es as (e & Hep & Hp & _ & Hres & Hh & _);
  apply ids_of_params in Hp; cbn [cfg_params param String.eqb Ascii.eqb Bool.eqb] in Hp;
  rename Hp into Hids;
  symmetry in Hres; cbn [validate_of cfg_validateStatus] in Hres;
  destruct res.

Ltac close_run tr :=
  eexists _, _, tr; split; [reflexivity|]; split;
  [ repeat match goal with H : history _ = _ |- _ => rewrite H; clear H end;
    rewrite <- ?app_assoc; reflexivity
  | ].

Lemma getAvailableTimes_run (appointmentTypeIds : list Z) (schedulerId : Z)
      (branchId : option Z) (w : Client) :
  exists d w' tr,
    getAvailableTimes server appointmentTypeIds schedulerId branchId w = (Ok d, w')
    /\ history w' = (history w ++ tr)%list
    /\ TimesRun (first_id appointmentTypeIds) tr.
Proof.
  unfold getAvailableTimes, try_catch.
  unfold bind at 1, visit_type_select, get.
  call e1 Hep1 Hids1 Hres1 Hh1.
  - unfold bind at 1, visit_scheduler_select, get.
    call e2 Hep2 Hids2 Hres2 Hh2.
    + unfold bind at 1, visit_time_select, get.
      call e3 Hep3 Hids3 Hres3 Hh3.
      * unfold bind at 1, fetch_times, post.
        call e4 Hep4 Hids4 Hres4 Hh4.
        -- close_run [e1; e2; e3; e4].
           apply times_fetched; eauto using settle_accepted.
        -- destruct (response_status_is e 302); close_run [e1; e2; e3; e4];
             apply times_fetched; eauto using settle_accepted.
      * destruct (response_status_is e 302); close_run [e1; e2; e3];
          apply times_page_thrown;
          eauto using settle_accepted, settle_not_accepted.
    + destruct (response_status_is e 302); close_run [e1; e2];
        apply times_scheduler_thrown;
        eauto using settle_accepted, settle_not_accepted.
  - destruct (response_status_is e 302); close_run [e1];
      apply times_type_thrown; eauto using settle_not_accepted.
Qed.

Lemma getNextWeekTimes_run (appointmentTypeIds : list Z) (schedulerId : Z)
      (branchId : option Z) (w : Client) :
  exists d w' e1,
    getNextWeekTimes server appointmentTypeIds schedulerId branchId w = (Ok d, w')
    /\ history w' = (history w ++ [e1])%list
    /\ endpoint e1 = next_week_fetch
    /\ ids_of e1 = Some (VStr (join_ids appointmentTypeIds)).
Proof.
  unfold getNextWeekTimes, try_catch, bind, post.
  call e1 Hep1 Hids1 Hres1 Hh1; eexists _, _, e1; repeat split; eauto.
Qed.

Lemma thrown_message_eq (validate : Z -> bool) (ex : Exchange) (e : JsError) :
  settle validate (snd ex) = Throw e ->
  JS.or_else (embedded_message e) (JS.or_else (message e) "Unknown error")
  = thrown_message ex.
Proof.
  unfold thrown_message, embedded_message.
  destruct (snd ex) as [r|msg]; simpl.
  - destruct (validate (status r)); [discriminate|].
    intros [= <-]. reflexivity.
  - intros [= <-]. reflexivity.
Qed.

Lemma booking_result_thrown (date time : string) (ex : Exchange) (e : JsError) :
  settle default_validate (snd ex) = Throw e ->
  booking_result date time ex = failed (thrown_message ex).
Proof.
  intros H. apply settle_throw in H. destruct H as [_ H].
  unfold booking_result. destruct (snd ex) as [r|msg]; [|reflexivity].
  now rewrite (H r eq_refl).
Qed.

Lemma booking_result_returned (date time : string) (ex : Exchange) (r : Response) :
  settle default_validate (snd ex) = Ok r ->
  booking_result date time ex =
  if status r =? 200 then booked date time
  else failed "Booking failed - unexpected response".
Proof.
  intros H. apply settle_ok in H. destruct H as [Hr Hv].
  unfold booking_result. now rewrite Hr, Hv.
Qed.

Lemma bookAppointment_run (appointmentTypeIds : list Z) (schedulerId : Z)
      (date time : string) (length : option Z) (w : Client) :
  exists res w' tr,
    bookAppointment server appointmentTypeIds schedulerId date time length w
    = (Ok res, w')
    /\ history w' = (history w ++ tr)%list
    /\ BookRun (join_ids appointmentTypeIds) date time res tr.
Proof.
  unfold bookAppointment, try_catch.
  unfold bind at 1, revisit_time_select, get.
  call e1 Hep1 Hids1 Hres1 Hh1.
  - unfold bind at 1, ask_appointment, post.
    call e2 Hep2 Hids2 Hres2 Hh2.
    + exists (booking_result date time e2), w1, [e1; e2]. split; [|split].
      * rewrite (booking_result_returned _ _ _ _ Hres2).
        now destruct (status a0 =? 200).
      * rewrite Hh2, Hh1, <- app_assoc. reflexivity.
      * apply book_asked; eauto using settle_accepted.
    + exists (booking_result date time e2), w1, [e1; e2]. split; [|split].
      * rewrite (booking_result_thrown _ _ _ _ Hres2).
        unfold ret. now rewrite (thrown_message_eq _ _ _ Hres2).
      * rewrite Hh2, Hh1, <- app_assoc. reflexivity.
      * apply book_asked; eauto using settle_accepted.
  - exists (failed (thrown_message e1)), w0, [e1]. split; [|split].
    + unfold ret. now rewrite (thrown_message_eq _ _ _ Hres1).
    + exact Hh1.
    + apply book_page_thrown; eauto using settle_not_accepted.
Qed.

(** The steps of [completeBooking], one after the other, with the
    exchanges of each. *)
Lemma completeBooking_run (config : BookingConfig) (w : Client) :
  exists b w1 tr1,
    login server (mobile config) w = (Ok b, w1)
    /\ history w1 = (history w ++ tr1)%list
    /\ LoginRun b tr1
    /\ ((b = false
         /\ completeBooking server config w = (Ok (failed "Login failed"), w1))
        \/ (b = true
            /\ exists d w2 tr2,
                getAvailableTimes server (appointmentTypeIds_of config)
                  (schedulerId_of config) None w1 = (Ok d, w2)
                /\ history w2 = (history w1 ++ tr2)%list
                /\ TimesRun (first_id (appointmentTypeIds_of config)) tr2
                /\ ((wants_booking (date config) (time config) = false
                     /\ completeBooking server config w = (Ok logged_in_only, w2))
                    \/ (exists dd tt res w3 tr3,
                           date config = Some dd /\ time config = Some tt
                           /\ wants_booking (date config) (time config) = true
                           /\ bookAppointment server (appointmentTypeIds_of config)
                                (schedulerId_of config) dd tt None w2 = (Ok res, w3)
                           /\ history w3 = (history w2 ++ tr3)%list
                           /\ BookRun (join_ids (appointmentTypeIds_of config))
                                dd tt res tr3
                           /\ completeBooking server config w = (Ok res, w3))))).
Proof.
  destruct (LoginFacts.login_run server (mobile config) w)
    as (b & w1 & tr1 & Hl & Hh1 & Hrun1).
  exists b, w1, tr1. split; [exact Hl|]. split; [exact Hh1|]. split; [exact Hrun1|].
  destruct b.
  - right. split; [reflexivity|].
    destruct (getAvailableTimes_run (appointmentTypeIds_of config)
                (schedulerId_of config) None w1) as (d & w2 & tr2 & Hg & Hh2 & Hrun2).
    exists d, w2, tr2. split; [exact Hg|]. split; [exact Hh2|]. split; [exact Hrun2|].
    assert (Hc : completeBooking server config w =
                 try_catch
                   (match date config, time config with
                    | Some d, Some t =>
                        if JS.truthy d && JS.truthy t
                        then bookAppointment server (appointmentTypeIds_of config)
                               (schedulerId_of config) d t None
                        else ret logged_in_only
                    | _, _ => ret logged_in_only
                    end) booking_handler w2).
    { unfold completeBooking, try_catch, booking_chain, bind. cbv zeta.
      rewrite Hl. cbn [negb]. rewrite Hg. reflexivity. }
    rewrite Hc. unfold wants_booking, truthy_str.
    destruct (date config) as [dd|]; [|left; split; reflexivity].
    destruct (time config) as [tt|];
      [|left; split; [apply andb_false_r|reflexivity]].
    destruct (JS.truthy dd && JS.truthy tt) eqn:E; [right|left; split; reflexivity].
    destruct (bookAppointment_run (appointmentTypeIds_of config)
                (schedulerId_of config) dd tt None w2)
      as (res & w3 & tr3 & Hb & Hh3 & Hrun3).
    exists dd, tt, res, w3, tr3. repeat split; try assumption.
    unfold try_catch. now rewrite Hb.
  - left. split; [reflexivity|].
    unfold completeBooking, try_catch, booking_chain, bind.
    rewrite Hl. reflexivity.
Qed.

End Flow.

End FlowFacts.

(* ------------------------------------------------------------------ *)
(** ** The session cookie store *)

Import Cookies CookieSpec CookieFacts.

(** The store rebuilt from the lines [setCookieHeaders]. *)
Lemma capture_names (setCookieHeaders old : list string) (name : string) :
  In name (map entry_name (capture (Some setCookieHeaders) old))
  <-> named setCookieHeaders name.
Proof. unfold capture. rewrite entry_names_collect. apply keys_collect. Qed.

Lemma capture_nodup (setCookieHeaders old : list string) :
  NoDup (map entry_name (capture (Some setCookieHeaders) old)).
Proof. unfold capture. rewrite entry_names_collect. apply nodup_collect. Qed.

Lemma capture_last (setCookieHeaders old : list string) (name value : string) :
  last_value setCookieHeaders name = Some value ->
  In (name ++ "=" ++ value) (capture (Some setCookieHeaders) old).
Proof.
  intros H. rewrite <- lookup_collect in H.
  apply lookup_in in H. apply (in_map render) in H. exact H.
Qed.

Lemma capture_entry (setCookieHeaders old : list string) (entry : string) :
  In entry (capture (Some setCookieHeaders) old) ->
  exists name value,
    entry = name ++ "=" ++ value
    /\ entry_name entry = name
    /\ last_value setCookieHeaders name = Some value.
Proof.
  intros H. apply in_map_iff in H. destruct H as ([name value] & <- & Hin).
  exists name, value. split; [reflexivity|].
  assert (Hl : lookup (collect setCookieHeaders) name = Some value)
    by (apply in_lookup; [apply nodup_collect|exact Hin]).
  rewrite lookup_collect in Hl. split; [|exact Hl].
  apply entry_name_render, (named_no_equals setCookieHeaders).
  apply last_value_named. now exists value.
Qed.

(** A call that returns a response hands it to the interceptor. *)
Lemma send_store (server : list Exchange -> Request -> Outcome) (m : Method)
      (u : string) (b : option string) (cfg : Config) (w : Client) (r : Response) :
  fst (send server m u b cfg w) = Ok r ->
  sessionCookies (snd (send server m u b cfg w))
  = capture (set_cookie r) (sessionCookies w).
Proof. unfold send. cbn [fst snd sessionCookies]. now intros ->. Qed.

(** A call that throws leaves the store as it is. *)
Lemma send_store_thrown (server : list Exchange -> Request -> Outcome) (m : Method)
      (u : string) (b : option string) (cfg : Config) (w : Client) (e : JsError) :
  fst (send server m u b cfg w) = Throw e ->
  sessionCookies (snd (send server m u b cfg w)) = sessionCookies w.
Proof. unfold send. cbn [fst snd sessionCookies]. now intros ->. Qed.

(* ------------------------------------------------------------------ *)
(** ** The calls that the runs make *)

Module TraceFacts.
Import Trace Runs.

Lemma login_run_endpoints (b : bool) (tr : list Exchange) :
  LoginRun b tr ->
  forall ex, In ex tr ->
    endpoint ex = validate_mobile \/ endpoint ex = login_page
    \/ endpoint ex = login_submit_call.
Proof.
  intros H ex Hin. destruct H; simpl in Hin;
    repeat (destruct Hin as [<-|Hin]; [tauto|]); contradiction.
Qed.

Lemma times_run_endpoints (idsParam : Value) (tr : list Exchange) :
  TimesRun idsParam tr -> endpoints tr = firstn (length tr) wizard_sequence.
Proof.
  intros H. destruct H; unfold endpoints; simpl;
    repeat match goal with H : endpoint _ = _ |- _ => rewrite H; clear H end;
    reflexivity.
Qed.

Lemma in_firstn {A} (n : nat) (l : list A) (x : A) :
  In x (firstn n l) -> In x l.
Proof.
  revert l. induction n as [|n IH]; intros [|y l]; simpl; try tauto.
  intros [->|H]; [now left|right; auto].
Qed.

Lemma times_run_in (idsParam : Value) (tr : list Exchange) :
  TimesRun idsParam tr ->
  forall ex, In ex tr -> In (endpoint ex) wizard_sequence.
Proof.
  intros H ex Hin. apply (in_map endpoint) in Hin.
  fold (endpoints tr) in Hin. rewrite (times_run_endpoints _ _ H) in Hin.
  eapply in_firstn; eauto.
Qed.

Lemma book_run_endpoints (idsParam date time : string) (res : BookingResult)
      (tr : list Exchange) :
  BookRun idsParam date time res tr ->
  forall ex, In ex tr -> endpoint ex = time_select \/ endpoint ex = ask.
Proof.
  intros H ex Hin. destruct H; simpl in Hin;
    repeat (destruct Hin as [<-|Hin]; [tauto|]); contradiction.
Qed.

Lemma ask_not_wizard : ~ In ask wizard_sequence.
Proof.
  unfold wizard_sequence, ask, type_select, scheduler_select, time_select, time_fetch.
  simpl. intros H.
  repeat (destruct H as [H|H]; [discriminate H|]). exact H.
Qed.

End TraceFacts.

(* ------------------------------------------------------------------ *)
(** ** The booking flow *)

Import Trace Runs CallFacts LoginFacts FlowFacts TraceFacts.

Lemma run_exchanges {A} (m : M A) (w w' : Client) (res : Result A)
      (tr : list Exchange) :
  m w = (res, w') -> history w' = (history w ++ tr)%list -> exchanges_of m w = tr.
Proof. intros Hm Hh. apply exchanges_of_app. now rewrite Hm. Qed.

Ltac pick_exchange Hin :=
  simpl in Hin;
  repeat match type of Hin with
         | _ \/ _ => destruct Hin as [Hin|Hin]
         | False => contradiction
         end;
  try subst.

Ltac clash :=
  match goal with
  | H1 : endpoint ?e = _, H2 : endpoint ?e = _ |- _ =>
      rewrite H1 in H2; discriminate H2
  | H1 : snd ?e = Resp _, H2 : snd ?e = Resp _ |- _ =>
      rewrite H1 in H2; injection H2 as H2; subst
  end.

Section Claims.

Variable server : list Exchange -> Request -> Outcome.

(** C4. The calls of [getAvailableTimes] are an initial part of the
    sequence type selection, provider selection, time selection, time
    fetch, in this order, and some call is always made; when the time
    fetch is among them, the calls are exactly these four and each of the
    three page visits before it was answered by an accepted response. *)
Theorem getAvailableTimes_wizard_order (appointmentTypeIds : list Z)
        (schedulerId : Z) (branchId : option Z) (w : Client) :
  let tr := exchanges_of
              (getAvailableTimes server appointmentTypeIds schedulerId branchId) w in
  endpoints tr = firstn (length tr) wizard_sequence
  /\ tr <> []
  /\ (In time_fetch (endpoints tr) ->
      exists e1 e2 e3 e4,
        tr = [e1; e2; e3; e4]
        /\ endpoints tr = wizard_sequence
        /\ accepted lenient_validate e1
        /\ accepted lenient_validate e2
        /\ accepted lenient_validate e3).
Proof.
  destruct (getAvailableTimes_run server appointmentTypeIds schedulerId branchId w)
    as (d & w' & tr & Hg & Hh & Hrun).
  cbv zeta. rewrite (run_exchanges _ _ _ _ _ Hg Hh).
  split; [eapply times_run_endpoints; eauto|].
  split; [destruct Hrun; discriminate|].
  intros Hin. pose proof (times_run_endpoints _ _ Hrun) as Hep.
  destruct Hrun; rewrite Hep in Hin; simpl in Hin;
    repeat (destruct Hin as [Hin|Hin]; [try discriminate Hin|]); try contradiction.
  exists e1, e2, e3, e4. repeat split; assumption.
Qed.

(** C9 (amended). With at least two identifiers, [getAvailableTimes] sends
    the first one alone as [ids] on the three of its requests that carry
    the parameter (the type-selection request carries none) and does not
    look at the others; [getNextWeekTimes] sends the comma-joined list on
    its request, and [bookAppointment] on its time-selection request (its
    booking request carries no [ids]). *)
Theorem ids_parameter (x y : Z) (rest : list Z) (schedulerId : Z)
        (branchId : option Z) (date time : string) (length : option Z) (w : Client) :
  let ids := x :: y :: rest in
  (forall ex,
      In ex (exchanges_of (getAvailableTimes server ids schedulerId branchId) w) ->
      (endpoint ex = type_select /\ ids_of ex = None)
      \/ (endpoint ex <> type_select /\ ids_of ex = Some (VNum x)))
  /\ getAvailableTimes server ids schedulerId branchId w
     = getAvailableTimes server [x] schedulerId branchId w
  /\ (forall ex,
        In ex (exchanges_of (getNextWeekTimes server ids schedulerId branchId) w) ->
        ids_of ex = Some (VStr (join_ids ids)))
  /\ (forall ex,
        In ex (exchanges_of (bookAppointment server ids schedulerId date time length) w) ->
        (endpoint ex = time_select /\ ids_of ex = Some (VStr (join_ids ids)))
        \/ (endpoint ex = ask /\ ids_of ex = None))
  /\ join_ids ids = JS.show_num x ++ "," ++ join_ids (y :: rest).
Proof.
  cbv zeta. split; [|split; [reflexivity|split; [|split; [|reflexivity]]]].
  - destruct (getAvailableTimes_run server (x :: y :: rest) schedulerId branchId w)
      as (d & w' & tr & Hg & Hh & Hrun).
    rewrite (run_exchanges _ _ _ _ _ Hg Hh).
    intros ex Hin. simpl in Hrun.
    destruct Hrun; pick_exchange Hin;
      first [ left; split; assumption
            | right; split; [|assumption];
              match goal with H : endpoint _ = _ |- _ <> _ => rewrite H; discriminate end ].
  - destruct (getNextWeekTimes_run server (x :: y :: rest) schedulerId branchId w)
      as (d & w' & e1 & Hg & Hh & _ & Hids).
    rewrite (run_exchanges _ _ _ _ _ Hg Hh).
    intros ex Hin. pick_exchange Hin. exact Hids.
  - destruct (bookAppointment_run server (x :: y :: rest) schedulerId date time length w)
      as (res & w' & tr & Hb & Hh & Hrun).
    rewrite (run_exchanges _ _ _ _ _ Hb Hh).
    intros ex Hin.
    destruct Hrun; pick_exchange Hin;
      first [ left; split; assumption | right; split; assumption ].
Qed.

(** [login] always returns a truth value. *)
Lemma login_returns (mobile : string) (w : Client) :
  exists b, fst (login server mobile w) = Ok b.
Proof.
  destruct (login_run server mobile w) as (b & w' & tr & Hl & _ & _).
  exists b. now rewrite Hl.
Qed.

(** When [login] is true: either the login submission was answered with
    200 or 302, or the request for the login page itself was answered with
    a 302 that the client did not follow and threw. *)
Lemma login_true_cases (mobile : string) (w : Client) :
  fst (login server mobile w) = Ok true ->
  exists ex r,
    In ex (exchanges_of (login server mobile) w)
    /\ snd ex = Resp r
    /\ ((endpoint ex = login_submit_call /\ (status r = 200 \/ status r = 302))
        \/ (endpoint ex = login_page /\ status r = 302)).
Proof.
  destruct (login_run server mobile w) as (b & w' & tr & Hl & Hh & Hrun).
  rewrite (run_exchanges _ _ _ _ _ Hl Hh), Hl. cbn [fst]. intros [= ->].
  inversion Hrun as [ | e1 e2 ? ? ? ? Hb | | e1 e2 r2 token e3 ? ? ? ? ? ? ? Hb ]; subst.
  - unfold answered_with in Hb. destruct (snd e2) as [r|] eqn:Hr; [|discriminate].
    exists e2, r. split; [simpl; tauto|]. split; [exact Hr|]. right.
    split; [assumption|].
    assert (Hrej : default_validate (status r) = false).
    { destruct (default_validate (status r)) eqn:E; [|reflexivity].
      exfalso. match goal with H : ~ accepted _ _ |- _ => apply H end.
      now exists r. }
    simpl in Hb. unfold default_validate in Hrej. lia.
  - unfold answered_with in Hb. destruct (snd e3) as [r|] eqn:Hr; [|discriminate].
    exists e3, r. split; [simpl; tauto|]. split; [exact Hr|]. left.
    split; [assumption|]. simpl in Hb. lia.
Qed.

(** When the login page that the client receives holds no token (its
    payload does not match the pattern), [login] returns false and makes
    no login submission. *)
Lemma login_without_token (mobile : string) (w : Client) (ex : Exchange)
        (r : Response) :
  In ex (exchanges_of (login server mobile) w) ->
  endpoint ex = login_page ->
  snd ex = Resp r ->
  default_validate (status r) = true ->
  token_of (data r) = None ->
  fst (login server mobile w) = Ok false
  /\ ~ In login_submit_call (endpoints (exchanges_of (login server mobile) w)).
Proof.
  destruct (login_run server mobile w) as (b & w' & tr & Hl & Hh & Hrun).
  rewrite (run_exchanges _ _ _ _ _ Hl Hh), Hl. cbn [fst].
  intros Hin Hep Hr Hv Ht.
  destruct Hrun; pick_exchange Hin; try clash;
    try (exfalso; match goal with H : ~ accepted _ _ |- _ => apply H end;
         now exists r);
    try congruence.
  split; [reflexivity|]. unfold endpoints. simpl.
  repeat match goal with H : endpoint _ = _ |- _ => rewrite H; clear H end.
  intros [H|[H|[]]]; discriminate H.
Qed.

(** C2 (amended). For every response to the login submission, [login]
    returns true if and only if the status of that response is exactly 200
    or exactly 302, and false for any other status (other success and
    redirect statuses included); and it returns false when the login page
    that the client receives holds no token. *)
Theorem login_result (mobile : string) (w : Client) :
  (forall ex r,
      In ex (exchanges_of (login server mobile) w) ->
      endpoint ex = login_submit_call ->
      snd ex = Resp r ->
      (fst (login server mobile w) = Ok true <-> status r = 200 \/ status r = 302)
      /\ (~ (status r = 200 \/ status r = 302) ->
          fst (login server mobile w) = Ok false))
  /\ (forall ex r,
        In ex (exchanges_of (login server mobile) w) ->
        endpoint ex = login_page ->
        snd ex = Resp r ->
        default_validate (status r) = true ->
        token_of (data r) = None ->
        fst (login server mobile w) = Ok false).
Proof.
  destruct (login_run server mobile w) as (b & w' & tr & Hl & Hh & Hrun).
  rewrite (run_exchanges _ _ _ _ _ Hl Hh), Hl. cbn [fst]. split.
  - intros ex r Hin Hep Hr.
    destruct Hrun; pick_exchange Hin; try clash.
    unfold answered_with. rewrite Hr. simpl. rewrite orb_false_r.
    rewrite <- (Z.eqb_eq (status r) 200), <- (Z.eqb_eq (status r) 302).
    destruct (status r =? 200); destruct (status r =? 302); simpl;
      intuition congruence.
  - intros ex r Hin Hep Hr Hv Ht.
    destruct Hrun; pick_exchange Hin; try clash; try reflexivity;
      try (exfalso; match goal with H : ~ accepted _ _ |- _ => apply H end;
           now exists r);
      congruence.
Qed.

(** C6 (amended). [bookAppointment] never throws.  Once the booking call
    is made: a response with status 200 gives a success result that echoes
    the date and the time; a response with another status that the client
    accepts (201 to 299) gives the failure with the generic message; a
    response with a status that the client refuses (outside 200 to 299) is
    thrown and gives the failure with the message embedded by the server,
    or else the message of the error; a failure of the transport gives the
    failure with its message.  When the visit of the time-selection page
    throws, the booking call is not made and the failure is reported the
    same way. *)
Theorem bookAppointment_result (appointmentTypeIds : list Z) (schedulerId : Z)
        (date time : string) (length : option Z) (w : Client) :
  let run := bookAppointment server appointmentTypeIds schedulerId date time length in
  (exists res, fst (run w) = Ok res)
  /\ (forall ex,
        In ex (exchanges_of run w) ->
        endpoint ex = ask ->
        match snd ex with
        | Resp r =>
            (status r = 200 ->
             exists res, fst (run w) = Ok res /\ success res = true
                         /\ result_date res = Some date
                         /\ result_time res = Some time)
            /\ (status r <> 200 -> default_validate (status r) = true ->
                fst (run w) = Ok (failed "Booking failed - unexpected response"))
            /\ (default_validate (status r) = false ->
                fst (run w)
                = Ok (failed (JS.or_else (server_message r)
                                ("Request failed with status code "
                                   ++ JS.show_num (status r)))))
        | NetErr msg => fst (run w) = Ok (failed (JS.or_else msg "Unknown error"))
        end)
  /\ (forall ex,
        In ex (exchanges_of run w) ->
        endpoint ex = time_select ->
        ~ accepted default_validate ex ->
        fst (run w) = Ok (failed (thrown_message ex))
        /\ ~ In ask (endpoints (exchanges_of run w))).
Proof.
  destruct (bookAppointment_run server appointmentTypeIds schedulerId date time length w)
    as (res & w' & tr & Hb & Hh & Hrun).
  cbv zeta. rewrite (run_exchanges _ _ _ _ _ Hb Hh), Hb. cbn [fst].
  split; [now exists res|]. split.
  - intros ex Hin Hep.
    destruct Hrun; pick_exchange Hin; try clash.
    unfold booking_result, thrown_message.
    destruct (snd ex) as [r|msg]; [|reflexivity].
    destruct (default_validate (status r)) eqn:Hv.
    + split; [|split; [|discriminate]].
      * intros Hs. apply Z.eqb_eq in Hs. rewrite Hs.
        exists (booked date time). repeat split.
      * intros Hs _. apply Z.eqb_neq in Hs. now rewrite Hs.
    + split; [|split; [|reflexivity]].
      * intros Hs. rewrite Hs in Hv. discriminate Hv.
      * discriminate.
  - intros ex Hin Hep Hna.
    destruct Hrun; pick_exchange Hin; try clash; try contradiction.
    split; [reflexivity|]. unfold endpoints. simpl. rewrite Hep.
    intros [Habs|[]]. discriminate Habs.
Qed.

(** C1. With the mobile number 0544458876, the date 2025-11-16 and the
    time 10:00, whenever the login is accepted and the booking call is
    answered with status 200, [completeBooking] returns a success result
    with that date and that time. *)
Theorem completeBooking_books (serviceTypeId schedulerId branchId : option Z)
        (w : Client) :
  let config := {| mobile := "0544458876"; serviceTypeId := serviceTypeId;
                   schedulerId := schedulerId; date := Some "2025-11-16";
                   time := Some "10:00"; branchId := branchId |} in
  fst (login server (mobile config) w) = Ok true ->
  (exists ex r,
      In ex (exchanges_of (completeBooking server config) w)
      /\ endpoint ex = ask /\ snd ex = Resp r /\ status r = 200) ->
  exists res,
    fst (completeBooking server config w) = Ok res
    /\ success res = true
    /\ result_date res = Some "2025-11-16"
    /\ result_time res = Some "10:00".
Proof.
  intros config Hlogin (ex & r & Hin & Hep & Hr & Hs).
  destruct (completeBooking_run server config w)
    as (b & w1 & tr1 & Hl & Hh1 & Hrun1 & Hcases).
  rewrite Hl in Hlogin. cbn [fst] in Hlogin. injection Hlogin as ->.
  destruct Hcases as [[Hb _]|(_ & d & w2 & tr2 & Hg & Hh2 & Hrun2 & Hbook)];
    [discriminate Hb|].
  destruct Hbook as [[Hw _]|(dd & tt & res & w3 & tr3 & Hd & Ht & _ & Hb & Hh3 & Hrun3 & Hc)];
    [discriminate Hw|].
  cbn in Hd, Ht. injection Hd as <-. injection Ht as <-.
  assert (Hh : history w3 = (history w ++ (tr1 ++ tr2 ++ tr3))%list)
    by (rewrite Hh3, Hh2, Hh1, <- !app_assoc; reflexivity).
  rewrite (run_exchanges _ _ _ _ _ Hc Hh) in Hin. rewrite Hc. cbn [fst].
  apply in_app_or in Hin. destruct Hin as [Hin|Hin].
  { destruct (login_run_endpoints _ _ Hrun1 ex Hin) as [H|[H|H]];
      rewrite H in Hep; discriminate Hep. }
  apply in_app_or in Hin. destruct Hin as [Hin|Hin].
  { exfalso. apply ask_not_wizard. rewrite <- Hep.
    eapply times_run_in; eauto. }
  destruct Hrun3; pick_exchange Hin; try clash.
  exists (booking_result "2025-11-16" "10:00" ex). split; [reflexivity|].
  unfold booking_result. rewrite Hr, Hs. repeat split.
Qed.

(** C7. When the date or the time of the configuration is absent and
    [login] returns true, [completeBooking] returns a success result
    without date and without time, and [bookAppointment] is not called:
    the client ends in the state that [getAvailableTimes] leaves, and no
    booking call is among the exchanges. *)
Theorem completeBooking_without_slot (config : BookingConfig) (w : Client) :
  date config = None \/ time config = None ->
  fst (login server (mobile config) w) = Ok true ->
  (exists res,
      fst (completeBooking server config w) = Ok res
      /\ success res = true
      /\ result_date res = None
      /\ result_time res = None)
  /\ snd (completeBooking server config w)
     = snd (getAvailableTimes server (appointmentTypeIds_of config)
              (schedulerId_of config) None
              (snd (login server (mobile config) w)))
  /\ ~ In ask (endpoints (exchanges_of (completeBooking server config) w)).
Proof.
  intros Habsent Hlogin.
  destruct (completeBooking_run server config w)
    as (b & w1 & tr1 & Hl & Hh1 & Hrun1 & Hcases).
  rewrite Hl in Hlogin |- *. cbn [fst snd] in Hlogin |- *. injection Hlogin as ->.
  destruct Hcases as [[Hb _]|(_ & d & w2 & tr2 & Hg & Hh2 & Hrun2 & Hbook)];
    [discriminate Hb|].
  destruct Hbook as [[_ Hc]|(dd & tt & res & w3 & tr3 & Hd & Ht & _)];
    [|destruct Habsent; congruence].
  assert (Hh : history w2 = (history w ++ (tr1 ++ tr2))%list)
    by (rewrite Hh2, Hh1, <- !app_assoc; reflexivity).
  rewrite (run_exchanges _ _ _ _ _ Hc Hh), Hc, Hg. cbn [fst snd].
  split; [exists logged_in_only; repeat split|]. split; [reflexivity|].
  unfold endpoints. intros Hin. apply in_map_iff in Hin.
  destruct Hin as (ex & Hep & Hin). apply in_app_or in Hin. destruct Hin as [Hin|Hin].
  - destruct (login_run_endpoints _ _ Hrun1 ex Hin) as [H|[H|H]];
      rewrite H in Hep; discriminate Hep.
  - apply ask_not_wizard. rewrite <- Hep. eapply times_run_in; eauto.
Qed.

End Claims.

(* ------------------------------------------------------------------ *)
(** ** The statements on concrete servers *)

Import Examples.

Ltac nth_exchange :=
  apply nth_In; vm_compute; lia.

(** The complete flow against a server that accepts the login and answers
    the booking call with 200. *)
Lemma completeBooking_books_witness :
  let ex := nth 8 (exchanges_of (completeBooking happy_server sample_config) new_client)
              dummy_exchange in
  fst (login happy_server "0544458876" new_client) = Ok true
  /\ (In ex (exchanges_of (completeBooking happy_server sample_config) new_client)
      /\ endpoint ex = ask /\ snd ex = Resp ok_response /\ status ok_response = 200)
  /\ exists res,
      fst (completeBooking happy_server sample_config new_client) = Ok res
      /\ success res = true
      /\ result_date res = Some "2025-11-16"
      /\ result_time res = Some "10:00".
Proof.
  intros ex.
  assert (H1 : fst (login happy_server "0544458876" new_client) = Ok true)
    by (vm_compute; reflexivity).
  assert (H2 : In ex (exchanges_of (completeBooking happy_server sample_config) new_client)
               /\ endpoint ex = ask /\ snd ex = Resp ok_response
               /\ status ok_response = 200).
  { split; [nth_exchange|]. repeat split; vm_compute; reflexivity. }
  split; [exact H1|]. split; [exact H2|].
  exact (completeBooking_books happy_server (Some 37331) (Some 6132) (Some 0) new_client
           H1 (ex_intro _ ex (ex_intro _ ok_response H2))).
Defined.

(** Against the same server the time fetch is made, after the three pages. *)
Lemma getAvailableTimes_wizard_order_witness :
  let tr := exchanges_of (getAvailableTimes happy_server [37331] 6132 None) new_client in
  In time_fetch (endpoints tr)
  /\ exists e1 e2 e3 e4,
      tr = [e1; e2; e3; e4]
      /\ endpoints tr = wizard_sequence
      /\ accepted lenient_validate e1
      /\ accepted lenient_validate e2
      /\ accepted lenient_validate e3.
Proof.
  intros tr.
  assert (H : In time_fetch (endpoints tr))
    by (vm_compute; do 3 right; left; reflexivity).
  split; [exact H|].
  exact (proj2 (proj2 (getAvailableTimes_wizard_order happy_server [37331] 6132 None
                         new_client)) H).
Defined.

(** A login submission answered with 302 makes [login] true. *)
Lemma login_result_witness :
  let ex := nth 2 (exchanges_of (login happy_server "0544458876") new_client)
              dummy_exchange in
  let r := {| status := 302;
              set_cookie := Some [".ASPXAUTH=xyz; path=/"; "ASP.NET_SessionId=def; path=/"];
              data := DStr "Object moved" |} in
  (In ex (exchanges_of (login happy_server "0544458876") new_client)
   /\ endpoint ex = login_submit_call /\ snd ex = Resp r)
  /\ fst (login happy_server "0544458876" new_client) = Ok true.
Proof.
  intros ex r.
  assert (Hin : In ex (exchanges_of (login happy_server "0544458876") new_client))
    by nth_exchange.
  assert (Hep : endpoint ex = login_submit_call) by (vm_compute; reflexivity).
  assert (Hr : snd ex = Resp r) by (vm_compute; reflexivity).
  split; [repeat split; assumption|].
  apply (proj1 (proj1 (login_result happy_server "0544458876" new_client)
                  ex r Hin Hep Hr)).
  right. reflexivity.
Defined.

(** C2, as stated, fails: a login submission answered with 301, a redirect
    status, makes [login] false, and so does one answered with 201, a
    success status. *)
Lemma login_301_and_201_refused :
  ~ Stated.login_iff_success_or_redirect moved_server "0544458876" new_client
  /\ ~ Stated.login_iff_success_or_redirect created_server "0544458876" new_client.
Proof.
  split; intros H.
  - pose (ex := nth 2 (exchanges_of (login moved_server "0544458876") new_client)
                  dummy_exchange).
    pose (r := {| status := 301; set_cookie := None; data := DNull |}).
    assert (Hin : In ex (exchanges_of (login moved_server "0544458876") new_client))
      by nth_exchange.
    assert (Hep : endpoint ex = login_submit_call) by (vm_compute; reflexivity).
    assert (Hr : snd ex = Resp r) by (vm_compute; reflexivity).
    destruct (H ex r Hin Hep Hr) as [_ Hback].
    assert (Habs : fst (login moved_server "0544458876" new_client) = Ok true)
      by (apply Hback; right; reflexivity).
    vm_compute in Habs. discriminate Habs.
  - pose (ex := nth 2 (exchanges_of (login created_server "0544458876") new_client)
                  dummy_exchange).
    pose (r := {| status := 201; set_cookie := None; data := DNull |}).
    assert (Hin : In ex (exchanges_of (login created_server "0544458876") new_client))
      by nth_exchange.
    assert (Hep : endpoint ex = login_submit_call) by (vm_compute; reflexivity).
    assert (Hr : snd ex = Resp r) by (vm_compute; reflexivity).
    destruct (H ex r Hin Hep Hr) as [_ Hback].
    assert (Habs : fst (login created_server "0544458876" new_client) = Ok true)
      by (apply Hback; left; reflexivity).
    vm_compute in Habs. discriminate Habs.
Qed.

(** The handler of [login] also sees the errors of the request for the login
    page: a 302 thrown there makes [login] true although no token was looked
    for and no login was submitted. *)
Example login_page_bare_redirect :
  fst (login bare_redirect_server "0544458876" new_client) = Ok true
  /\ endpoints (exchanges_of (login bare_redirect_server "0544458876") new_client)
     = [validate_mobile; login_page].
Proof. split; vm_compute; reflexivity. Qed.

(** An error raised inside [getAvailableTimes] is handled there: the flow
    goes on to the booking. *)
Example lookup_failure_is_skipped :
  endpoints (exchanges_of (completeBooking flaky_server sample_config) new_client)
  = [validate_mobile; login_page; login_submit_call; type_select; time_select; ask]
  /\ fst (completeBooking flaky_server sample_config new_client)
     = Ok (booked "2025-11-16" "10:00").
Proof. split; vm_compute; reflexivity. Qed.

(** A booking call answered with 200. *)
Lemma bookAppointment_result_witness :
  let run := bookAppointment happy_server [37331] 6132 "2025-11-16" "10:00" None in
  let ex := nth 1 (exchanges_of run new_client) dummy_exchange in
  (In ex (exchanges_of run new_client) /\ endpoint ex = ask
   /\ snd ex = Resp ok_response /\ status ok_response = 200)
  /\ exists res,
      fst (run new_client) = Ok res /\ success res = true
      /\ result_date res = Some "2025-11-16" /\ result_time res = Some "10:00".
Proof.
  intros run ex.
  assert (Hin : In ex (exchanges_of run new_client)) by nth_exchange.
  assert (Hep : endpoint ex = ask) by (vm_compute; reflexivity).
  assert (Hr : snd ex = Resp ok_response) by (vm_compute; reflexivity).
  split; [repeat split; assumption|].
  pose proof (proj1 (proj2 (bookAppointment_result happy_server [37331] 6132
                              "2025-11-16" "10:00" None new_client)) ex Hin Hep) as H.
  rewrite Hr in H. exact (proj1 H eq_refl).
Defined.

(** C6, as stated, fails: a booking call answered with 500 and a message of
    the server is reported with that message, not with the generic one; and
    a booking call answered with 204, a success status, is reported as a
    failure. *)
Lemma booking_status_500_and_204 :
  ~ Stated.booking_by_status busy_server [37331] 6132 "2025-11-16" "10:00" None new_client
  /\ ~ Stated.booking_by_status no_content_server [37331] 6132 "2025-11-16" "10:00" None
        new_client.
Proof.
  split; intros H.
  - pose (run := bookAppointment busy_server [37331] 6132 "2025-11-16" "10:00" None).
    pose (ex := nth 1 (exchanges_of run new_client) dummy_exchange).
    pose (r := {| status := 500; set_cookie := None;
                  data := DObj (Some "Slot already taken") |}).
    assert (Hin : In ex (exchanges_of run new_client)) by nth_exchange.
    assert (Hep : endpoint ex = ask) by (vm_compute; reflexivity).
    assert (Hr : snd ex = Resp r) by (vm_compute; reflexivity).
    destruct (H ex r Hin Hep Hr) as [_ Hgeneric].
    specialize (Hgeneric eq_refl). vm_compute in Hgeneric. discriminate Hgeneric.
  - pose (run := bookAppointment no_content_server [37331] 6132 "2025-11-16" "10:00" None).
    pose (ex := nth 1 (exchanges_of run new_client) dummy_exchange).
    pose (r := {| status := 204; set_cookie := None; data := DNull |}).
    assert (Hin : In ex (exchanges_of run new_client)) by nth_exchange.
    assert (Hep : endpoint ex = ask) by (vm_compute; reflexivity).
    assert (Hr : snd ex = Resp r) by (vm_compute; reflexivity).
    destruct (H ex r Hin Hep Hr) as [Hsuccess _].
    destruct (Hsuccess eq_refl) as (res & Hres & Hs & _).
    vm_compute in Hres. injection Hres as <-. discriminate Hs.
Qed.

(** The second request of [getAvailableTimes] carries the first identifier. *)
Lemma ids_parameter_witness :
  let ex := nth 1 (exchanges_of (getAvailableTimes happy_server [37331; 3928] 6132 None)
                     new_client) dummy_exchange in
  In ex (exchanges_of (getAvailableTimes happy_server [37331; 3928] 6132 None) new_client)
  /\ ((endpoint ex = type_select /\ ids_of ex = None)
      \/ (endpoint ex <> type_select /\ ids_of ex = Some (VNum 37331))).
Proof.
  intros ex.
  assert (Hin : In ex (exchanges_of (getAvailableTimes happy_server [37331; 3928] 6132 None)
                         new_client)) by nth_exchange.
  split; [exact Hin|].
  exact (proj1 (ids_parameter happy_server 37331 3928 [] 6132 None
                  "2025-11-16" "10:00" None new_client) ex Hin).
Defined.

(** C9, as stated, fails: the first request of [getAvailableTimes], to the
    type-selection page, carries no [ids] parameter. *)
Lemma type_select_carries_no_ids :
  ~ Stated.first_id_on_every_request happy_server [37331; 3928] 6132 None new_client.
Proof.
  intros H.
  pose (ex := nth 0 (exchanges_of (getAvailableTimes happy_server [37331; 3928] 6132 None)
                       new_client) dummy_exchange).
  assert (Hin : In ex (exchanges_of (getAvailableTimes happy_server [37331; 3928] 6132 None)
                         new_client)) by nth_exchange.
  specialize (H ex Hin). vm_compute in H. discriminate H.
Qed.

(** A configuration without date and time: the flow stops after the lookup
    of the times. *)
Lemma completeBooking_without_slot_witness :
  (date login_only_config = None \/ time login_only_config = None)
  /\ fst (login happy_server (mobile login_only_config) new_client) = Ok true
  /\ (exists res,
         fst (completeBooking happy_server login_only_config new_client) = Ok res
         /\ success res = true /\ result_date res = None /\ result_time res = None)
  /\ ~ In ask (endpoints (exchanges_of (completeBooking happy_server login_only_config)
                            new_client)).
Proof.
  assert (H1 : date login_only_config = None \/ time login_only_config = None)
    by (left; reflexivity).
  assert (H2 : fst (login happy_server (mobile login_only_config) new_client) = Ok true)
    by (vm_compute; reflexivity).
  pose proof (completeBooking_without_slot happy_server login_only_config new_client H1 H2)
    as H.
  split; [exact H1|]. split; [exact H2|]. split; [exact (proj1 H)|exact (proj2 (proj2 H))].
Defined.

(* ------------------------------------------------------------------ *)
(** ** Further properties of the client *)

Lemma send_full (server : list Exchange -> Request -> Outcome) (m : Method)
      (u : string) (b : option string) (cfg : Config) (w w1 : Client)
      (res : Result Response) :
  send server m u b cfg w = (res, w1) ->
  res = settle (validate_of cfg)
          (server (history w) (build_request (sessionCookies w) m u b cfg))
  /\ history w1
     = (history w ++
        [(build_request (sessionCookies w) m u b cfg,
          server (history w) (build_request (sessionCookies w) m u b cfg))])%list
  /\ sessionCookies w1 = intercept_response res (sessionCookies w).
Proof. unfold send. intros [= <- <-]. repeat split. Qed.

Lemma body_build (cookies : list string) (m : Method) (u : string)
      (b : option string) (cfg : Config) :
  body (build_request cookies m u b cfg) = b.
Proof.
  unfold build_request, add_cookies.
  destruct (Nat.ltb 0 (length cookies)); reflexivity.
Qed.

Lemma answered_200_iff (ex : Exchange) :
  answered_with [200] ex = true <-> exists r, snd ex = Resp r /\ status r = 200.
Proof.
  unfold answered_with. destruct (snd ex) as [r|msg]; simpl.
  - rewrite orb_false_r, Z.eqb_eq. split.
    + intros H. now exists r.
    + intros (r' & [= <-] & H). exact H.
  - split; [discriminate|intros (r & [=] & _)].
Qed.

Section MoreOfTheClient.

Variable server : list Exchange -> Request -> Outcome.

(** X1. [validateMobile] makes exactly one request, POST /Validate/Mobile
    with the number as the parameter [Mobile] and no body; it never throws,
    and it returns true exactly when that request is answered with status
    200 (any other status, 201 included, and any failure give false). *)
Theorem validateMobile_single_call (mobile : string) (w : Client) :
  exists ex,
    exchanges_of (validateMobile server mobile) w = [ex]
    /\ endpoint ex = validate_mobile
    /\ params (fst ex) = [("Mobile", VStr mobile)]
    /\ body (fst ex) = None
    /\ (exists b, fst (validateMobile server mobile w) = Ok b)
    /\ (fst (validateMobile server mobile w) = Ok true
        <-> exists r, snd ex = Resp r /\ status r = 200).
Proof.
  destruct (validateMobile_run server mobile w) as (w1 & e1 & Hv & Hh & Hep).
  exists e1. rewrite (run_exchanges _ _ _ _ _ Hv Hh), Hv. cbn [fst].
  split; [reflexivity|]. split; [exact Hep|].
  assert (Hreq : params (fst e1) = [("Mobile", VStr mobile)] /\ body (fst e1) = None).
  { revert Hv Hh. unfold validateMobile, try_catch, bind, post.
    destruct (send _ _ _ _ _ _) as [res w2] eqn:Es.
    apply send_full in Es. destruct Es as (_ & Hh2 & _).
    intros Hv Hh.
    assert (w2 = w1) by (destruct res; unfold ret in Hv; congruence). subst w2.
    rewrite Hh2 in Hh. apply app_inv_head in Hh. injection Hh as <-.
    cbn [fst]. split; [apply params_build|apply body_build]. }
  split; [exact (proj1 Hreq)|]. split; [exact (proj2 Hreq)|].
  split; [eexists; reflexivity|].
  rewrite <- answered_200_iff. split; [now intros [= ->]|now intros ->].
Qed.

(** X2. The calls of [login] are a non-empty initial part of the sequence
    validation, login page, login submission: the login page is requested
    only after the validation was answered with 200, and the login is
    submitted only after a login page with a token was received.  [login]
    never throws. *)
Theorem login_call_sequence (mobile : string) (w : Client) :
  let tr := exchanges_of (login server mobile) w in
  endpoints tr = firstn (length tr) Wire.login_sequence
  /\ tr <> []
  /\ (exists b, fst (login server mobile w) = Ok b)
  /\ (In login_page (endpoints tr) ->
      exists e1 r1, nth_error tr 0 = Some e1 /\ snd e1 = Resp r1 /\ status r1 = 200)
  /\ (In login_submit_call (endpoints tr) ->
      exists e2 r2 token,
        nth_error tr 1 = Some e2 /\ endpoint e2 = login_page /\ snd e2 = Resp r2
        /\ default_validate (status r2) = true
        /\ token_of (data r2) = Some token).
Proof.
  destruct (login_run server mobile w) as (b & w' & tr & Hl & Hh & Hrun).
  cbv zeta. rewrite (run_exchanges _ _ _ _ _ Hl Hh), Hl. cbn [fst].
  split; [|split; [|split; [now exists b|]]].
  - destruct Hrun; unfold endpoints; simpl;
      repeat match goal with H : endpoint _ = _ |- _ => rewrite H; clear H end;
      reflexivity.
  - destruct Hrun; discriminate.
  - split.
    + intros Hin.
      destruct Hrun; unfold endpoints in Hin; simpl in Hin;
        repeat match goal with H : endpoint _ = _ |- _ => rewrite H in Hin end;
        repeat (destruct Hin as [Hin|Hin]; [try discriminate Hin|]);
        try contradiction;
        match goal with
        | H : answered_with [200] ?e = true |- _ =>
            apply answered_200_iff in H; destruct H as (r1 & Hr1 & Hs1);
            exists e, r1; repeat split; assumption
        end.
    + intros Hin.
      destruct Hrun; unfold endpoints in Hin; simpl in Hin;
        repeat match goal with H : endpoint _ = _ |- _ => rewrite H in Hin end;
        repeat (destruct Hin as [Hin|Hin]; [try discriminate Hin|]);
        try contradiction.
      exists e2, r2, token. repeat split; assumption.
Qed.

(** X3. [login] returns true in exactly two cases: the login submission is
    answered with status 200 or 302, or the request for the login page is
    answered with status 302 (a response that the client throws, and that the
    handler of [login] takes for the redirect of a successful login). *)
Theorem login_true_iff (mobile : string) (w : Client) :
  fst (login server mobile w) = Ok true
  <-> exists ex r,
        In ex (exchanges_of (login server mobile) w)
        /\ snd ex = Resp r
        /\ ((endpoint ex = login_submit_call /\ (status r = 200 \/ status r = 302))
            \/ (endpoint ex = login_page /\ status r = 302)).
Proof.
  split; [apply login_true_cases|].
  destruct (login_run server mobile w) as (b & w' & tr & Hl & Hh & Hrun).
  rewrite (run_exchanges _ _ _ _ _ Hl Hh), Hl. cbn [fst].
  intros (ex & r & Hin & Hr & Hcase).
  destruct Hrun; pick_exchange Hin;
    destruct Hcase as [[Hep Hs]|[Hep Hs]]; try clash;
    try (unfold answered_with; rewrite Hr; simpl;
         destruct Hs as [Hs|Hs]; rewrite Hs; reflexivity);
    try (unfold answered_with; rewrite Hr; simpl; rewrite Hs; reflexivity);
    try (match goal with H : default_validate (status _) = true |- _ =>
           rewrite Hs in H; discriminate H end).
Qed.

Ltac run_send Hres Hh Hc :=
  let res := fresh "res" in
  let w' := fresh "w" in
  let Es := fresh "Es" in
  destruct (send _ _ _ _ _ _) as [res w'] eqn:Es;
  apply send_full in Es; destruct Es as (Hres & Hh & Hc);
  cbn [validate_of cfg_validateStatus] in Hres;
  match type of Hh with
  | _ = (_ ++ [?x])%list => let n := fresh "x" in set (n := x) in Hh
  end;
  destruct res; cbv beta iota.

Ltac read_trace H :=
  unfold ret, throw; cbn [negb fst snd];
  repeat match goal with Hh : history _ = _ |- _ => rewrite Hh; clear Hh end;
  rewrite <- ?app_assoc; rewrite skipn_app, skipn_all, Nat.sub_diag;
  cbn [skipn app]; intros H; try discriminate H.

(** The requests of a run of [login] that reaches the login submission. *)
Lemma login_requests (mobile : string) (w : Client) (e1 e2 e3 : Exchange) :
  exchanges_of (login server mobile) w = [e1; e2; e3] ->
  exists r1 r2 token,
    snd e1 = Resp r1 /\ snd e2 = Resp r2
    /\ token_of (data r2) = Some token
    /\ fst e3
       = build_request
           (capture (set_cookie r2) (capture (set_cookie r1) (sessionCookies w)))
           POST "/Account/LoginMobileClient" (Some (Wire.submit_body mobile token))
           {| cfg_params := [];
              cfg_headers := [ ("Content-Type", "application/x-www-form-urlencoded");
                               ("Referer", baseUrl ++ "/Account/LoginClients") ];
              cfg_maxRedirects := Some 0;
              cfg_validateStatus := Some lenient_validate |}.
Proof.
  unfold exchanges_of, login, try_catch at 1, bind at 1.
  unfold validateMobile, try_catch, bind at 1, post.
  run_send Hres1 Hh1 Hc1.
  2:{ read_trace H. }
  unfold ret at 1. destruct (status a =? 200); cbn [negb].
  2:{ read_trace H. }
  unfold bind at 1, get. run_send Hres2 Hh2 Hc2.
  2:{ destruct (_ || _); read_trace H. }
  unfold bind at 1, data_match.
  remember (data a0) as d eqn:Hd. symmetry in Hd.
  destruct d as [html| |];
    try solve [unfold throw; cbn [response_status_is response orb]; read_trace H].
  unfold ret at 1. destruct (Token.token_match html) as [token|] eqn:Ht.
  2:{ read_trace H. }
  unfold bind, login_submit, post. run_send Hres3 Hh3 Hc3.
  - read_trace H. injection H as <- <- <-. subst x x0 x1. cbn [fst snd].
    symmetry in Hres1, Hres2. apply settle_ok in Hres1, Hres2.
    destruct Hres1 as [Ho1 _]. destruct Hres2 as [Ho2 _].
    exists a, a0, token.
    split; [exact Ho1|]. split; [exact Ho2|].
    split; [rewrite Hd; exact Ht|].
    rewrite Hc2, Hc1. reflexivity.
  - destruct (_ || _); read_trace H; injection H as <- <- <-; subst x x0 x1;
      cbn [fst snd];
      symmetry in Hres1, Hres2; apply settle_ok in Hres1, Hres2;
      destruct Hres1 as [Ho1 _]; destruct Hres2 as [Ho2 _];
      exists a, a0, token;
      (split; [exact Ho1|]); (split; [exact Ho2|]);
      (split; [rewrite Hd; exact Ht|]);
      rewrite Hc2, Hc1; reflexivity.
Qed.

Lemma headers_build (cookies : list string) (m : Method) (u : string)
      (b : option string) (cfg : Config) :
  headers (build_request cookies m u b cfg)
  = (default_headers ++ cfg_headers cfg ++ Wire.cookie_header cookies)%list.
Proof.
  unfold build_request, add_cookies, Wire.cookie_header.
  destruct cookies as [|c cs]; cbn [length Nat.ltb Nat.leb headers].
  - now rewrite app_nil_r.
  - now rewrite app_assoc.
Qed.

Lemma maxRedirects_build (cookies : list string) (m : Method) (u : string)
      (b : option string) (cfg : Config) :
  maxRedirects (build_request cookies m u b cfg) = cfg_maxRedirects cfg.
Proof.
  unfold build_request, add_cookies.
  destruct (Nat.ltb 0 (length cookies)); reflexivity.
Qed.

(** X4. When [login] reaches the login submission, the submission carries
    the token found in the login page just received (with the mobile
    number, both encoded), it does not follow redirects, and its [Cookie]
    header is the store as the answers to the validation and to the login
    page left it. *)
Theorem login_submission_request (mobile : string) (w : Client)
        (e1 e2 e3 : Exchange) :
  exchanges_of (login server mobile) w = [e1; e2; e3] ->
  exists r1 r2 token,
    snd e1 = Resp r1 /\ snd e2 = Resp r2
    /\ token_of (data r2) = Some token
    /\ body (fst e3) = Some (Wire.submit_body mobile token)
    /\ maxRedirects (fst e3) = Some 0
    /\ headers (fst e3)
       = (default_headers
          ++ [ ("Content-Type", "application/x-www-form-urlencoded");
               ("Referer", "https://mentor.tormahir.co.il/Account/LoginClients") ]
          ++ Wire.cookie_header
               (capture (set_cookie r2)
                  (capture (set_cookie r1) (sessionCookies w))))%list.
Proof.
  intros H. destruct (login_requests mobile w e1 e2 e3 H)
    as (r1 & r2 & token & H1 & H2 & Ht & Hreq).
  exists r1, r2, token. rewrite Hreq.
  rewrite body_build, maxRedirects_build, headers_build.
  repeat split; assumption.
Qed.

(** X6. Whatever cookies the client holds, every request that it sends has
    the headers of the instance, then the headers of the call, then one
    [Cookie] header with the whole store joined by [; ] (none when the
    store is empty); so the cookies that a returned response sets are the
    cookies of the very next request. *)
Theorem cookies_replayed (m : Method) (u : string) (b : option string)
        (cfg : Config) (w : Client) :
  (exists ex,
      exchanges_of (send server m u b cfg) w = [ex]
      /\ headers (fst ex)
         = (default_headers ++ cfg_headers cfg
            ++ Wire.cookie_header (sessionCookies w))%list)
  /\ (forall r setCookieHeaders m' u' b' cfg',
        fst (send server m u b cfg w) = Ok r ->
        set_cookie r = Some setCookieHeaders ->
        exists ex',
          exchanges_of (send server m' u' b' cfg') (snd (send server m u b cfg w))
          = [ex']
          /\ headers (fst ex')
             = (default_headers ++ cfg_headers cfg'
                ++ Wire.cookie_header (map render (collect setCookieHeaders)))%list).
Proof.
  assert (Hone : forall m u b cfg w,
             exists ex,
               exchanges_of (send server m u b cfg) w = [ex]
               /\ headers (fst ex)
                  = (default_headers ++ cfg_headers cfg
                     ++ Wire.cookie_header (sessionCookies w))%list).
  { intros m0 u0 b0 cfg0 w0.
    destruct (send server m0 u0 b0 cfg0 w0) as [res w1] eqn:Es.
    pose proof Es as Hf. apply send_full in Hf. destruct Hf as (_ & Hh & _).
    eexists. split; [exact (run_exchanges _ _ _ _ _ Es Hh)|].
    cbn [fst]. apply headers_build. }
  split; [apply Hone|].
  intros r hs m' u' b' cfg' Hr Hs.
  destruct (Hone m' u' b' cfg' (snd (send server m u b cfg w))) as (ex' & He & Hhd).
  exists ex'. split; [exact He|].
  rewrite Hhd, (send_store _ _ _ _ _ _ _ Hr), Hs. reflexivity.
Qed.

(** A response that the client throws (its status is refused by
    [validateStatus]) does not touch the store, even when it carries
    [Set-Cookie] lines: the interceptor sees returned responses only. *)
Lemma thrown_response_keeps_store (m : Method) (u : string) (b : option string)
        (cfg : Config) (w : Client) (r : Response) :
  server (history w) (build_request (sessionCookies w) m u b cfg) = Resp r ->
  validate_of cfg (status r) = false ->
  (exists e, fst (send server m u b cfg w) = Throw e /\ response e = Some r)
  /\ sessionCookies (snd (send server m u b cfg w)) = sessionCookies w.
Proof.
  intros Hr Hv. unfold send. cbn [fst snd sessionCookies].
  rewrite Hr. cbn [settle]. rewrite Hv. split; [|reflexivity].
  eexists. split; reflexivity.
Qed.

Lemma fold_no_cookie (hs : list string) (acc : CookieMap) :
  (forall h, In h hs -> parse_cookie h = None) ->
  fold_left cookie_step hs acc = acc.
Proof.
  induction hs as [|h r IH]; intros Hnone; simpl; [reflexivity|].
  unfold cookie_step at 2. rewrite (Hnone h (or_introl eq_refl)).
  apply IH. intros h' Hin. apply Hnone. now right.
Qed.

(** X7. A returned response whose [Set-Cookie] lines set no cookie (none
    has a non-empty name followed by an equals sign; an empty array is
    such a case) empties the store, and the next request carries no
    [Cookie] header. *)
Theorem useless_cookie_lines_empty_store (m : Method) (u : string)
        (b : option string) (cfg : Config) (w : Client) (r : Response)
        (setCookieHeaders : list string) :
  fst (send server m u b cfg w) = Ok r ->
  set_cookie r = Some setCookieHeaders ->
  (forall h, In h setCookieHeaders -> parse_cookie h = None) ->
  sessionCookies (snd (send server m u b cfg w)) = []
  /\ forall m' u' b' cfg',
      headers (build_request (sessionCookies (snd (send server m u b cfg w)))
                 m' u' b' cfg')
      = (default_headers ++ cfg_headers cfg')%list.
Proof.
  intros Hr Hs Hnone.
  assert (Hc : sessionCookies (snd (send server m u b cfg w)) = []).
  { rewrite (send_store _ _ _ _ _ _ _ Hr), Hs. unfold capture, collect.
    now rewrite (fold_no_cookie _ _ Hnone). }
  split; [exact Hc|].
  intros m' u' b' cfg'. rewrite Hc, headers_build. cbn [Wire.cookie_header].
  now rewrite app_nil_r.
Qed.

Lemma contains_app (c : ascii) (a b : string) :
  contains c (a ++ b) = contains c a || contains c b.
Proof.
  induction a as [|d r IH]; simpl; [reflexivity|].
  now rewrite IH, orb_assoc.
Qed.

Lemma split_without (sep : ascii) (s : string) :
  contains sep s = false -> JS.split sep s = [s].
Proof.
  induction s as [|c r IH]; simpl; intros H; [reflexivity|].
  apply orb_false_iff in H. destruct H as [Hc Hr].
  rewrite Hc, (IH Hr). reflexivity.
Qed.

Lemma split_at (sep : ascii) (a b : string) :
  contains sep a = false ->
  JS.split sep (a ++ String sep b) = a :: JS.split sep b.
Proof.
  induction a as [|c r IH]; simpl; intros H.
  - now rewrite Ascii.eqb_refl.
  - apply orb_false_iff in H. destruct H as [Hc Hr].
    rewrite Hc, (IH Hr). reflexivity.
Qed.

(** Every code unit is written with unreserved characters, the percent
    sign and hexadecimal digits: neither an ampersand nor an equals sign. *)
Lemma encode_char_safe (c : ascii) :
  contains "&" (Wire.encode_char c) = false
  /\ contains "=" (Wire.encode_char c) = false.
Proof.
  destruct c as [[] [] [] [] [] [] [] []]; split; vm_compute; reflexivity.
Qed.

Lemma encode_safe (s : string) :
  contains "&" (JS.encodeURIComponent s) = false
  /\ contains "=" (JS.encodeURIComponent s) = false.
Proof.
  induction s as [|c r [IH1 IH2]]; [split; reflexivity|].
  change (JS.encodeURIComponent (String c r))
    with (Wire.encode_char c ++ JS.encodeURIComponent r).
  rewrite !contains_app, IH1, IH2.
  destruct (encode_char_safe c) as [H1 H2]. now rewrite H1, H2.
Qed.

(** X5. Whatever characters the mobile number and the token contain, the
    form body of the login submission has exactly two fields, and each
    field has exactly one equals sign: the encoded values hold no
    ampersand and no equals sign. *)
Theorem submit_body_fields (mobile token : string) :
  JS.split "&" (Wire.submit_body mobile token)
  = [ "Mobile=" ++ JS.encodeURIComponent mobile;
      "__RequestVerificationToken=" ++ JS.encodeURIComponent token ]
  /\ JS.split "=" ("Mobile=" ++ JS.encodeURIComponent mobile)
     = [ "Mobile"; JS.encodeURIComponent mobile ]
  /\ JS.split "=" ("__RequestVerificationToken=" ++ JS.encodeURIComponent token)
     = [ "__RequestVerificationToken"; JS.encodeURIComponent token ].
Proof.
  destruct (encode_safe mobile) as [Hm1 Hm2].
  destruct (encode_safe token) as [Ht1 Ht2].
  split; [|split].
  - unfold Wire.submit_body.
    change ("Mobile=" ++ JS.encodeURIComponent mobile
            ++ "&__RequestVerificationToken=" ++ JS.encodeURIComponent token)
      with (("Mobile=" ++ JS.encodeURIComponent mobile)
            ++ String "&" ("__RequestVerificationToken="
                             ++ JS.encodeURIComponent token)).
    rewrite split_at.
    + rewrite split_without; [reflexivity|].
      rewrite contains_app, Ht1. reflexivity.
    + rewrite contains_app, Hm1. reflexivity.
  - change ("Mobile=" ++ JS.encodeURIComponent mobile)
      with ("Mobile" ++ String "=" (JS.encodeURIComponent mobile)).
    rewrite split_at by reflexivity. now rewrite split_without.
  - change ("__RequestVerificationToken=" ++ JS.encodeURIComponent token)
      with ("__RequestVerificationToken"
              ++ String "=" (JS.encodeURIComponent token)).
    rewrite split_at by reflexivity. now rewrite split_without.
Qed.

Lemma thrown_not_302 (out : Outcome) (e : JsError) :
  Throw e = settle lenient_validate out -> response_status_is e 302 = false.
Proof.
  destruct out as [r|msg]; simpl.
  - destruct (lenient_validate (status r)) eqn:Hv; [discriminate|].
    intros [= ->]. unfold response_status_is. simpl.
    unfold lenient_validate in Hv. lia.
  - intros [= ->]. reflexivity.
Qed.

Lemma thrown_not_accepted (validate : Z -> bool) (out : Outcome) (e : JsError) :
  Throw e = settle validate out ->
  match out with Resp r => validate (status r) | NetErr _ => false end = false.
Proof.
  destruct out as [r|msg]; simpl; [|reflexivity].
  now destruct (validate (status r)).
Qed.

Lemma returned_accepted (validate : Z -> bool) (out : Outcome) (r : Response) :
  Ok r = settle validate out -> out = Resp r /\ validate (status r) = true.
Proof. intros H. symmetry in H. now apply settle_ok in H. Qed.

Ltac show_trace :=
  unfold exchanges_of, ret, throw; cbn [negb fst snd];
  repeat match goal with Hh : history _ = _ |- _ => rewrite Hh; clear Hh end;
  rewrite <- ?app_assoc; rewrite skipn_app, skipn_all, Nat.sub_diag;
  cbn [skipn app].

(** The result of [getAvailableTimes] in terms of its exchanges. *)
Lemma getAvailableTimes_outcome (appointmentTypeIds : list Z) (schedulerId : Z)
      (branchId : option Z) (w : Client) :
  fst (getAvailableTimes server appointmentTypeIds schedulerId branchId w)
  = Ok (Wire.times_payload
          (exchanges_of
             (getAvailableTimes server appointmentTypeIds schedulerId branchId) w)).
Proof.
  unfold exchanges_of, getAvailableTimes, try_catch.
  unfold bind, visit_type_select, visit_scheduler_select, visit_time_select,
    fetch_times, get, post.
  run_send Hres1 Hh1 Hc1.
  2:{ rewrite (thrown_not_302 _ _ Hres1). show_trace. reflexivity. }
  run_send Hres2 Hh2 Hc2.
  2:{ rewrite (thrown_not_302 _ _ Hres2). show_trace. reflexivity. }
  run_send Hres3 Hh3 Hc3.
  2:{ rewrite (thrown_not_302 _ _ Hres3). show_trace. reflexivity. }
  run_send Hres4 Hh4 Hc4.
  - show_trace. subst x2. cbn [Wire.times_payload snd].
    apply returned_accepted in Hres4. destruct Hres4 as [-> ->]. reflexivity.
  - rewrite (thrown_not_302 _ _ Hres4). show_trace. subst x2.
    cbn [Wire.times_payload snd].
    apply thrown_not_accepted in Hres4.
    match type of Hres4 with
    | match ?o with _ => _ end = false => destruct o as [r|msg]
    end; [|reflexivity].
    now rewrite Hres4.
Qed.

(** X8. [getAvailableTimes] never throws.  It returns the payload of the
    time fetch exactly when all four calls were accepted (a status from 200
    to 399; a time fetch answered with 302 is accepted and its payload
    returned), and [null] as soon as one call is thrown: since every call
    accepts 302, the handler never meets a thrown 302. *)
Theorem getAvailableTimes_payload (appointmentTypeIds : list Z) (schedulerId : Z)
        (branchId : option Z) (w : Client) :
  let run := getAvailableTimes server appointmentTypeIds schedulerId branchId in
  (exists d, fst (run w) = Ok d)
  /\ (forall ex,
        In ex (exchanges_of run w) ->
        ~ accepted lenient_validate ex ->
        fst (run w) = Ok DNull)
  /\ (forall e1 e2 e3 e4 r,
        exchanges_of run w = [e1; e2; e3; e4] ->
        snd e4 = Resp r ->
        lenient_validate (status r) = true ->
        fst (run w) = Ok (data r)).
Proof.
  cbv zeta.
  pose proof (getAvailableTimes_outcome appointmentTypeIds schedulerId branchId w)
    as Hout.
  destruct (getAvailableTimes_run server appointmentTypeIds schedulerId branchId w)
    as (d & w' & tr & Hg & Hh & Hrun).
  rewrite (run_exchanges _ _ _ _ _ Hg Hh) in *.
  split; [eexists; exact Hout|]. split.
  - intros ex Hin Hna. rewrite Hout.
    destruct Hrun; try reflexivity.
    pick_exchange Hin; try contradiction.
    unfold Wire.times_payload.
    destruct (snd ex) as [r|msg] eqn:Hr; [|reflexivity].
    destruct (lenient_validate (status r)) eqn:Hv; [|reflexivity].
    exfalso. apply Hna. now exists r.
  - intros e1 e2 e3 e4 r -> Hr Hv. rewrite Hout.
    unfold Wire.times_payload. now rewrite Hr, Hv.
Qed.

(** X9. [getNextWeekTimes] makes exactly one request, POST
    /Clients/TimeSelectScheduler2 with the comma-joined identifiers and the
    branch (0 when none is given), and never throws: it returns the payload
    when the status is from 200 to 299 and [null] otherwise (a redirect
    included, unlike [getAvailableTimes]). *)
Theorem getNextWeekTimes_single_call (appointmentTypeIds : list Z)
        (schedulerId : Z) (branchId : option Z) (w : Client) :
  let run := getNextWeekTimes server appointmentTypeIds schedulerId branchId in
  exists ex,
    exchanges_of run w = [ex]
    /\ endpoint ex = next_week_fetch
    /\ params (fst ex)
       = [ ("ids", VStr (join_ids appointmentTypeIds)); ("id", VNum 0);
           ("Customers", VStr ""); ("SchedulerID", VNum schedulerId);
           ("BranchID", VNum (match branchId with Some n => n | None => 0 end)) ]
    /\ fst (run w)
       = Ok (match snd ex with
             | Resp r => if default_validate (status r) then data r else DNull
             | NetErr _ => DNull
             end).
Proof.
  cbv zeta. unfold exchanges_of, getNextWeekTimes, try_catch, bind, post.
  run_send Hres Hh Hc; eexists; (split; [show_trace; reflexivity|]);
    subst x; cbn [fst snd]; (split; [apply endpoint_build|]);
    (split; [apply params_build|]).
  - apply returned_accepted in Hres. destruct Hres as [-> Hv].
    cbn [validate_of cfg_validateStatus] in Hv. now rewrite Hv.
  - apply thrown_not_accepted in Hres.
    match type of Hres with
    | match ?o with _ => _ end = false => destruct o as [r|msg]
    end; [|reflexivity].
    cbn [validate_of cfg_validateStatus] in Hres. now rewrite Hres.
Qed.

(** X10. [getServiceProviders] makes exactly one request, GET
    /Clients/SchedulerSelect with the comma-joined identifiers, and returns
    the empty array whatever the answer is: a page, an error status or no
    answer at all. *)
Theorem getServiceProviders_always_empty (serviceTypeIds : list Z) (w : Client) :
  exists ex,
    exchanges_of (getServiceProviders server serviceTypeIds) w = [ex]
    /\ endpoint ex = scheduler_select
    /\ ids_of ex = Some (VStr (join_ids serviceTypeIds))
    /\ fst (getServiceProviders server serviceTypeIds w) = Ok [].
Proof.
  unfold exchanges_of, getServiceProviders, try_catch, bind, get.
  run_send Hres Hh Hc; eexists; (split; [show_trace; reflexivity|]);
    subst x; cbn [fst snd]; (split; [apply endpoint_build|]);
    (split; [|reflexivity]);
    unfold ids_of; cbn [fst]; rewrite params_build; reflexivity.
Qed.

Lemma booking_result_success (date time : string) (ex : Exchange) :
  success (booking_result date time ex) = true
  <-> exists r, snd ex = Resp r /\ status r = 200.
Proof.
  unfold booking_result. destruct (snd ex) as [r|msg].
  - destruct (default_validate (status r)) eqn:Hv.
    + destruct (status r =? 200) eqn:Hs; simpl.
      * apply Z.eqb_eq in Hs. split; [now exists r|reflexivity].
      * apply Z.eqb_neq in Hs. split; [discriminate|].
        intros (r' & [= <-] & H). contradiction.
    + simpl. split; [discriminate|].
      intros (r' & [= <-] & H). rewrite H in Hv. discriminate Hv.
  - simpl. split; [discriminate|intros (r & [=] & _)].
Qed.

(** When [completeBooking] reports success. *)
Lemma completeBooking_success_cases (config : BookingConfig) (w : Client) :
  exists res,
    fst (completeBooking server config w) = Ok res
    /\ (success res = true
        <-> fst (login server (mobile config) w) = Ok true
            /\ (wants_booking (date config) (time config) = false
                \/ exists ex r,
                     In ex (exchanges_of (completeBooking server config) w)
                     /\ endpoint ex = ask /\ snd ex = Resp r /\ status r = 200)).
Proof.
  destruct (completeBooking_run server config w)
    as (b & w1 & tr1 & Hl & Hh1 & Hrun1 & Hcases).
  rewrite Hl. cbn [fst].
  destruct Hcases as [[-> Hc]|(-> & d & w2 & tr2 & Hg & Hh2 & Hrun2 & Hbook)].
  { rewrite Hc. eexists. split; [reflexivity|]. simpl.
    split; [discriminate|intros [[=] _]]. }
  destruct Hbook as [[Hw Hc]|(dd & tt & res & w3 & tr3 & Hd & Ht & Hw & Hb & Hh3 & Hrun3 & Hc)].
  { rewrite Hc. eexists. split; [reflexivity|]. simpl.
    split; [intros _; split; [reflexivity|now left]|reflexivity]. }
  assert (Hh : history w3 = (history w ++ (tr1 ++ tr2 ++ tr3))%list)
    by (rewrite Hh3, Hh2, Hh1, <- !app_assoc; reflexivity).
  rewrite (run_exchanges _ _ _ _ _ Hc Hh), Hc. cbn [fst].
  exists res. split; [reflexivity|]. rewrite Hw.
  assert (Hask : (exists ex r, In ex (tr1 ++ tr2 ++ tr3) /\ endpoint ex = ask
                               /\ snd ex = Resp r /\ status r = 200)
                 <-> success res = true).
  { destruct Hrun3 as [e1 Hep1 Hids1 Hna|e1 e2 Hep1 Hids1 Hacc Hep2 Hids2].
    - simpl. split; [|discriminate].
      intros (ex & r & Hin & Hep & _). exfalso.
      apply in_app_or in Hin. destruct Hin as [Hin|Hin].
      + destruct (login_run_endpoints _ _ Hrun1 ex Hin) as [H|[H|H]];
          rewrite H in Hep; discriminate Hep.
      + apply in_app_or in Hin. destruct Hin as [Hin|Hin].
        * apply ask_not_wizard. rewrite <- Hep. eapply times_run_in; eauto.
        * pick_exchange Hin. clash.
    - rewrite booking_result_success. split.
      + intros (ex & r & Hin & Hep & Hr & Hs).
        apply in_app_or in Hin. destruct Hin as [Hin|Hin].
        { destruct (login_run_endpoints _ _ Hrun1 ex Hin) as [H|[H|H]];
            rewrite H in Hep; discriminate Hep. }
        apply in_app_or in Hin. destruct Hin as [Hin|Hin].
        { exfalso. apply ask_not_wizard. rewrite <- Hep.
          eapply times_run_in; eauto. }
        pick_exchange Hin; [clash|]. now exists r.
      + intros (r & Hr & Hs). exists e2, r.
        split; [|repeat split; assumption].
        apply in_or_app. right. apply in_or_app. right. simpl. tauto. }
  split.
  - intros Hs. split; [reflexivity|]. right. now apply Hask.
  - intros [_ [Habs|Hex]]; [discriminate Habs|]. now apply Hask.
Qed.

(** X11. [completeBooking] reports success in exactly two cases: a date
    and a time are given (both non-empty), [login] returned true and the
    booking call was answered with status 200; or no date or no time is
    given and [login] returned true.  In particular a booking is never
    reported without a booking call answered with 200. *)
Theorem completeBooking_success_iff (config : BookingConfig) (w : Client) :
  exists res,
    fst (completeBooking server config w) = Ok res
    /\ (success res = true
        <-> fst (login server (mobile config) w) = Ok true
            /\ (wants_booking (date config) (time config) = false
                \/ exists ex r,
                     In ex (exchanges_of (completeBooking server config) w)
                     /\ endpoint ex = ask /\ snd ex = Resp r /\ status r = 200)).
Proof. apply completeBooking_success_cases. Qed.

(** X12. When [login] returns false, [completeBooking] stops there: it
    makes no request of its own after those of [login] and leaves the client
    in the state in which [login] left it. *)
Theorem completeBooking_stops_after_login (config : BookingConfig) (w : Client) :
  fst (login server (mobile config) w) = Ok false ->
  completeBooking server config w
  = (Ok (failed "Login failed"), snd (login server (mobile config) w))
  /\ exchanges_of (completeBooking server config) w
     = exchanges_of (login server (mobile config)) w.
Proof.
  destruct (completeBooking_run server config w)
    as (b & w1 & tr1 & Hl & Hh1 & Hrun1 & Hcases).
  rewrite Hl. cbn [fst snd]. intros [= ->].
  destruct Hcases as [[_ Hc]|[Hb _]]; [|discriminate Hb].
  split; [exact Hc|].
  now rewrite (run_exchanges _ _ _ _ _ Hc Hh1), (run_exchanges _ _ _ _ _ Hl Hh1).
Qed.

(** X13. An empty string for the date or for the time counts as no date
    or no time: with [login] true the flow ends after the lookup of the
    times, with the success result that carries neither, and makes no
    booking call; the exchanges are those of [login] followed by those of
    [getAvailableTimes]. *)
Theorem completeBooking_empty_slot (config : BookingConfig) (w : Client) :
  truthy_str (date config) = false \/ truthy_str (time config) = false ->
  fst (login server (mobile config) w) = Ok true ->
  fst (completeBooking server config w) = Ok logged_in_only
  /\ exchanges_of (completeBooking server config) w
     = (exchanges_of (login server (mobile config)) w
        ++ exchanges_of (getAvailableTimes server (appointmentTypeIds_of config)
                           (schedulerId_of config) None)
             (snd (login server (mobile config) w)))%list
  /\ ~ In ask (endpoints (exchanges_of (completeBooking server config) w)).
Proof.
  intros Hfalsy Hlogin.
  assert (Hw : wants_booking (date config) (time config) = false).
  { unfold wants_booking. destruct Hfalsy as [-> | ->];
      [reflexivity|apply andb_false_r]. }
  destruct (completeBooking_run server config w)
    as (b & w1 & tr1 & Hl & Hh1 & Hrun1 & Hcases).
  rewrite Hl in Hlogin |- *. cbn [fst snd] in Hlogin |- *. injection Hlogin as ->.
  destruct Hcases as [[Hb _]|(_ & d & w2 & tr2 & Hg & Hh2 & Hrun2 & Hbook)];
    [discriminate Hb|].
  destruct Hbook as [[_ Hc]|(dd & tt & res & w3 & tr3 & _ & _ & Hw' & _)];
    [|congruence].
  assert (Hh : history w2 = (history w ++ (tr1 ++ tr2))%list)
    by (rewrite Hh2, Hh1, <- !app_assoc; reflexivity).
  rewrite (run_exchanges _ _ _ _ _ Hc Hh), Hc,
    (run_exchanges _ _ _ _ _ Hl Hh1), (run_exchanges _ _ _ _ _ Hg Hh2).
  split; [reflexivity|]. split; [reflexivity|].
  unfold endpoints. intros Hin. apply in_map_iff in Hin.
  destruct Hin as (ex & Hep & Hin). apply in_app_or in Hin. destruct Hin as [Hin|Hin].
  - destruct (login_run_endpoints _ _ Hrun1 ex Hin) as [H|[H|H]];
      rewrite H in Hep; discriminate Hep.
  - apply ask_not_wizard. rewrite <- Hep. eapply times_run_in; eauto.
Qed.

(** X14. The script exits with code 0 or 1 and never with an uncaught
    error.  It exits with 0 exactly when [login] returned true and either
    the environment gives no date or no time (unset or empty), or the
    booking call was answered with status 200; the flow is run on a new
    client, with the number 0544458876 when [MOBILE] is unset or empty. *)
Theorem script_exit_code (env : Script.Env) :
  let config := Script.config_of env in
  (exists code,
      fst (Script.run server env) = Ok code
      /\ (code = 0 \/ code = 1)
      /\ (code = 0
          <-> fst (login server (mobile config) new_client) = Ok true
              /\ (wants_booking (Script.DATE env) (Script.TIME env) = false
                  \/ exists ex r,
                       In ex (history (snd (Script.run server env)))
                       /\ endpoint ex = ask /\ snd ex = Resp r /\ status r = 200)))
  /\ (truthy_str (Script.MOBILE env) = false -> mobile config = "0544458876")
  /\ (forall m, Script.MOBILE env = Some m -> JS.truthy m = true -> mobile config = m).
Proof.
  cbv zeta. split; [|split].
  - destruct (completeBooking_success_cases (Script.config_of env) new_client)
      as (res & Hres & Hiff).
    assert (Hrun : Script.run server env
                   = (Ok (if success res then 0 else 1),
                      snd (completeBooking server (Script.config_of env) new_client))).
    { unfold Script.run, Script.main, try_catch, bind.
      destruct (completeBooking server (Script.config_of env) new_client) as [r0 w0].
      cbn [fst snd] in *. subst r0. now destruct (success res). }
    rewrite Hrun. cbn [fst snd].
    exists (if success res then 0 else 1). split; [reflexivity|].
    split; [destruct (success res); [now left|now right]|].
    change (history (snd (completeBooking server (Script.config_of env) new_client)))
      with (exchanges_of (completeBooking server (Script.config_of env)) new_client).
    change (Script.DATE env) with (date (Script.config_of env)).
    change (Script.TIME env) with (time (Script.config_of env)).
    rewrite <- Hiff. destruct (success res); split; try reflexivity; discriminate.
  - unfold Script.config_of, truthy_str. cbn [mobile].
    destruct (Script.MOBILE env) as [m|]; [|reflexivity].
    intros Hm. unfold JS.or_else. now rewrite Hm.
  - intros m Hm Ht. unfold Script.config_of. cbn [mobile].
    rewrite Hm. unfold JS.or_else. now rewrite Ht.
Qed.

Ltac in_trace Hin :=
  show_trace; intros Hin; cbn [In] in Hin;
  repeat match type of Hin with
         | _ \/ _ => destruct Hin as [Hin|Hin]
         | False => contradiction
         end;
  subst;
  repeat match goal with x := _ : (Request * Outcome)%type |- _ => subst x end;
  unfold Wire.absent_or; cbn [fst]; rewrite params_build; cbn [cfg_params].

Ltac absent := left; reflexivity.
Ltac present := right; reflexivity.

(** The requests of [login] carry none of the parameters of the wizard. *)
Lemma login_parameters (mobile : string) (w : Client) (name : string) (v : Value) :
  name <> "Mobile" -> name <> "CustomerID" -> name <> "ReturnUrl" ->
  forall ex, In ex (exchanges_of (login server mobile) w) -> Wire.absent_or name v ex.
Proof.
  intros N1 N2 N3 ex.
  assert (Hv : Trace.param name [("Mobile", VStr mobile)] = None).
  { cbn [Trace.param]. apply String.eqb_neq in N1. rewrite String.eqb_sym in N1.
    now rewrite N1. }
  assert (Hp : Trace.param name [("CustomerID", VNum 0);
                                 ("ReturnUrl", VStr "/Clients/MakeAppoitment")] = None).
  { cbn [Trace.param]. apply String.eqb_neq in N2, N3.
    rewrite String.eqb_sym in N2, N3. now rewrite N2, N3. }
  unfold exchanges_of, login, try_catch at 1, bind at 1.
  unfold validateMobile, try_catch, bind at 1, post.
  run_send Hres1 Hh1 Hc1.
  2:{ in_trace Hin. left. exact Hv. }
  unfold ret at 1. destruct (status a =? 200); cbn [negb].
  2:{ in_trace Hin. left. exact Hv. }
  unfold bind at 1, get. run_send Hres2 Hh2 Hc2.
  2:{ destruct (_ || _); in_trace Hin; left; assumption. }
  unfold bind at 1, data_match.
  remember (data a0) as d eqn:Hd. symmetry in Hd.
  destruct d as [html| |];
    try solve [unfold throw; cbn [response_status_is response orb];
               in_trace Hin; left; assumption].
  unfold ret at 1. destruct (Token.token_match html) as [token|] eqn:Ht.
  2:{ in_trace Hin; left; assumption. }
  unfold bind, login_submit, post. run_send Hres3 Hh3 Hc3.
  - in_trace Hin; left; solve [assumption|reflexivity].
  - destruct (_ || _); in_trace Hin; left; solve [assumption|reflexivity].
Qed.

Lemma getAvailableTimes_parameters (appointmentTypeIds : list Z) (schedulerId : Z)
      (branchId : option Z) (w : Client) :
  forall ex,
    In ex (exchanges_of
             (getAvailableTimes server appointmentTypeIds schedulerId branchId) w) ->
    Wire.absent_or "ids" (first_id appointmentTypeIds) ex
    /\ Wire.absent_or "SchedulerID" (VNum schedulerId) ex
    /\ Wire.absent_or "BranchID" (VNum (default branchId 0)) ex
    /\ Wire.absent_or "Length" (VNum 7) ex.
Proof.
  intros ex.
  unfold exchanges_of, getAvailableTimes, try_catch.
  unfold bind, visit_type_select, visit_scheduler_select, visit_time_select,
    fetch_times, get, post.
  run_send Hres1 Hh1 Hc1.
  2:{ destruct (response_status_is e 302); in_trace Hin;
      repeat split; first [absent|present]. }
  run_send Hres2 Hh2 Hc2.
  2:{ destruct (response_status_is e 302); in_trace Hin;
      repeat split; first [absent|present]. }
  run_send Hres3 Hh3 Hc3.
  2:{ destruct (response_status_is e 302); in_trace Hin;
      repeat split; first [absent|present]. }
  run_send Hres4 Hh4 Hc4.
  - in_trace Hin; repeat split; first [absent|present].
  - destruct (response_status_is e 302); in_trace Hin;
      repeat split; first [absent|present].
Qed.

Lemma bookAppointment_parameters (appointmentTypeIds : list Z) (schedulerId : Z)
      (date time : string) (length : option Z) (w : Client) :
  forall ex,
    In ex (exchanges_of
             (bookAppointment server appointmentTypeIds schedulerId date time length)
             w) ->
    Wire.absent_or "ids" (VStr (join_ids appointmentTypeIds)) ex
    /\ Wire.absent_or "SchedulerID" (VNum schedulerId) ex
    /\ Wire.absent_or "BranchID" (VNum 0) ex
    /\ Wire.absent_or "Length" (VNum (default length 7)) ex.
Proof.
  intros ex.
  unfold exchanges_of, bookAppointment, try_catch.
  unfold bind, revisit_time_select, ask_appointment, get, post.
  run_send Hres1 Hh1 Hc1.
  2:{ in_trace Hin; repeat split; first [absent|present]. }
  run_send Hres2 Hh2 Hc2.
  - destruct (status a0 =? 200); in_trace Hin; repeat split; first [absent|present].
  - in_trace Hin; repeat split; first [absent|present].
Qed.

Lemma appointmentTypeIds_single (config : BookingConfig) :
  appointmentTypeIds_of config = [num_or (serviceTypeId config) 37331].
Proof.
  unfold appointmentTypeIds_of, num_or.
  destruct (serviceTypeId config) as [n|]; [|reflexivity].
  now destruct (n =? 0).
Qed.

(** X15. Whatever the configuration says, the requests of
    [completeBooking] carry these parameters and no others of these names:
    [BranchID] is 0 ([config.branchId] is never sent), [SchedulerID] is
    [config.schedulerId], or 6132 when that is absent or zero, [Length] is 7,
    and [ids] is [config.serviceTypeId], or 37331 when that is absent or
    zero (as a number in the lookup of the times, as text in the booking). *)
Theorem completeBooking_parameters (config : BookingConfig) (w : Client)
        (ex : Exchange) :
  In ex (exchanges_of (completeBooking server config) w) ->
  Wire.absent_or "BranchID" (VNum 0) ex
  /\ Wire.absent_or "SchedulerID" (VNum (num_or (schedulerId config) 6132)) ex
  /\ Wire.absent_or "Length" (VNum 7) ex
  /\ (Wire.absent_or "ids" (VNum (num_or (serviceTypeId config) 37331)) ex
      \/ Wire.absent_or "ids"
           (VStr (JS.show_num (num_or (serviceTypeId config) 37331))) ex).
Proof.
  destruct (completeBooking_run server config w)
    as (b & w1 & tr1 & Hl & Hh1 & Hrun1 & Hcases).
  pose proof (run_exchanges _ _ _ _ _ Hl Hh1) as Ht1.
  assert (Hlogin : forall ex, In ex tr1 ->
            Wire.absent_or "BranchID" (VNum 0) ex
            /\ Wire.absent_or "SchedulerID" (VNum (num_or (schedulerId config) 6132)) ex
            /\ Wire.absent_or "Length" (VNum 7) ex
            /\ (Wire.absent_or "ids" (VNum (num_or (serviceTypeId config) 37331)) ex
                \/ Wire.absent_or "ids"
                     (VStr (JS.show_num (num_or (serviceTypeId config) 37331))) ex)).
  { intros ex0 Hin. rewrite <- Ht1 in Hin.
    repeat split; [| | |left];
      apply (login_parameters (mobile config) w); try discriminate; exact Hin. }
  destruct Hcases as [[_ Hc]|(_ & d & w2 & tr2 & Hg & Hh2 & Hrun2 & Hbook)].
  { rewrite (run_exchanges _ _ _ _ _ Hc Hh1). apply Hlogin. }
  pose proof (run_exchanges _ _ _ _ _ Hg Hh2) as Ht2.
  assert (Htimes : forall ex, In ex tr2 ->
            Wire.absent_or "BranchID" (VNum 0) ex
            /\ Wire.absent_or "SchedulerID" (VNum (num_or (schedulerId config) 6132)) ex
            /\ Wire.absent_or "Length" (VNum 7) ex
            /\ (Wire.absent_or "ids" (VNum (num_or (serviceTypeId config) 37331)) ex
                \/ Wire.absent_or "ids"
                     (VStr (JS.show_num (num_or (serviceTypeId config) 37331))) ex)).
  { intros ex0 Hin. rewrite <- Ht2 in Hin.
    apply getAvailableTimes_parameters in Hin.
    rewrite appointmentTypeIds_single in Hin.
    destruct Hin as (Hi & Hs & Hb & Hlen). repeat split; try assumption.
    now left. }
  destruct Hbook as [[_ Hc]|(dd & tt & res & w3 & tr3 & _ & _ & _ & Hb & Hh3 & _ & Hc)].
  { assert (Hh : history w2 = (history w ++ (tr1 ++ tr2))%list)
      by (rewrite Hh2, Hh1, <- !app_assoc; reflexivity).
    rewrite (run_exchanges _ _ _ _ _ Hc Hh). intros Hin.
    apply in_app_or in Hin. destruct Hin; [now apply Hlogin|now apply Htimes]. }
  assert (Hh : history w3 = (history w ++ (tr1 ++ tr2 ++ tr3))%list)
    by (rewrite Hh3, Hh2, Hh1, <- !app_assoc; reflexivity).
  rewrite (run_exchanges _ _ _ _ _ Hc Hh). intros Hin.
  apply in_app_or in Hin. destruct Hin as [Hin|Hin]; [now apply Hlogin|].
  apply in_app_or in Hin. destruct Hin as [Hin|Hin]; [now apply Htimes|].
  rewrite <- (run_exchanges _ _ _ _ _ Hb Hh3) in Hin.
  apply bookAppointment_parameters in Hin.
  rewrite appointmentTypeIds_single in Hin.
  destruct Hin as (Hi & Hs & Hbr & Hlen). repeat split; try assumption.
  now right.
Qed.

Lemma count_once (l : list Endpoint) (ep : Endpoint) :
  NoDup l -> (count_occ Wire.Endpoint_eq_dec l ep <= 1)%nat.
Proof. intros H. now apply (proj1 (NoDup_count_occ Wire.Endpoint_eq_dec l)). Qed.

Lemma count_with_revisit (l1 l2 : list Endpoint) (ep : Endpoint) :
  NoDup (l1 ++ l2) ->
  (count_occ Wire.Endpoint_eq_dec (l1 ++ time_select :: l2) ep
   <= if Wire.Endpoint_eq_dec ep time_select then 2 else 1)%nat.
Proof.
  intros H. pose proof (count_once _ ep H) as Hc.
  rewrite count_occ_app in Hc. rewrite count_occ_app. cbn [count_occ].
  destruct (Wire.Endpoint_eq_dec time_select ep) as [E|E];
    destruct (Wire.Endpoint_eq_dec ep time_select) as [E'|E']; try congruence; lia.
Qed.

Ltac distinct_endpoints :=
  repeat constructor; cbn [In app]; intros Hdup;
  repeat (destruct Hdup as [Hdup|Hdup]; [discriminate Hdup|]); exact Hdup.

Ltac name_endpoints :=
  unfold Wire.calls_to, endpoints; rewrite ?map_app; cbn [map];
  repeat match goal with H : endpoint _ = _ |- _ => rewrite H; clear H end.

(** X16. [completeBooking] never retries: it makes at most nine requests,
    and no endpoint is called twice, except the time-selection page, which
    the lookup of the times and the booking each visit once. *)
Theorem completeBooking_no_retry (config : BookingConfig) (w : Client) :
  let tr := exchanges_of (completeBooking server config) w in
  (length tr <= 9)%nat
  /\ forall ep,
      (Wire.calls_to ep tr <= if Wire.Endpoint_eq_dec ep time_select then 2 else 1)%nat.
Proof.
  cbv zeta.
  destruct (completeBooking_run server config w)
    as (b & w1 & tr1 & Hl & Hh1 & Hrun1 & Hcases).
  destruct Hcases as [[_ Hc]|(_ & d & w2 & tr2 & Hg & Hh2 & Hrun2 & Hbook)].
  { rewrite (run_exchanges _ _ _ _ _ Hc Hh1).
    split; [destruct Hrun1; simpl; lia|].
    intros ep.
    assert (Hone : (Wire.calls_to ep tr1 <= 1)%nat).
    { destruct Hrun1; name_endpoints; apply count_once; distinct_endpoints. }
    destruct (Wire.Endpoint_eq_dec ep time_select); lia. }
  destruct Hbook as [[_ Hc]|(dd & tt & res & w3 & tr3 & _ & _ & _ & Hb & Hh3 & Hrun3 & Hc)].
  { assert (Hh : history w2 = (history w ++ (tr1 ++ tr2))%list)
      by (rewrite Hh2, Hh1, <- !app_assoc; reflexivity).
    rewrite (run_exchanges _ _ _ _ _ Hc Hh).
    split; [destruct Hrun1; destruct Hrun2; simpl; lia|].
    intros ep.
    assert (Hone : (Wire.calls_to ep (tr1 ++ tr2) <= 1)%nat).
    { destruct Hrun1; destruct Hrun2; name_endpoints; apply count_once;
        distinct_endpoints. }
    destruct (Wire.Endpoint_eq_dec ep time_select); lia. }
  assert (Hh : history w3 = (history w ++ (tr1 ++ tr2 ++ tr3))%list)
    by (rewrite Hh3, Hh2, Hh1, <- !app_assoc; reflexivity).
  rewrite (run_exchanges _ _ _ _ _ Hc Hh).
  split; [destruct Hrun1; destruct Hrun2; destruct Hrun3; simpl; lia|].
  intros ep.
  destruct Hrun3 as [e1 Hep1 _ _|e1 e2 Hep1 _ _ Hep2 _].
  - destruct Hrun1; destruct Hrun2; name_endpoints;
      match goal with
      | |- (count_occ _ (?l1 ++ ?l2 ++ [time_select]) _ <= _)%nat =>
          apply (count_with_revisit (l1 ++ l2) [] ep)
      end; distinct_endpoints.
  - destruct Hrun1; destruct Hrun2; name_endpoints;
      match goal with
      | |- (count_occ _ (?l1 ++ ?l2 ++ [time_select; ask]) _ <= _)%nat =>
          apply (count_with_revisit (l1 ++ l2) [ask] ep)
      end; distinct_endpoints.
Qed.

End MoreOfTheClient.

(* ------------------------------------------------------------------ *)
(** ** Round trips of the cookie store *)

Module RoundTrip.
Import Wire.

Lemma join_split (sep : ascii) (s : string) :
  JS.join (String sep EmptyString) (JS.split sep s) = s.
Proof.
  induction s as [|c r IH]; [reflexivity|].
  cbn [JS.split]. destruct (StringFacts.split_head sep r) as (h & t & Hs & _).
  rewrite Hs in *. destruct (Ascii.eqb c sep) eqn:E.
  - apply Ascii.eqb_eq in E. subst c.
    change (JS.join (String sep EmptyString) (EmptyString :: h :: t))
      with (String sep (JS.join (String sep EmptyString) (h :: t))).
    now rewrite IH.
  - destruct t as [|y t'].
    + cbn [JS.join] in *. now rewrite IH.
    + change (JS.join (String sep EmptyString) (String c h :: y :: t'))
        with (String c (JS.join (String sep EmptyString) (h :: y :: t'))).
      now rewrite IH.
Qed.

Lemma trimEnd_app (a b : string) :
  JS.trimEnd (a ++ b)
  = match JS.trimEnd b with
    | EmptyString => JS.trimEnd a
    | t => a ++ t
    end.
Proof.
  induction a as [|c a' IH]; cbn [append JS.trimEnd].
  - now destruct (JS.trimEnd b).
  - rewrite IH. destruct (JS.trimEnd b) as [|d t]; [reflexivity|].
    destruct a'; reflexivity.
Qed.

Lemma trimEnd_idem (s : string) : JS.trimEnd (JS.trimEnd s) = JS.trimEnd s.
Proof.
  induction s as [|c r IH]; [reflexivity|].
  cbn [JS.trimEnd]. destruct (JS.trimEnd r) as [|d t] eqn:E.
  - destruct (JS.is_white c) eqn:W; [reflexivity|].
    cbn [JS.trimEnd]. now rewrite W.
  - cbn [JS.trimEnd]. cbn [JS.trimEnd] in IH.
    destruct (match JS.trimEnd t with
              | EmptyString => if JS.is_white d then EmptyString
                               else String d EmptyString
              | String a0 s0 => String d (String a0 s0)
              end) eqn:E2; [discriminate IH|].
    now rewrite IH.
Qed.

Lemma trimStart_black (s : string) : starts_black s -> JS.trimStart s = s.
Proof. intros (c & r & -> & W). cbn [JS.trimStart]. now rewrite W. Qed.

Lemma trimStart_result (s : string) :
  JS.trimStart s = EmptyString \/ starts_black (JS.trimStart s).
Proof.
  induction s as [|c r IH]; [now left|].
  cbn [JS.trimStart]. destruct (JS.is_white c) eqn:W; [exact IH|].
  right. now exists c, r.
Qed.

Lemma trimEnd_black (s : string) : starts_black s -> starts_black (JS.trimEnd s).
Proof.
  intros (c & r & -> & W). cbn [JS.trimEnd].
  destruct (JS.trimEnd r) as [|d t]; [rewrite W|]; eexists _, _; split;
    try reflexivity; exact W.
Qed.

Lemma starts_black_prefix (a b : string) :
  a <> EmptyString -> starts_black (a ++ b) -> starts_black a.
Proof.
  destruct a as [|c r]; [contradiction|].
  intros _ (c' & r' & [= <- _] & W). now exists c, r.
Qed.

Lemma starts_black_app (a b : string) : starts_black a -> starts_black (a ++ b).
Proof. intros (c & r & -> & W). now exists c, (r ++ b). Qed.

Lemma append_cancel (a x y : string) : a ++ x = a ++ y -> x = y.
Proof. induction a as [|c r IH]; simpl; [auto|]. intros [= H]. auto. Qed.

Lemma trimEnd_equals (v : string) : JS.trimEnd (String "=" v) <> EmptyString.
Proof. cbn [JS.trimEnd]. destruct (JS.trimEnd v); discriminate. Qed.

Lemma parse_cookie_tidy (h n v : string) :
  parse_cookie h = Some (n, v) -> tidy n v.
Proof.
  unfold parse_cookie.
  set (first := hd EmptyString (JS.split ";" h)).
  assert (Hsemi : contains ";" (JS.trim first) = false).
  { apply StringFacts.contains_trim. unfold first.
    destruct (StringFacts.split_head ";" h) as (x & t & -> & Hx). exact Hx. }
  assert (Hend : JS.trimEnd (JS.trim first) = JS.trim first)
    by apply trimEnd_idem.
  assert (Hstart : JS.trim first = EmptyString \/ starts_black (JS.trim first)).
  { unfold JS.trim. destruct (trimStart_result first) as [->|Hb]; [now left|].
    right. now apply trimEnd_black. }
  remember (JS.trim first) as part eqn:Hpart. clear Hpart first.
  destruct (JS.truthy part) eqn:Htruthy; [|discriminate].
  destruct Hstart as [->|Hblack]; [discriminate Htruthy|].
  pose proof (join_split "=" part) as Hjoin.
  destruct (JS.split "=" part) as [|name valueParts] eqn:Hsplit; [discriminate|].
  pose proof (StringFacts.split_head "=" part) as (x & t & Hs & Hx).
  rewrite Hsplit in Hs. injection Hs as <- <-.
  destruct (JS.truthy name) eqn:Hname; [|discriminate].
  destruct valueParts as [|y ys]; [discriminate|].
  assert (Hwhole : part = name ++ String "=" (JS.join "=" (y :: ys))).
  { rewrite <- Hjoin. reflexivity. }
  clear Hjoin Hsplit. remember (JS.join "=" (y :: ys)) as v0 eqn:Hv0. clear Hv0.
  cbn [andb length Nat.ltb Nat.leb]. intros [= <- <-].
  assert (Hne : name <> EmptyString) by (destruct name; [discriminate|discriminate]).
  assert (Hnb : starts_black name).
  { apply (starts_black_prefix name (String "=" (v0)) Hne).
    now rewrite <- Hwhole. }
  assert (Htail : JS.trimEnd (String "=" (v0))
                  = String "=" (v0)).
  { rewrite Hwhole, trimEnd_app in Hend.
    destruct (JS.trimEnd (String "=" (v0))) as [|d t] eqn:E.
    - exfalso. now apply (trimEnd_equals (v0)).
    - now apply append_cancel in Hend. }
  rewrite Hwhole, contains_app in Hsemi. apply orb_false_iff in Hsemi.
  destruct Hsemi as [Hs1 Hs2].
  unfold JS.trim. rewrite (trimStart_black _ Hnb).
  constructor.
  - now apply trimEnd_black.
  - apply trimEnd_idem.
  - now apply StringFacts.contains_trimEnd.
  - rewrite contains_app, Hs2, orb_false_r.
    now apply StringFacts.contains_trimEnd.
  - rewrite trimEnd_app, Htail. reflexivity.
Qed.

Lemma render_parse (n v : string) :
  tidy n v -> parse_cookie (render (n, v)) = Some (n, v).
Proof.
  intros [Hb He Heq Hsemi Hwhole].
  unfold parse_cookie, render. cbn [fst snd].
  change (n ++ "=" ++ v) with (n ++ String "=" v).
  rewrite (split_without ";" _ Hsemi). cbn [hd].
  unfold JS.trim at 1 2.
  rewrite (trimStart_black _ (starts_black_app n (String "=" v) Hb)), Hwhole.
  destruct Hb as (c & r & -> & W). cbn [append JS.truthy].
  change (String c (r ++ String "=" v)) with (String c r ++ String "=" v).
  rewrite (split_at "=" _ _ Heq).
  destruct (StringFacts.split_head "=" v) as (x & t & Hs & _).
  pose proof (join_split "=" v) as Hj. rewrite Hs in *.
  cbn [JS.truthy andb length Nat.ltb Nat.leb].
  unfold JS.trim. rewrite (trimStart_black (String c r)) by (now exists c, r).
  now rewrite He, Hj.
Qed.

Lemma map_set_fresh (k v : string) (m : CookieMap) :
  ~ In k (map fst m) -> map_set k v m = (m ++ [(k, v)])%list.
Proof.
  induction m as [|[k' v'] r IH]; intros Hn; [reflexivity|].
  cbn [map_set app]. destruct (String.eqb k' k) eqn:E.
  - apply String.eqb_eq in E. subst k'. exfalso. apply Hn. now left.
  - rewrite IH; [reflexivity|]. intros Hin. apply Hn. now right.
Qed.

Lemma collect_render (m acc : CookieMap) :
  NoDup (map fst (acc ++ m)) ->
  (forall n v, In (n, v) m -> tidy n v) ->
  fold_left cookie_step (map render m) acc = (acc ++ m)%list.
Proof.
  revert acc. induction m as [|[n v] m' IH]; intros acc Hnd Ht.
  - cbn. now rewrite app_nil_r.
  - cbn [map fold_left]. unfold cookie_step at 2.
    rewrite (render_parse n v) by (apply Ht; now left).
    rewrite map_set_fresh.
    + rewrite IH.
      * now rewrite <- app_assoc.
      * now rewrite <- app_assoc.
      * intros n' v' Hin. apply Ht. now right.
    + rewrite map_app in Hnd. apply NoDup_remove_2 in Hnd.
      intros Hin. apply Hnd. apply in_or_app. now left.
Qed.

Lemma collect_tidy (hs : list string) (n v : string) :
  In (n, v) (collect hs) -> tidy n v.
Proof.
  intros Hin. apply in_lookup in Hin; [|apply nodup_collect].
  rewrite lookup_collect in Hin.
  induction hs as [|h r IH]; [discriminate|].
  cbn [last_value] in Hin. destruct (last_value r n) as [v'|].
  - injection Hin as ->. now apply IH.
  - destruct (parse_cookie h) as [[k v']|] eqn:Hp; [|discriminate].
    destruct (String.eqb k n) eqn:E; [|discriminate].
    apply String.eqb_eq in E. subst k. injection Hin as ->.
    eapply parse_cookie_tidy; eauto.
Qed.

End RoundTrip.

(** X17. Every entry of the store is itself a line that sets a cookie:
    read by the parser of the interceptor, the entry [name=value] gives back
    that name and that value (values with equals signs included). *)
Theorem store_entries_parse_back (setCookieHeaders old : list string)
        (entry : string) :
  In entry (capture (Some setCookieHeaders) old) ->
  exists name value,
    entry = name ++ "=" ++ value
    /\ parse_cookie entry = Some (name, value)
    /\ last_value setCookieHeaders name = Some value.
Proof.
  intros H. unfold capture in H. apply in_map_iff in H.
  destruct H as ([n v] & <- & Hin).
  exists n, v. split; [reflexivity|]. split.
  - apply RoundTrip.render_parse. eapply RoundTrip.collect_tidy; eauto.
  - rewrite <- lookup_collect. apply in_lookup; [apply nodup_collect|exact Hin].
Qed.

(** X18. Capturing is idempotent: a response that sends back, as its
    [Set-Cookie] lines, the entries that the store holds after a capture
    leaves exactly that store, in the same order. *)
Theorem capture_idempotent (setCookieHeaders old old' : list string) :
  capture (Some (capture (Some setCookieHeaders) old)) old'
  = capture (Some setCookieHeaders) old.
Proof.
  unfold capture at 1 3. f_equal. unfold capture, collect at 1.
  rewrite RoundTrip.collect_render.
  - reflexivity.
  - apply nodup_collect.
  - intros n v. apply RoundTrip.collect_tidy.
Qed.

(** X19. The attributes of a [Set-Cookie] line never reach the store: what
    follows the first semicolon does not change what the line sets. *)
Theorem cookie_attributes_ignored (pair attributes : string) :
  contains ";" pair = false ->
  parse_cookie (pair ++ ";" ++ attributes) = parse_cookie pair.
Proof.
  intros H. unfold parse_cookie.
  change (pair ++ ";" ++ attributes) with (pair ++ String ";" attributes).
  now rewrite (StringFacts.split_append_head ";" pair attributes H),
    (split_without ";" pair H).
Qed.

(* ------------------------------------------------------------------ *)
(** ** The token pattern *)

Module TokenFacts.
Import Token Wire.

Lemma append_assoc (a b c : string) : (a ++ b) ++ c = a ++ b ++ c.
Proof. induction a as [|x r IH]; simpl; [reflexivity|now rewrite IH]. Qed.

Lemma strip_prefix_sound (p s r : string) :
  JS.strip_prefix p s = Some r -> s = p ++ r.
Proof.
  revert s. induction p as [|a p' IH]; intros s; cbn [JS.strip_prefix append].
  - now intros [= ->].
  - destruct s as [|b s']; [discriminate|].
    destruct (Ascii.eqb a b) eqn:E; [|discriminate].
    apply Ascii.eqb_eq in E. subst b. intros H. now rewrite (IH _ H).
Qed.

Lemma strip_prefix_complete (p r : string) : JS.strip_prefix p (p ++ r) = Some r.
Proof.
  induction p as [|a p' IH]; cbn [JS.strip_prefix append]; [reflexivity|].
  now rewrite Ascii.eqb_refl.
Qed.

Lemma capture_run_step (c d : ascii) (r : string) :
  capture_run (String c (String d r))
  = if is_quote c then None
    else if is_quote d then Some (String c EmptyString)
         else option_map (String c) (capture_run (String d r)).
Proof. reflexivity. Qed.

Lemma capture_run_sound (s t : string) :
  capture_run s = Some t ->
  exists q post,
    s = t ++ String q post /\ is_quote q = true
    /\ t <> EmptyString /\ quote_free t = true.
Proof.
  revert t. induction s as [|c r IH]; intros t; [discriminate|].
  destruct r as [|d r'].
  - cbn [capture_run]. destruct (is_quote c); discriminate.
  - rewrite capture_run_step.
    destruct (is_quote c) eqn:Qc; [discriminate|].
    destruct (is_quote d) eqn:Qd.
    + intros [= <-]. exists d, r'. cbn [append quote_free]. rewrite Qc.
      repeat split; try reflexivity; try assumption; discriminate.
    + destruct (capture_run (String d r')) as [t'|] eqn:E; [|discriminate].
      cbn [option_map]. intros [= <-].
      destruct (IH t' eq_refl) as (q & post & Hs & Hq & _ & Hf).
      exists q, post. cbn [append quote_free]. rewrite Hs, Qc, Hf.
      repeat split; try reflexivity; try assumption; discriminate.
Qed.

Lemma capture_run_complete (t post : string) (q : ascii) :
  t <> EmptyString -> quote_free t = true -> is_quote q = true ->
  capture_run (t ++ String q post) = Some t.
Proof.
  induction t as [|c r IH]; [contradiction|]. intros _ Hf Hq.
  cbn [quote_free] in Hf. apply andb_true_iff in Hf. destruct Hf as [Hc Hr].
  apply negb_true_iff in Hc.
  destruct r as [|d r'].
  - cbn [append]. rewrite capture_run_step, Hc, Hq. reflexivity.
  - pose proof Hr as Hr'. cbn [quote_free] in Hr'.
    apply andb_true_iff in Hr'. destruct Hr' as [Hd _].
    apply negb_true_iff in Hd.
    change (String c (String d r') ++ String q post)
      with (String c (String d (r' ++ String q post))).
    rewrite capture_run_step, Hc, Hd.
    change (String d (r' ++ String q post)) with (String d r' ++ String q post).
    rewrite IH; [reflexivity|discriminate|assumption|assumption].
Qed.

Lemma match_value_sound (s t : string) :
  match_value s = Some t ->
  exists q1 q2 post,
    s = "value=" ++ String q1 (t ++ String q2 post)
    /\ is_quote q1 = true /\ is_quote q2 = true
    /\ t <> EmptyString /\ quote_free t = true.
Proof.
  unfold match_value.
  destruct (JS.strip_prefix "value=" s) as [[|q1 r]|] eqn:Hp; try discriminate.
  destruct (is_quote q1) eqn:Q1; [|discriminate].
  intros Hc. apply strip_prefix_sound in Hp.
  destruct (capture_run_sound _ _ Hc) as (q2 & post & -> & Q2 & Hne & Hf).
  exists q1, q2, post. repeat split; assumption.
Qed.

Lemma match_value_complete (t post : string) (q1 q2 : ascii) :
  is_quote q1 = true -> is_quote q2 = true ->
  t <> EmptyString -> quote_free t = true ->
  match_value ("value=" ++ String q1 (t ++ String q2 post)) = Some t.
Proof.
  intros Q1 Q2 Hne Hf. unfold match_value.
  rewrite strip_prefix_complete, Q1. now apply capture_run_complete.
Qed.

Lemma match_attrs_sound (s t : string) :
  match_attrs s = Some t ->
  exists attrs rest,
    s = attrs ++ rest /\ contains ">" attrs = false /\ match_value rest = Some t.
Proof.
  induction s as [|c r IH]; cbn [match_attrs].
  - intros H. now exists EmptyString, EmptyString.
  - destruct (Ascii.eqb c ">") eqn:E.
    + intros H. now exists EmptyString, (String c r).
    + destruct (match_attrs r) as [t'|] eqn:Hm.
      * intros [= <-]. destruct (IH eq_refl) as (attrs & rest & -> & Hc & Hv).
        exists (String c attrs), rest. cbn [append contains]. rewrite E, Hc.
        repeat split. exact Hv.
      * intros H. now exists EmptyString, (String c r).
Qed.

Lemma match_attrs_here (s t : string) :
  match_value s = Some t -> exists t', match_attrs s = Some t'.
Proof.
  intros H. destruct s as [|c r]; cbn [match_attrs]; [now exists t|].
  destruct (Ascii.eqb c ">"); [now exists t|].
  destruct (match_attrs r) as [t'|]; [now exists t'|now exists t].
Qed.

Lemma match_attrs_complete (attrs rest t : string) :
  contains ">" attrs = false -> match_value rest = Some t ->
  exists t', match_attrs (attrs ++ rest) = Some t'.
Proof.
  induction attrs as [|c r IH]; intros Hc Hv; cbn [append].
  - eapply match_attrs_here; eauto.
  - cbn [contains] in Hc. apply orb_false_iff in Hc. destruct Hc as [E Hr].
    cbn [match_attrs]. rewrite E.
    destruct (IH Hr Hv) as (t' & ->). now exists t'.
Qed.

Lemma token_match_sound (html t : string) :
  token_match html = Some t ->
  exists pre rest, html = pre ++ rest /\ match_here rest = Some t.
Proof.
  induction html as [|c r IH]; cbn [token_match].
  - destruct (match_here EmptyString) eqn:E; [|discriminate].
    intros [= <-]. now exists EmptyString, EmptyString.
  - destruct (match_here (String c r)) as [t'|] eqn:E.
    + intros [= <-]. now exists EmptyString, (String c r).
    + intros H. destruct (IH H) as (pre & rest & -> & Hm).
      now exists (String c pre), rest.
Qed.

Lemma token_match_complete (pre rest t : string) :
  match_here rest = Some t -> exists t', token_match (pre ++ rest) = Some t'.
Proof.
  intros H. induction pre as [|c r IH]; cbn [append].
  - destruct rest as [|d r']; cbn [token_match]; rewrite H; now exists t.
  - cbn [token_match]. destruct (match_here (String c (r ++ rest))) as [t'|];
      [now exists t'|exact IH].
Qed.

End TokenFacts.

Lemma hidden_field_shape (attrs token post : string) (q1 q2 : ascii) :
  Wire.hidden_field attrs q1 token q2 ++ post
  = "__RequestVerificationToken"
    ++ (attrs ++ ("value=" ++ String q1 (token ++ String q2 post))).
Proof.
  unfold Wire.hidden_field.
  rewrite !TokenFacts.append_assoc. cbn [append].
  now rewrite !TokenFacts.append_assoc.
Qed.

(** X20. A token that the pattern finds is never empty and holds no
    quote, and the page really contains a hidden field with it: the name
    of the field, then characters without a closing bracket, then [value=]
    and the token between two quotes (each a double or a single quote, not
    necessarily the same). *)
Theorem token_match_is_in_page (html token : string) :
  Token.token_match html = Some token ->
  token <> EmptyString
  /\ Wire.quote_free token = true
  /\ exists pre attrs q1 q2 post,
      html = pre ++ Wire.hidden_field attrs q1 token q2 ++ post
      /\ contains ">" attrs = false
      /\ Token.is_quote q1 = true /\ Token.is_quote q2 = true.
Proof.
  intros H. destruct (TokenFacts.token_match_sound _ _ H) as (pre & rest & -> & Hm).
  unfold Token.match_here in Hm.
  destruct (JS.strip_prefix "__RequestVerificationToken" rest) as [rest'|] eqn:Hp;
    [|discriminate].
  apply TokenFacts.strip_prefix_sound in Hp. subst rest.
  destruct (TokenFacts.match_attrs_sound _ _ Hm) as (attrs & tail & -> & Hc & Hv).
  destruct (TokenFacts.match_value_sound _ _ Hv)
    as (q1 & q2 & post & -> & Q1 & Q2 & Hne & Hf).
  split; [exact Hne|]. split; [exact Hf|].
  exists pre, attrs, q1, q2, post. repeat split; try assumption.
  now rewrite hidden_field_shape.
Qed.

(** X21. A page that contains a hidden field with a non-empty value
    without quotes always yields a token (that of another hidden field
    when the page has several). *)
Theorem token_found_when_present (pre attrs token post : string) (q1 q2 : ascii) :
  contains ">" attrs = false ->
  Token.is_quote q1 = true -> Token.is_quote q2 = true ->
  token <> EmptyString -> Wire.quote_free token = true ->
  exists found,
    Token.token_match (pre ++ Wire.hidden_field attrs q1 token q2 ++ post)
    = Some found.
Proof.
  intros Hc Q1 Q2 Hne Hf. rewrite hidden_field_shape.
  pose proof (TokenFacts.match_value_complete token post q1 q2 Q1 Q2 Hne Hf) as Hv.
  destruct (TokenFacts.match_attrs_complete attrs _ token Hc Hv) as (t' & Ht').
  apply (TokenFacts.token_match_complete pre _ t').
  unfold Token.match_here. now rewrite TokenFacts.strip_prefix_complete.
Qed.

(* ------------------------------------------------------------------ *)
(** ** The filter and the log of the exploration tool *)

Module ExplorerFacts.
Import Explorer.

Lemma toLowerCase_app (a b : string) :
  toLowerCase (a ++ b) = toLowerCase a ++ toLowerCase b.
Proof. induction a as [|c r IH]; simpl; [reflexivity|now rewrite IH]. Qed.

Lemma starts_with_app (p b : string) : starts_with p (p ++ b) = true.
Proof.
  induction p as [|c r IH]; [reflexivity|].
  cbn [append starts_with]. now rewrite Ascii.eqb_refl.
Qed.

Lemma includes_unfold (p s : string) :
  includes p s
  = starts_with p s
    || match s with EmptyString => false | String _ r => includes p r end.
Proof. destruct s; reflexivity. Qed.

Lemma includes_app (p a b : string) : includes p (a ++ p ++ b) = true.
Proof.
  induction a as [|c r IH].
  - cbn [append]. rewrite includes_unfold, starts_with_app. reflexivity.
  - cbn [append]. rewrite includes_unfold, IH. apply orb_true_r.
Qed.

Lemma static_blocks (url ext : string) :
  In ext staticExtensions ->
  includes ext (toLowerCase url) = true ->
  isApiRequest url = false.
Proof.
  intros Hin Hinc. unfold isApiRequest.
  assert (H : hasStaticExtension url = true).
  { unfold hasStaticExtension. apply existsb_exists. now exists ext. }
  now rewrite H.
Qed.

(** Under the flag [i] only the two cases of a letter match it, and only
    the character itself matches a dot. *)
Lemma ci_lower (b : ascii) :
  (eqb_ci "." b = true -> lower_char b = "."%char)
  /\ (eqb_ci "j" b = true -> lower_char b = "j"%char)
  /\ (eqb_ci "s" b = true -> lower_char b = "s"%char).
Proof.
  destruct b as [[] [] [] [] [] [] [] []]; vm_compute;
    repeat split; intros H; first [reflexivity|discriminate H].
Qed.

Lemma json_has_js (s : string) :
  equal_ci ".json" s = true -> starts_with ".js" (toLowerCase s) = true.
Proof.
  destruct s as [|a [|b [|c r]]]; cbn [equal_ci]; intros H;
    try discriminate H;
    try (rewrite ?andb_false_r in H; discriminate H).
  apply andb_true_iff in H. destruct H as [Ha H].
  apply andb_true_iff in H. destruct H as [Hb H].
  apply andb_true_iff in H. destruct H as [Hc _].
  destruct (ci_lower a) as (La & _ & _).
  destruct (ci_lower b) as (_ & Lb & _).
  destruct (ci_lower c) as (_ & _ & Lc).
  cbn [toLowerCase starts_with]. rewrite (La Ha), (Lb Hb), (Lc Hc). reflexivity.
Qed.

Lemma ends_ci_unfold (p s : string) :
  ends_ci p s
  = equal_ci p s
    || match s with EmptyString => false | String _ r => ends_ci p r end.
Proof. destruct s; reflexivity. Qed.

Lemma json_suffix_has_js (url : string) :
  ends_ci ".json" url = true -> includes ".js" (toLowerCase url) = true.
Proof.
  induction url as [|c r IH]; [discriminate|].
  rewrite ends_ci_unfold. intros H. apply orb_true_iff in H.
  rewrite includes_unfold. apply orb_true_iff. destruct H as [H|H].
  - left. now apply json_has_js.
  - right. cbn [toLowerCase]. now apply IH.
Qed.

Lemma substring0_length (n : nat) (s : string) :
  (String.length (substring0 n s) <= n)%nat.
Proof.
  revert s. induction n as [|n IH]; intros s; [simpl; lia|].
  destruct s as [|c r]; simpl; [lia|]. specialize (IH r). lia.
Qed.

Lemma substring0_prefix (n : nat) (s : string) :
  exists rest, s = substring0 n s ++ rest.
Proof.
  revert s. induction n as [|n IH]; intros s; [now exists s|].
  destruct s as [|c r]; [now exists EmptyString|].
  destruct (IH r) as (rest & H). exists rest. cbn [substring0 append]. now rewrite <- H.
Qed.

Lemma keep_truthy_nonempty (o : option string) :
  keep_truthy o <> Some EmptyString.
Proof.
  destruct o as [[|c r]|]; cbn; discriminate.
Qed.

Lemma kept_body_upto (n : nat) (o : option string) (b : string) :
  (0 < n)%nat ->
  option_map (substring0 n) (keep_truthy o) = Some b ->
  b <> EmptyString /\ (String.length b <= n)%nat.
Proof.
  intros Hn.
  destruct o as [[|c r]|]; cbn [keep_truthy JS.truthy option_map]; try discriminate.
  intros [= <-]. split; [|apply substring0_length].
  destruct n; [lia|discriminate].
Qed.

Lemma kept_body (o : option string) (b : string) :
  option_map (substring0 500) (keep_truthy o) = Some b ->
  b <> EmptyString /\ (String.length b <= 500)%nat.
Proof. apply kept_body_upto. lia. Qed.

Lemma handle_invariant (m : Monitor) (e : Event) :
  Forall Wire.logged_request_ok (networkRequests m) ->
  Forall Wire.logged_response_ok (networkResponses m) ->
  Forall Wire.logged_request_ok (networkRequests (handle m e))
  /\ Forall Wire.logged_response_ok (networkResponses (handle m e))
  /\ (length (networkRequests (handle m e)) + length (networkResponses (handle m e))
      <= S (length (networkRequests m) + length (networkResponses m)))%nat.
Proof.
  intros Hq Hr. destruct e as [url method hdrs postData now|url status hdrs text now];
    cbn [handle]; unfold on_request, on_response;
    destruct (isApiRequest url) eqn:Hapi; cbn [networkRequests networkResponses];
    try (repeat split; [assumption|assumption|lia]).
  - split; [|split; [assumption|rewrite length_app; simpl; lia]].
    apply Forall_app. split; [assumption|]. constructor; [|constructor].
    split; [exact Hapi|apply keep_truthy_nonempty].
  - split; [assumption|]. split; [|rewrite length_app; simpl; lia].
    apply Forall_app. split; [assumption|]. constructor; [|constructor].
    split; [exact Hapi|]. cbn [res_body]. apply kept_body.
Qed.

Lemma fold_invariant (events : list Event) (m : Monitor) :
  Forall Wire.logged_request_ok (networkRequests m) ->
  Forall Wire.logged_response_ok (networkResponses m) ->
  Forall Wire.logged_request_ok (networkRequests (fold_left handle events m))
  /\ Forall Wire.logged_response_ok (networkResponses (fold_left handle events m))
  /\ (length (networkRequests (fold_left handle events m))
      + length (networkResponses (fold_left handle events m))
      <= length events + (length (networkRequests m) + length (networkResponses m)))%nat.
Proof.
  revert m. induction events as [|e es IH]; intros m Hq Hr; cbn [fold_left].
  - repeat split; try assumption. simpl. lia.
  - destruct (handle_invariant m e Hq Hr) as (Hq' & Hr' & Hn).
    destruct (IH _ Hq' Hr') as (Hq'' & Hr'' & Hn'').
    repeat split; try assumption. simpl. lia.
Qed.

End ExplorerFacts.

(** X22. A URL that contains one of the static extensions anywhere, in any
    letter case (in the host, the path or the query), is never taken for
    an API request, whatever else it matches. *)
Theorem static_extension_blocks (pre x post ext : string) :
  In ext Explorer.staticExtensions ->
  Explorer.toLowerCase x = ext ->
  Explorer.isApiRequest (pre ++ x ++ post) = false.
Proof.
  intros Hin Hx. apply (ExplorerFacts.static_blocks _ ext Hin).
  rewrite !ExplorerFacts.toLowerCase_app, Hx. apply ExplorerFacts.includes_app.
Qed.

(** X23. The suffix [.json] never makes a URL an API request: such a URL
    contains [.js], a static extension.  So the filter accepts a URL
    exactly when it has no static extension and matches an API pattern or
    ends in [.xml]. *)
Theorem json_suffix_never_counts (url : string) :
  (Explorer.ends_ci ".json" url = true -> Explorer.isApiRequest url = false)
  /\ Explorer.isApiRequest url
     = negb (Explorer.hasStaticExtension url)
       && (Explorer.isApiPattern url || Explorer.ends_ci ".xml" url).
Proof.
  assert (Hjs : Explorer.ends_ci ".json" url = true ->
                Explorer.hasStaticExtension url = true).
  { intros H. unfold Explorer.hasStaticExtension. apply existsb_exists.
    exists ".js". split; [now left|]. now apply ExplorerFacts.json_suffix_has_js. }
  split.
  - intros H. unfold Explorer.isApiRequest. now rewrite (Hjs H).
  - unfold Explorer.isApiRequest, Explorer.hasDataSuffix.
    destruct (Explorer.ends_ci ".json" url) eqn:E; [|reflexivity].
    now rewrite (Hjs eq_refl).
Qed.

(** X24. Whatever the browser reports, every request and every response
    that the tool logs has a URL that the filter accepts; a logged post
    body is never the empty string; a logged response body is non-empty and
    at most 500 code units long; and at most one entry is logged per
    event. *)
Theorem monitor_logs_api_traffic_only (events : list Explorer.Event) :
  let m := Explorer.observe events in
  Forall Wire.logged_request_ok (Explorer.networkRequests m)
  /\ Forall Wire.logged_response_ok (Explorer.networkResponses m)
  /\ (length (Explorer.networkRequests m) + length (Explorer.networkResponses m)
      <= length events)%nat.
Proof.
  cbv zeta. unfold Explorer.observe.
  destruct (ExplorerFacts.fold_invariant events Explorer.new_monitor
              (Forall_nil _) (Forall_nil _)) as (Hq & Hr & Hn).
  split; [exact Hq|]. split; [exact Hr|].
  change (length (Explorer.networkRequests Explorer.new_monitor)
          + length (Explorer.networkResponses Explorer.new_monitor))%nat
    with 0%nat in Hn.
  lia.
Qed.

(* ------------------------------------------------------------------ *)
(** ** The further properties on concrete inputs *)

Import Cases.

(** The login submission against the server that accepts the login. *)
Lemma login_submission_request_witness :
  let tr := exchanges_of (login happy_server "0544458876") new_client in
  let e1 := nth 0 tr dummy_exchange in
  let e2 := nth 1 tr dummy_exchange in
  let e3 := nth 2 tr dummy_exchange in
  tr = [e1; e2; e3]
  /\ exists r1 r2 token,
      snd e1 = Resp r1 /\ snd e2 = Resp r2
      /\ token_of (data r2) = Some token
      /\ body (fst e3) = Some (Wire.submit_body "0544458876" token)
      /\ maxRedirects (fst e3) = Some 0
      /\ headers (fst e3)
         = (default_headers
            ++ [ ("Content-Type", "application/x-www-form-urlencoded");
                 ("Referer", "https://mentor.tormahir.co.il/Account/LoginClients") ]
            ++ Wire.cookie_header
                 (capture (set_cookie r2)
                    (capture (set_cookie r1) (sessionCookies new_client))))%list.
Proof.
  intros tr e1 e2 e3.
  assert (H : tr = [e1; e2; e3]) by (vm_compute; reflexivity).
  split; [exact H|].
  exact (login_submission_request happy_server "0544458876" new_client e1 e2 e3 H).
Defined.

(** Lines that set nothing wipe the cookie that the client held. *)
Lemma useless_cookie_lines_empty_store_witness :
  fst (send junk_server GET "/" None no_config stale_client) = Ok junk_response
  /\ set_cookie junk_response = Some ["broken"; "=orphan"; " ; Path=/"]
  /\ (forall h, In h ["broken"; "=orphan"; " ; Path=/"] -> parse_cookie h = None)
  /\ sessionCookies (snd (send junk_server GET "/" None no_config stale_client)) = [].
Proof.
  assert (H1 : fst (send junk_server GET "/" None no_config stale_client)
               = Ok junk_response) by reflexivity.
  assert (H3 : forall h, In h ["broken"; "=orphan"; " ; Path=/"] ->
                         parse_cookie h = None).
  { intros h [<-|[<-|[<-|[]]]]; reflexivity. }
  split; [exact H1|]. split; [reflexivity|]. split; [exact H3|].
  exact (proj1 (useless_cookie_lines_empty_store junk_server GET "/" None no_config
                  stale_client junk_response _ H1 eq_refl H3)).
Defined.

(** A refused mobile number: the flow ends with the one request of the
    validation. *)
Lemma completeBooking_stops_after_login_witness :
  fst (login refusing_server (mobile sample_config) new_client) = Ok false
  /\ exchanges_of (completeBooking refusing_server sample_config) new_client
     = exchanges_of (login refusing_server (mobile sample_config)) new_client.
Proof.
  assert (H : fst (login refusing_server (mobile sample_config) new_client) = Ok false)
    by (vm_compute; reflexivity).
  split; [exact H|].
  exact (proj2 (completeBooking_stops_after_login refusing_server sample_config
                  new_client H)).
Defined.

(** An empty date: no booking call. *)
Lemma completeBooking_empty_slot_witness :
  (truthy_str (date empty_date_config) = false
   \/ truthy_str (time empty_date_config) = false)
  /\ fst (login happy_server (mobile empty_date_config) new_client) = Ok true
  /\ fst (completeBooking happy_server empty_date_config new_client) = Ok logged_in_only
  /\ ~ In ask (endpoints (exchanges_of (completeBooking happy_server empty_date_config)
                            new_client)).
Proof.
  assert (H1 : truthy_str (date empty_date_config) = false
               \/ truthy_str (time empty_date_config) = false) by (left; reflexivity).
  assert (H2 : fst (login happy_server (mobile empty_date_config) new_client) = Ok true)
    by (vm_compute; reflexivity).
  pose proof (completeBooking_empty_slot happy_server empty_date_config new_client H1 H2)
    as H.
  split; [exact H1|]. split; [exact H2|].
  split; [exact (proj1 H)|exact (proj2 (proj2 H))].
Defined.

(** A configuration with branch 7 and scheduler 0: the time-selection page
    is asked with branch 0 and scheduler 6132. *)
Lemma completeBooking_parameters_witness :
  let ex := nth 5 (exchanges_of (completeBooking happy_server other_branch_config)
                     new_client) dummy_exchange in
  In ex (exchanges_of (completeBooking happy_server other_branch_config) new_client)
  /\ Wire.absent_or "BranchID" (VNum 0) ex
  /\ Wire.absent_or "SchedulerID" (VNum 6132) ex.
Proof.
  intros ex.
  assert (Hin : In ex (exchanges_of (completeBooking happy_server other_branch_config)
                         new_client)) by nth_exchange.
  pose proof (completeBooking_parameters happy_server other_branch_config new_client
                ex Hin) as H.
  split; [exact Hin|]. split; [exact (proj1 H)|exact (proj1 (proj2 H))].
Defined.

(** The entry of [sid] parses back. *)
Lemma store_entries_parse_back_witness :
  In "sid=2" (capture (Some sample_headers) ["old=0"])
  /\ exists name value,
      "sid=2" = name ++ "=" ++ value
      /\ parse_cookie "sid=2" = Some (name, value)
      /\ last_value sample_headers name = Some value.
Proof.
  assert (H : In "sid=2" (capture (Some sample_headers) ["old=0"]))
    by (left; reflexivity).
  split; [exact H|].
  exact (store_entries_parse_back sample_headers ["old=0"] "sid=2" H).
Defined.

(** A line with two attributes. *)
Lemma cookie_attributes_ignored_witness :
  contains ";" "sid=abc" = false
  /\ parse_cookie ("sid=abc" ++ ";" ++ " Path=/; HttpOnly") = parse_cookie "sid=abc".
Proof.
  split; [reflexivity|].
  exact (cookie_attributes_ignored "sid=abc" " Path=/; HttpOnly" eq_refl).
Defined.

(** The token of a login form. *)
Lemma token_match_is_in_page_witness :
  Token.token_match
    "<form><input name='__RequestVerificationToken' type='hidden' value='tok-1' /></form>"
  = Some "tok-1"
  /\ "tok-1" <> EmptyString
  /\ Wire.quote_free "tok-1" = true.
Proof.
  assert (H : Token.token_match
                "<form><input name='__RequestVerificationToken' type='hidden' value='tok-1' /></form>"
              = Some "tok-1") by reflexivity.
  pose proof (token_match_is_in_page _ _ H) as H'.
  split; [exact H|]. split; [exact (proj1 H')|exact (proj1 (proj2 H'))].
Defined.

(** A hidden field between single quotes. *)
Lemma token_found_when_present_witness :
  contains ">" "' type='hidden' " = false
  /\ Token.is_quote Token.squote = true
  /\ "abc" <> EmptyString
  /\ Wire.quote_free "abc" = true
  /\ exists found,
      Token.token_match
        ("<form><input name='"
           ++ Wire.hidden_field "' type='hidden' " Token.squote "abc" Token.squote
           ++ " /></form>")
      = Some found.
Proof.
  assert (Hne : "abc" <> EmptyString) by discriminate.
  split; [reflexivity|]. split; [reflexivity|]. split; [exact Hne|].
  split; [reflexivity|].
  exact (token_found_when_present "<form><input name='" "' type='hidden' " "abc"
           " /></form>" Token.squote Token.squote eq_refl eq_refl eq_refl Hne eq_refl).
Defined.

(** A script under an API path, with its extension in capitals. *)
Lemma static_extension_blocks_witness :
  In ".js" Explorer.staticExtensions
  /\ Explorer.toLowerCase ".JS" = ".js"
  /\ Explorer.isApiRequest ("https://cdn.example.com/api/v1/app" ++ ".JS" ++ "?v=3")
     = false.
Proof.
  assert (H : In ".js" Explorer.staticExtensions) by (left; reflexivity).
  split; [exact H|]. split; [reflexivity|].
  exact (static_extension_blocks "https://cdn.example.com/api/v1/app" ".JS" "?v=3"
           ".js" H eq_refl).
Defined.

(* ------------------------------------------------------------------ *)
(** ** The interceptor against the reading of the lines *)

Module LineFacts.
Import SetCookie Wire RoundTrip.

Lemma blank_white (c : ascii) : blank c <-> JS.is_white c = true.
Proof.
  unfold blank.
  destruct c as [[] [] [] [] [] [] [] []]; vm_compute; split; intros H;
    first [ discriminate H
          | reflexivity
          | repeat (destruct H as [H|H]; [discriminate H|]); contradiction
          | repeat (first [left; reflexivity | right]) ].
Qed.

Lemma black_white (c : ascii) : ~ blank c <-> JS.is_white c = false.
Proof.
  rewrite blank_white. destruct (JS.is_white c).
  - split; [intros H; exfalso; now apply H|discriminate].
  - split; [reflexivity|intros _ H; discriminate H].
Qed.

Lemma free_contains (c : ascii) (s : string) :
  free_of c s <-> contains c s = false.
Proof.
  induction s as [|d r IH]; simpl; [tauto|].
  rewrite IH, orb_false_iff, Ascii.eqb_neq. tauto.
Qed.

Lemma blanks_free (c : ascii) (s : string) :
  ~ blank c -> blanks s -> contains c s = false.
Proof.
  intros Hc. induction s as [|d r IH]; simpl; intros H; [reflexivity|].
  destruct H as [Hd Hr]. rewrite (IH Hr), orb_false_r.
  apply Ascii.eqb_neq. intros ->. contradiction.
Qed.

Lemma app_empty (s : string) : s ++ EmptyString = s.
Proof. induction s as [|c r IH]; simpl; [reflexivity|now rewrite IH]. Qed.

Lemma app_assoc3 (a b c : string) : (a ++ b) ++ c = a ++ b ++ c.
Proof. induction a as [|x r IH]; simpl; [reflexivity|now rewrite IH]. Qed.

Lemma blanks_trimStart (lead x : string) :
  blanks lead -> JS.trimStart (lead ++ x) = JS.trimStart x.
Proof.
  induction lead as [|c r IH]; simpl; intros H; [reflexivity|].
  destruct H as [Hc Hr]. apply blank_white in Hc. rewrite Hc. auto.
Qed.

Lemma blanks_trimEnd (t : string) : blanks t -> JS.trimEnd t = EmptyString.
Proof.
  induction t as [|c r IH]; simpl; intros H; [reflexivity|].
  destruct H as [Hc Hr]. apply blank_white in Hc. now rewrite (IH Hr), Hc.
Qed.

Lemma trimStart_lead (s : string) :
  exists lead, s = lead ++ JS.trimStart s /\ blanks lead.
Proof.
  induction s as [|c r IH]; [exists EmptyString; now split|].
  cbn [JS.trimStart]. destruct (JS.is_white c) eqn:W.
  - destruct IH as (lead & Hs & Hb). exists (String c lead). split.
    + simpl. now rewrite <- Hs.
    + split; [now apply blank_white|exact Hb].
  - exists EmptyString. now split.
Qed.

Lemma trimEnd_trail (s : string) :
  exists trail, s = JS.trimEnd s ++ trail /\ blanks trail.
Proof.
  induction s as [|c r IH]; [exists EmptyString; now split|].
  destruct IH as (trail & Hs & Hb). cbn [JS.trimEnd].
  destruct (JS.trimEnd r) as [|d t] eqn:E.
  - simpl in Hs. subst trail. destruct (JS.is_white c) eqn:W.
    + exists (String c r). split; [reflexivity|].
      split; [now apply blank_white|exact Hb].
    + exists r. now split.
  - exists trail. split; [|exact Hb]. simpl. simpl in Hs. now rewrite <- Hs.
Qed.

Lemma last_char_none (s : string) : last_char s = None -> s = EmptyString.
Proof.
  destruct s as [|c r]; [reflexivity|]. simpl. now destruct (last_char r).
Qed.

(** A string is left alone by [trimEnd] exactly when it does not end with
    white space. *)
Lemma trimEnd_fixed (s : string) : JS.trimEnd s = s <-> black_end s.
Proof.
  unfold black_end. induction s as [|c r IH]; [simpl; split; [discriminate|reflexivity]|].
  cbn [JS.trimEnd last_char]. destruct (last_char r) as [d|] eqn:L.
  - assert (Hr : r <> EmptyString) by (intros ->; discriminate L).
    destruct (JS.trimEnd r) as [|e t] eqn:E.
    + split.
      * intros H. exfalso. destruct (JS.is_white c); [discriminate H|].
        injection H as H. now apply Hr.
      * intros H. exfalso. apply Hr. symmetry. apply IH. exact H.
    + split.
      * intros [= H]. apply IH. exact H.
      * intros H. f_equal. apply IH. exact H.
  - apply last_char_none in L. subst r. cbn [JS.trimEnd].
    split.
    + intros H x [= <-]. apply black_white. now destruct (JS.is_white c).
    + intros H. specialize (H c eq_refl). apply black_white in H. now rewrite H.
Qed.

Lemma black_end_equals (v : string) : black_end v -> black_end (String "=" v).
Proof.
  unfold black_end. cbn [last_char]. intros H c.
  destruct (last_char v) as [d|]; [exact (H c)|].
  intros [= <-]. apply black_white. reflexivity.
Qed.

Lemma equals_black_end (v : string) : black_end (String "=" v) -> black_end v.
Proof.
  unfold black_end. cbn [last_char]. intros H c Hc. apply H. now rewrite Hc.
Qed.

Lemma black_start_starts (s : string) :
  s <> EmptyString -> black_start s -> starts_black s.
Proof.
  destruct s as [|c r]; [contradiction|]. intros _ H. exists c, r.
  split; [reflexivity|]. apply black_white. now apply H.
Qed.

Lemma starts_black_start (s : string) : starts_black s -> black_start s.
Proof.
  intros (c & r & -> & W) x [= <-]. now apply black_white.
Qed.

Lemma starts_nonempty (s : string) : starts_black s -> s <> EmptyString.
Proof. intros (c & r & -> & _). discriminate. Qed.

(** The interceptor reads a line as the reading of the lines says. *)
Lemma parse_sets (line n v : string) :
  parse_cookie line = Some (n, v) -> sets line n v.
Proof.
  intros Hp. pose proof (parse_cookie_tidy _ _ _ Hp) as [Hb He Heq Hsemi Hwhole].
  revert Hp. unfold parse_cookie.
  pose proof (join_split ";" line) as Hline.
  destruct (StringFacts.split_head ";" line) as (pair & t & Hsp & _).
  rewrite Hsp in Hline |- *. cbn [hd].
  assert (Hrest : exists rest, line = pair ++ rest
                    /\ (rest = EmptyString \/ exists a, rest = String ";" a)).
  { destruct t as [|y t'].
    - exists EmptyString. cbn [JS.join] in Hline. rewrite app_empty.
      split; [now symmetry|now left].
    - exists (String ";" (JS.join ";" (y :: t'))). split; [|right; eauto].
      rewrite <- Hline at 1. reflexivity. }
  destruct Hrest as (rest & Hl & Hrest). clear Hline Hsp t.
  destruct (trimStart_lead pair) as (lead & Hlead & Hbl).
  destruct (trimEnd_trail (JS.trimStart pair)) as (trail & Htrail & Hbt).
  assert (Hstart : JS.trim pair = EmptyString \/ starts_black (JS.trim pair)).
  { unfold JS.trim. destruct (trimStart_result pair) as [->|Hs]; [now left|].
    right. now apply trimEnd_black. }
  fold (JS.trim pair) in Htrail.
  remember (JS.trim pair) as part eqn:Hpart.
  destruct (JS.truthy part) eqn:Htr; [|discriminate].
  destruct Hstart as [->|Hblack]; [discriminate Htr|].
  pose proof (join_split "=" part) as Hjoin.
  destruct (JS.split "=" part) as [|name0 valueParts]; [discriminate|].
  destruct (JS.truthy name0) eqn:Hn0; [|discriminate].
  destruct valueParts as [|y ys]; [discriminate|].
  change (JS.join "=" (name0 :: y :: ys))
    with (name0 ++ String "=" (JS.join "=" (y :: ys))) in Hjoin.
  remember (JS.join "=" (y :: ys)) as v0 eqn:Hv0. clear Hv0.
  cbn [andb length Nat.ltb Nat.leb]. intros [= Hn Hv]. subst v0.
  assert (Hne0 : name0 <> EmptyString) by (intros ->; discriminate Hn0).
  assert (Hnb : starts_black name0).
  { apply (starts_black_prefix name0 (String "=" v) Hne0). now rewrite Hjoin. }
  unfold JS.trim in Hn. rewrite (trimStart_black _ Hnb) in Hn.
  destruct (trimEnd_trail name0) as (gap & Hgap & Hbg). rewrite Hn in Hgap.
  exists lead, gap, trail, rest.
  split.
  { rewrite Hl, Hlead, Htrail, <- Hjoin, Hgap.
    rewrite !app_assoc3. reflexivity. }
  split; [exact Hbl|]. split; [exact Hbg|]. split; [exact Hbt|].
  split; [exact Hrest|].
  split; [now apply starts_nonempty|].
  split; [now apply starts_black_start|].
  split; [now apply trimEnd_fixed|].
  split; [now apply free_contains|].
  rewrite contains_app in Hsemi. apply orb_false_iff in Hsemi.
  destruct Hsemi as [Hs1 Hs2]. simpl in Hs2.
  split; [now apply free_contains|].
  split; [now apply free_contains|].
  apply equals_black_end, trimEnd_fixed.
  rewrite trimEnd_app in Hwhole.
  destruct (JS.trimEnd (String "=" v)) as [|d t] eqn:E.
  - exfalso. now apply (trimEnd_equals v).
  - now apply append_cancel in Hwhole.
Qed.

Lemma semicolon_black : ~ blank ";".
Proof. apply black_white. reflexivity. Qed.

Lemma equals_black : ~ blank "=".
Proof. apply black_white. reflexivity. Qed.

Lemma sets_parse (line n v : string) :
  sets line n v -> parse_cookie line = Some (n, v).
Proof.
  intros (lead & gap & trail & rest & -> & Hl & Hg & Ht & Hrest & Hne & Hbs & Hbe
          & Hneq & Hnsemi & Hvsemi & Hve).
  apply free_contains in Hneq, Hnsemi, Hvsemi.
  pose proof (black_start_starts _ Hne Hbs) as Hnb.
  apply trimEnd_fixed in Hbe.
  pose proof (proj2 (trimEnd_fixed _) (black_end_equals _ Hve)) as Hcore.
  set (name0 := n ++ gap).
  set (part := name0 ++ String "=" v).
  assert (Hline : lead ++ n ++ gap ++ String "=" (v ++ trail ++ rest)
                  = (lead ++ part ++ trail) ++ rest).
  { unfold part, name0. rewrite !app_assoc3. reflexivity. }
  rewrite Hline. clear Hline.
  assert (Hn0eq : contains "=" name0 = false).
  { unfold name0. rewrite contains_app, Hneq. apply (blanks_free _ _ equals_black Hg). }
  assert (Hpsemi : contains ";" (lead ++ part ++ trail) = false).
  { unfold part, name0. rewrite !contains_app. simpl.
    rewrite (blanks_free _ _ semicolon_black Hl), (blanks_free _ _ semicolon_black Hg),
      (blanks_free _ _ semicolon_black Ht), Hnsemi, Hvsemi. reflexivity. }
  assert (Hn0b : starts_black name0) by (now apply starts_black_app).
  assert (Hpb : starts_black (part ++ trail)).
  { apply starts_black_app. now apply starts_black_app. }
  assert (Htrim : JS.trim (lead ++ part ++ trail) = part).
  { unfold JS.trim. rewrite (blanks_trimStart _ _ Hl), (trimStart_black _ Hpb).
    rewrite trimEnd_app, (blanks_trimEnd _ Ht).
    unfold part. rewrite trimEnd_app, Hcore. reflexivity. }
  assert (Hname : JS.trim name0 = n).
  { unfold JS.trim. rewrite (trimStart_black _ Hn0b).
    unfold name0. rewrite trimEnd_app, (blanks_trimEnd _ Hg). exact Hbe. }
  unfold parse_cookie.
  assert (Hhd : hd EmptyString (JS.split ";" ((lead ++ part ++ trail) ++ rest))
                = lead ++ part ++ trail).
  { destruct Hrest as [->|[a ->]].
    - rewrite app_empty, (split_without _ _ Hpsemi). reflexivity.
    - now apply StringFacts.split_append_head. }
  rewrite Hhd, Htrim.
  assert (Htruthy : JS.truthy part = true).
  { destruct Hnb as (c & r & -> & _). reflexivity. }
  rewrite Htruthy. unfold part at 1. rewrite (split_at _ _ _ Hn0eq).
  assert (Htn : JS.truthy name0 = true).
  { destruct Hnb as (c & r & -> & _). reflexivity. }
  rewrite Htn, Hname.
  pose proof (join_split "=" v) as Hj.
  destruct (StringFacts.split_head "=" v) as (x & t & Hs & _).
  rewrite Hs in *. cbn [andb length Nat.ltb Nat.leb]. now rewrite Hj.
Qed.

Lemma parse_cookie_sets (line n v : string) :
  parse_cookie line = Some (n, v) <-> sets line n v.
Proof. split; [apply parse_sets|apply sets_parse]. Qed.

Lemma named_names (lines : list string) (n : string) :
  named lines n <-> names lines n.
Proof.
  split; intros (h & v & Hin & H); exists h, v; (split; [exact Hin|]);
    now apply parse_cookie_sets.
Qed.

Lemma last_value_last_sets (lines : list string) (n v : string) :
  last_value lines n = Some v <-> last_sets lines n v.
Proof.
  split.
  - revert v. induction lines as [|h r IH]; intros v; [discriminate|].
    cbn [last_value]. destruct (last_value r n) as [v'|] eqn:L.
    + intros [= ->]. destruct (IH v eq_refl) as (before & line & after & -> & Hs & Hn).
      exists (h :: before), line, after. now split.
    + destruct (parse_cookie h) as [[k v']|] eqn:Hp; [|discriminate].
      destruct (String.eqb k n) eqn:E; [|discriminate].
      apply String.eqb_eq in E. subst k. intros [= ->].
      exists [], h, r. split; [reflexivity|]. split; [now apply parse_sets|].
      intros l v' Hin Hs. apply sets_parse in Hs.
      assert (Hnamed : named r n) by (now exists l, v').
      apply last_value_named in Hnamed. destruct Hnamed as [x Hx].
      rewrite L in Hx. discriminate Hx.
  - intros (before & line & after & -> & Hs & Hn).
    apply sets_parse in Hs.
    assert (Hafter : last_value after n = None).
    { destruct (last_value after n) as [x|] eqn:L; [|reflexivity].
      exfalso. assert (Hnamed : named after n) by (apply last_value_named; eauto).
      destruct Hnamed as (l & v' & Hin & Hp). apply (Hn l v' Hin).
      now apply parse_sets. }
    induction before as [|b before' IH]; cbn [app last_value].
    + now rewrite Hafter, Hs, String.eqb_refl.
    + now rewrite IH.
Qed.

Lemma collect_last_sets (lines : list string) (n v : string) :
  In (n, v) (collect lines) <-> last_sets lines n v.
Proof.
  rewrite <- last_value_last_sets, <- lookup_collect. split.
  - apply in_lookup, nodup_collect.
  - apply lookup_in.
Qed.

Lemma collect_names (lines : list string) (n : string) :
  In n (map fst (collect lines)) <-> names lines n.
Proof. rewrite keys_collect. apply named_names. Qed.

Lemma capture_entries (lines old : list string) :
  capture (Some lines) old = entries (collect lines).
Proof. reflexivity. Qed.

Lemma names_free (lines : list string) (n : string) :
  names lines n -> free_of "=" n.
Proof.
  intros (l & v & _ & H).
  destruct H as (_ & _ & _ & _ & _ & _ & _ & _ & _ & _ & _ & _ & H & _). exact H.
Qed.

(** An entry has one name. *)
Lemma entry_name_unique (n v n' v' : string) :
  free_of "=" n -> free_of "=" n' -> entry n v = entry n' v' -> n = n'.
Proof.
  intros Hn Hn' He. apply free_contains in Hn, Hn'.
  rewrite <- (entry_name_render n v Hn), <- (entry_name_render n' v' Hn').
  unfold render. cbn [fst snd]. unfold entry in He. now rewrite He.
Qed.

(** The entries of cookies whose names hold no equals sign are told apart
    by their names. *)
Lemma in_entries (cookies : list (string * string)) (name value : string) :
  (forall n, In n (map fst cookies) -> free_of "=" n) ->
  free_of "=" name ->
  In (entry name value) (entries cookies) <-> In (name, value) cookies.
Proof.
  intros Hfree Hname. split.
  - intros Hin. apply in_map_iff in Hin. destruct Hin as ([n v] & He & Hin).
    cbn [fst snd] in He.
    assert (Hn : free_of "=" n) by (apply Hfree; apply (in_map fst) in Hin; exact Hin).
    pose proof (entry_name_unique n v name value Hn Hname He) as ->.
    unfold entry in He. apply append_cancel in He. injection He as ->. exact Hin.
  - intros Hin. exact (in_map (fun c => entry (fst c) (snd c)) cookies (name, value) Hin).
Qed.

(** The last line that sets a name gives it one value. *)
Lemma last_sets_functional (lines : list string) (name v1 v2 : string) :
  last_sets lines name v1 -> last_sets lines name v2 -> v1 = v2.
Proof.
  intros H1 H2. apply last_value_last_sets in H1, H2. congruence.
Qed.

End LineFacts.

(* ------------------------------------------------------------------ *)
(** ** The store after a response *)

Import SetCookie LineFacts Failures.

(** A response that the call accepts is returned and reaches the
    interceptor; a response that the call rejects does not. *)
Lemma send_accepted (server : list Exchange -> Request -> Outcome) (m : Method)
      (u : string) (b : option string) (cfg : Config) (w : Client) (r : Response) :
  answer_to server m u b cfg w = Resp r ->
  validate_of cfg (status r) = true ->
  sessionCookies (snd (send server m u b cfg w))
  = capture (set_cookie r) (sessionCookies w).
Proof.
  unfold answer_to. intros Hr Hv. apply send_store.
  unfold send. cbn [fst]. rewrite Hr. cbn [settle]. now rewrite Hv.
Qed.

Lemma send_rejected (server : list Exchange -> Request -> Outcome) (m : Method)
      (u : string) (b : option string) (cfg : Config) (w : Client) (r : Response) :
  answer_to server m u b cfg w = Resp r ->
  validate_of cfg (status r) = false ->
  sessionCookies (snd (send server m u b cfg w)) = sessionCookies w.
Proof.
  unfold answer_to. intros Hr Hv.
  unfold send. cbn [snd sessionCookies]. rewrite Hr. cbn [settle]. now rewrite Hv.
Qed.

(** C3 (amended). After a response that the call returns (its status is
    accepted) and that has [Set-Cookie] lines, the store holds exactly one
    entry per cookie name that the lines set, and the entry of a name is
    [name=value] for the value of the last line that sets the name: the
    store is the list of the entries of cookies with distinct names, the
    names are those that some line sets, and a cookie is among them exactly
    when the last line setting its name gives its value; said of the store
    itself, [name=value] is in the store exactly when the last line setting
    [name] gives [value], and no name has two entries.  A response that
    the call rejects leaves the store as it is. *)
Theorem returned_response_last_write_wins
        (server : list Exchange -> Request -> Outcome) (m : Method) (u : string)
        (b : option string) (cfg : Config) (w : Client) (r : Response)
        (lines : list string) :
  answer_to server m u b cfg w = Resp r ->
  set_cookie r = Some lines ->
  let store := sessionCookies (snd (send server m u b cfg w)) in
  (validate_of cfg (status r) = true ->
   (exists cookies,
       store = entries cookies
       /\ NoDup (map fst cookies)
       /\ (forall name, In name (map fst cookies) <-> names lines name)
       /\ (forall name value, In (name, value) cookies <-> last_sets lines name value))
   /\ (forall name value,
         free_of "=" name ->
         (In (entry name value) store <-> last_sets lines name value))
   /\ (forall name v1 v2,
         free_of "=" name ->
         In (entry name v1) store -> In (entry name v2) store -> v1 = v2))
  /\ (validate_of cfg (status r) = false -> store = sessionCookies w).
Proof.
  intros Hr Hs. cbv zeta. split; intros Hv.
  - rewrite (send_accepted _ _ _ _ _ _ _ Hr Hv), Hs, capture_entries.
    assert (Hdirect : forall name value,
               free_of "=" name ->
               (In (entry name value) (entries (collect lines))
                <-> last_sets lines name value)).
    { intros name value Hfree. rewrite <- collect_last_sets.
      apply in_entries; [|exact Hfree].
      intros n Hn. apply (names_free lines), collect_names, Hn. }
    split; [|split].
    + exists (collect lines). split; [reflexivity|].
      split; [apply nodup_collect|].
      split; [apply collect_names|apply collect_last_sets].
    + exact Hdirect.
    + intros name v1 v2 Hfree H1 H2. apply Hdirect in H1, H2; try exact Hfree.
      exact (last_sets_functional _ _ _ _ H1 H2).
  - exact (send_rejected _ _ _ _ _ _ _ Hr Hv).
Qed.

(** C10 (amended). A response that the call returns and that has
    [Set-Cookie] lines replaces the store: the new store is the list of
    the entries of the cookies that the lines name, it is the same
    whatever the store held before, and an entry of the old store whose
    name the lines do not set is gone.  A returned response without
    [Set-Cookie] lines leaves the store as it is, and so does a response
    that the call rejects, whatever it carries. *)
Theorem returned_response_replaces_store
        (server : list Exchange -> Request -> Outcome) (m : Method) (u : string)
        (b : option string) (cfg : Config) (w : Client) (r : Response) :
  answer_to server m u b cfg w = Resp r ->
  let store := sessionCookies (snd (send server m u b cfg w)) in
  (validate_of cfg (status r) = true ->
   (forall lines,
       set_cookie r = Some lines ->
       (exists cookies,
           store = entries cookies
           /\ NoDup (map fst cookies)
           /\ (forall name, In name (map fst cookies) <-> names lines name))
       /\ (forall w',
             answer_to server m u b cfg w' = Resp r ->
             sessionCookies (snd (send server m u b cfg w')) = store)
       /\ (forall name value,
             In (entry name value) (sessionCookies w) ->
             free_of "=" name ->
             ~ names lines name ->
             ~ In (entry name value) store))
   /\ (set_cookie r = None -> store = sessionCookies w))
  /\ (validate_of cfg (status r) = false -> store = sessionCookies w).
Proof.
  intros Hr. cbv zeta. split; intros Hv.
  - rewrite (send_accepted _ _ _ _ _ _ _ Hr Hv). split.
    + intros lines Hs. rewrite Hs. split; [|split].
      * exists (collect lines). split; [apply capture_entries|].
        split; [apply nodup_collect|apply collect_names].
      * intros w' Hr'. rewrite (send_accepted _ _ _ _ _ _ _ Hr' Hv), Hs. reflexivity.
      * intros name value _ Hfree Hnot Hin. apply Hnot.
        rewrite capture_entries in Hin. apply in_map_iff in Hin.
        destruct Hin as ([n' v'] & He & Hin'). cbn [fst snd] in He.
        assert (Hn' : names lines n').
        { apply collect_names. apply (in_map fst) in Hin'. exact Hin'. }
        rewrite (entry_name_unique name value n' v' Hfree (names_free _ _ Hn'));
          [exact Hn'|now symmetry].
    + now intros ->.
  - exact (send_rejected _ _ _ _ _ _ _ Hr Hv).
Qed.

(** A line with white space around the name, read by hand. *)
Example sets_padded_name : sets "theme = dark ; Secure" "theme" " dark".
Proof.
  exists EmptyString, " ", " ", "; Secure".
  split; [reflexivity|].
  assert (Hb : blanks " ") by (split; [right; right; right; right; right; now left|exact I]).
  split; [exact I|]. split; [exact Hb|]. split; [exact Hb|].
  split; [right; now exists " Secure"|].
  split; [discriminate|].
  split; [intros c [= <-]; apply black_white; reflexivity|].
  split; [intros c [= <-]; apply black_white; reflexivity|].
  split; [repeat split; discriminate|].
  split; [repeat split; discriminate|].
  split; [repeat split; discriminate|].
  intros c [= <-]. apply black_white. reflexivity.
Qed.

(** On a returned response that sets [sid] twice and [theme] with white
    space around the name, the store holds [sid] with its second value and
    [theme] under its bare name. *)
Lemma returned_response_last_write_wins_witness :
  let store :=
    sessionCookies (snd (send cookie_server GET "/" None no_config stale_client)) in
  answer_to cookie_server GET "/" None no_config stale_client = Resp cookie_response
  /\ set_cookie cookie_response = Some sample_headers
  /\ In "sid=2" store
  /\ In "theme= dark" store.
Proof.
  cbv zeta.
  assert (Hr : answer_to cookie_server GET "/" None no_config stale_client
               = Resp cookie_response) by reflexivity.
  assert (Hs : set_cookie cookie_response = Some sample_headers) by reflexivity.
  split; [exact Hr|]. split; [exact Hs|].
  destruct (proj1 (returned_response_last_write_wins cookie_server GET "/" None
                     no_config stale_client cookie_response sample_headers Hr Hs)
              eq_refl)
    as (_ & Hstore & _).
  split.
  - apply (Hstore "sid" "2"); [repeat split; discriminate|].
    apply last_value_last_sets. reflexivity.
  - apply (Hstore "theme" " dark"); [repeat split; discriminate|].
    exists ["sid=1; Path=/"; "lang=he"; "sid=2; HttpOnly"; "broken"],
      "theme = dark ; Secure", [].
    split; [reflexivity|]. split; [exact sets_padded_name|intros l v []].
Defined.

(** The cookie [old] of an earlier response is gone after a returned
    response that sets [sid], [lang] and [theme]. *)
Lemma returned_response_replaces_store_witness :
  let store :=
    sessionCookies (snd (send cookie_server GET "/" None no_config stale_client)) in
  answer_to cookie_server GET "/" None no_config stale_client = Resp cookie_response
  /\ In "old=0" (sessionCookies stale_client)
  /\ (exists cookies,
         store = entries cookies
         /\ In "sid" (map fst cookies) /\ In "theme" (map fst cookies))
  /\ ~ In "old=0" store.
Proof.
  cbv zeta.
  assert (Hr : answer_to cookie_server GET "/" None no_config stale_client
               = Resp cookie_response) by reflexivity.
  assert (Hold : In "old=0" (sessionCookies stale_client)) by (now left).
  split; [exact Hr|]. split; [exact Hold|].
  destruct (proj1 (proj1 (returned_response_replaces_store cookie_server GET "/" None
                            no_config stale_client cookie_response Hr) eq_refl)
              sample_headers eq_refl)
    as ((cookies & Hstore & _ & Hnames) & _ & Hgone).
  split.
  - exists cookies. split; [exact Hstore|]. split; apply Hnames, named_names.
    + exists "sid=1; Path=/", "1". split; [now left|reflexivity].
    + exists "theme = dark ; Secure", " dark". split; [|reflexivity].
      right; right; right; right; now left.
  - apply (Hgone "old" "0" Hold).
    + repeat split; discriminate.
    + intros H. apply named_names, last_value_named in H. destruct H as [v H].
      discriminate H.
Defined.

(** C3, as stated, fails: a response with status 500 carries three
    [Set-Cookie] lines, the last of which sets [sid] to 2; the call throws
    it, the interceptor does not run, and the store still holds what it held
    before and no entry for [sid]. *)
Lemma rejected_response_sets_no_cookie :
  answer_to rejecting_server GET "/" None no_config stale_client = Resp rejected_response
  /\ sessionCookies (snd (send rejecting_server GET "/" None no_config stale_client))
     = ["old=0"]
  /\ ~ Literal.last_write_wins_after_every_response rejecting_server GET "/" None
         no_config stale_client.
Proof.
  split; [reflexivity|]. split; [reflexivity|].
  intros H.
  specialize (H rejected_response ["sid=1; Path=/"; "lang=he"; "sid=2; HttpOnly"]
                "sid" "2" eq_refl eq_refl).
  assert (Hlast : last_sets ["sid=1; Path=/"; "lang=he"; "sid=2; HttpOnly"] "sid" "2")
    by (apply last_value_last_sets; reflexivity).
  specialize (H Hlast). destruct H as [H|[]]. discriminate H.
Qed.

(** C10, as stated, fails: after the same response the cookie [old], which
    the response does not name, is still in the store. *)
Lemma rejected_response_keeps_old_cookie :
  answer_to rejecting_server GET "/" None no_config stale_client = Resp rejected_response
  /\ In "old=0"
        (sessionCookies (snd (send rejecting_server GET "/" None no_config stale_client)))
  /\ ~ Literal.replaced_after_every_response rejecting_server GET "/" None
         no_config stale_client.
Proof.
  split; [reflexivity|]. split; [now left|].
  intros H.
  apply (H rejected_response ["sid=1; Path=/"; "lang=he"; "sid=2; HttpOnly"]
           "old" "0" eq_refl eq_refl).
  - now left.
  - intros Hn. apply named_names, last_value_named in Hn. destruct Hn as [v Hn].
    discriminate Hn.
  - now left.
Qed.

(* ------------------------------------------------------------------ *)
(** ** Exceptions inside the flow *)

(** A failure of the transport during [login] makes [login] false. *)
Lemma login_run_transport_failure (b : bool) (tr : list Exchange) (ex : Exchange)
      (msg : string) :
  LoginRun b tr -> In ex tr -> snd ex = NetErr msg -> b = false.
Proof.
  intros Hrun Hin Hs.
  assert (Hno : forall l, answered_with l ex = false)
    by (intros l; unfold answered_with; now rewrite Hs).
  destruct Hrun; pick_exchange Hin; try reflexivity; try apply Hno;
    try (match goal with H : answered_with _ _ = true |- _ =>
                           rewrite Hno in H; discriminate H end);
    match goal with H : snd _ = Resp _ |- _ => rewrite Hs in H; discriminate H end.
Qed.

(** A request of [bookAppointment] that raises decides the result. *)
Lemma book_run_raised (idsParam date time : string) (res : BookingResult)
      (tr : list Exchange) (ex : Exchange) :
  BookRun idsParam date time res tr ->
  In ex tr -> ~ accepted default_validate ex ->
  res = failed (thrown_message ex).
Proof.
  intros Hrun Hin Hna. destruct Hrun; pick_exchange Hin;
    try reflexivity; try contradiction.
  unfold booking_result.
  destruct (snd ex) as [r|msg] eqn:Hr; [|reflexivity].
  destruct (default_validate (status r)) eqn:Hv; [|reflexivity].
  exfalso. apply Hna. now exists r.
Qed.

Section Errors.
Variable server : list Exchange -> Request -> Outcome.

(** C5 (amended). [completeBooking] always returns a result and never
    throws, and when [login] returns false the result is the failure with
    the message [Login failed].  An exception raised by a request is
    handled by the method that made the request: a failure of the
    transport inside [login] ends in the failure [Login failed], whatever
    the message of the exception; when a request of [getAvailableTimes]
    raises, the method returns all the same and the flow goes on as after
    any lookup, to the success without booking or to the result of
    [bookAppointment]; and when a request of [bookAppointment] raises, the
    result is the failure that carries the message of the server when the
    response has one and the message of the exception otherwise. *)
Theorem completeBooking_handles_errors_inside (config : BookingConfig) (w : Client) :
  let w1 := snd (login server (mobile config) w) in
  let ids := appointmentTypeIds_of config in
  let lookup := getAvailableTimes server ids (schedulerId_of config) None in
  let w2 := snd (lookup w1) in
  exists res,
    fst (completeBooking server config w) = Ok res
    /\ (fst (login server (mobile config) w) = Ok false -> res = failed "Login failed")
    /\ (forall ex msg,
          In ex (exchanges_of (login server (mobile config)) w) ->
          snd ex = NetErr msg ->
          res = failed "Login failed")
    /\ (fst (login server (mobile config) w) = Ok true ->
        (forall ex,
            In ex (exchanges_of lookup w1) ->
            ~ accepted lenient_validate ex ->
            (exists d, fst (lookup w1) = Ok d)
            /\ (wants_booking (date config) (time config) = false ->
                res = logged_in_only)
            /\ (forall d t,
                  date config = Some d -> time config = Some t ->
                  wants_booking (date config) (time config) = true ->
                  fst (bookAppointment server ids (schedulerId_of config) d t None w2)
                  = Ok res))
        /\ (forall d t ex,
              date config = Some d -> time config = Some t ->
              wants_booking (date config) (time config) = true ->
              In ex (exchanges_of
                       (bookAppointment server ids (schedulerId_of config) d t None) w2) ->
              ~ accepted default_validate ex ->
              res = failed (thrown_message ex))).
Proof.
  destruct (completeBooking_run server config w)
    as (b & w1 & tr1 & Hl & Hh1 & Hrun1 & Hcases).
  cbv zeta. rewrite (run_exchanges _ _ _ _ _ Hl Hh1), Hl. cbn [fst snd].
  destruct Hcases as [[-> Hc]|(-> & d & w2 & tr2 & Hg & Hh2 & Hrun2 & Hbook)].
  - exists (failed "Login failed"). rewrite Hc.
    split; [reflexivity|]. split; [reflexivity|]. split; [reflexivity|].
    intros [=].
  - assert (Hlogin : forall ex msg, In ex tr1 -> snd ex = NetErr msg -> False).
    { intros ex msg Hin Hs.
      pose proof (login_run_transport_failure _ _ _ _ Hrun1 Hin Hs) as H.
      discriminate H. }
    rewrite Hg. cbn [fst snd].
    destruct Hbook as [[Hw Hc]
                      |(dd & tt & res & w3 & tr3 & Hd & Ht & Hw & Hb & Hh3 & Hrun3 & Hc)].
    + exists logged_in_only. rewrite Hc.
      split; [reflexivity|]. split; [intros [=]|].
      split; [intros ex msg Hin Hs; destruct (Hlogin ex msg Hin Hs)|].
      intros _. split.
      * intros ex _ _. split; [now exists d|]. split; [reflexivity|].
        intros d0 t0 _ _ Hw'. rewrite Hw in Hw'. discriminate Hw'.
      * intros d0 t0 ex _ _ Hw'. rewrite Hw in Hw'. discriminate Hw'.
    + exists res. rewrite Hc.
      split; [reflexivity|]. split; [intros [=]|].
      split; [intros ex msg Hin Hs; destruct (Hlogin ex msg Hin Hs)|].
      intros _. split.
      * intros ex _ _. split; [now exists d|].
        split; [intros Hw'; rewrite Hw in Hw'; discriminate Hw'|].
        intros d0 t0 Hd0 Ht0 _. rewrite Hd in Hd0. rewrite Ht in Ht0.
        injection Hd0 as <-. injection Ht0 as <-. now rewrite Hb.
      * intros d0 t0 ex Hd0 Ht0 _. rewrite Hd in Hd0. rewrite Ht in Ht0.
        injection Hd0 as <-. injection Ht0 as <-.
        rewrite (run_exchanges _ _ _ _ _ Hb Hh3).
        intros Hin Hna. exact (book_run_raised _ _ _ _ _ _ Hrun3 Hin Hna).
Qed.

End Errors.

(** C5, as stated, fails.  When the type-selection page cannot be reached,
    [getAvailableTimes] swallows the exception and the flow ends with the
    appointment booked; when the vendor cannot be reached at all, the
    result is the failure [Login failed], not the message of the exception
    that the validation raised. *)
Lemma errors_not_reported_by_completeBooking :
  (fst (completeBooking flaky_server sample_config new_client)
   = Ok (booked "2025-11-16" "10:00")
   /\ ~ Literal.exceptions_reported flaky_server sample_config new_client)
  /\ (fst (completeBooking unreachable_server sample_config new_client)
      = Ok (failed "Login failed")
      /\ ~ Literal.exceptions_reported unreachable_server sample_config new_client).
Proof.
  split; (split; [vm_compute; reflexivity|]); intros H.
  - set (ex := nth 3 (exchanges_of (completeBooking flaky_server sample_config) new_client)
                 dummy_exchange).
    assert (Hin : In ex (exchanges_of (completeBooking flaky_server sample_config)
                           new_client)) by nth_exchange.
    destruct (H ex "socket hang up" Hin eq_refl) as (res & Hres & Hs & _).
    vm_compute in Hres. injection Hres as <-. discriminate Hs.
  - set (ex := nth 0 (exchanges_of (completeBooking unreachable_server sample_config)
                 new_client) dummy_exchange).
    assert (Hin : In ex (exchanges_of (completeBooking unreachable_server sample_config)
                           new_client)) by nth_exchange.
    destruct (H ex "connect ECONNREFUSED" Hin eq_refl) as (res & Hres & _ & Hm).
    vm_compute in Hres. injection Hres as <-. discriminate Hm.
Qed.

(** An exception of each kind, on concrete servers: a lookup that raises
    is followed by the booking, and a booking call that the server refuses
    with a message ends in the failure with that message. *)
Example errors_by_method :
  fst (completeBooking flaky_server sample_config new_client)
  = Ok (booked "2025-11-16" "10:00")
  /\ fst (completeBooking busy_server sample_config new_client)
     = Ok (failed "Slot already taken")
  /\ fst (completeBooking unreachable_server login_only_config new_client)
     = Ok (failed "Login failed").
Proof. repeat split; vm_compute; reflexivity. Qed.

(** C8: the input on which the code departs from the claim.  The request
    for the login page is answered with a 302 whose body holds no token.
    The call throws the response, the handler of [login] takes the 302 for
    the redirect of a successful login, and [login] returns true; no login
    is submitted. *)
Theorem login_redirected_page_without_token :
  let tr := exchanges_of (login bare_redirect_server "0544458876") new_client in
  (exists ex r,
      nth_error tr 1 = Some ex
      /\ endpoint ex = login_page
      /\ snd ex = Resp r
      /\ status r = 302
      /\ data r = DStr "Object moved"
      /\ token_of (data r) = None)
  /\ fst (login bare_redirect_server "0544458876" new_client) = Ok true
  /\ ~ In login_submit_call (endpoints tr).
Proof.
  cbv zeta. split; [|split].
  - eexists _, _. split; [vm_compute; reflexivity|]. repeat split.
  - vm_compute. reflexivity.
  - vm_compute. intros [H|[H|[]]]; discriminate H.
Qed.
